(** * ArtifexAI: the provider dispatch layer of [ai_model_manager.py]

    A shallow embedding of [AIModelManager]: the provider registry built by
    [load_api_configs], the five capability entry points with their adapter
    cascades, the vendor adapters (with their polling loops), the cost
    estimator and the batch executor.

    Conventions of the embedding.
    - Python values that reach the code from outside (vendor JSON, keyword
      dictionaries, task and workflow dictionaries) live in [PyVal].
    - Positional parameters are taken at their annotated types
      ([prompt : str], [duration : int], [image : Optional[bytes]], ...).
    - Floats are binary64, as in CPython: [PrimFloat].
    - An [async def] is a computation over the log of I/O events performed so
      far; the vendor is an oracle answering each HTTP request from the log.
    - [while True] loops take fuel; running out of it is the outcome
      [StillPolling], which is not an exception. *)

From Stdlib Require Import ZArith PrimFloat SpecFloat FloatOps.
From stdpp Require Import base option list strings countable gmap fin_maps.

Set Warnings "-inexact-float,-register-all,-clear-no-such-hyp".
Local Open Scope string_scope.

(** ** The provider enumeration ([class AIProvider(Enum)]) *)

Inductive AIProvider : Set :=
  (* Video Generation *)
  | RUNWAY_GEN3 | PIKA_LABS | STABILITY_VIDEO | MOONVALLEY | HAIPER
  | LUMA_DREAM | KLING | COGVIDEO
  (* Image Generation *)
  | MIDJOURNEY | DALL_E_3 | STABLE_DIFFUSION_XL | FLUX_PRO | LEONARDO_AI
  | IDEOGRAM
  (* Audio/Music *)
  | SUNO_AI | UDIO | MUSICGEN | AUDIOCRAFT | ELEVENLABS | RIFFUSION
  (* Text/Script *)
  | CLAUDE_3_OPUS | GPT_4_TURBO | GEMINI_ULTRA | LLAMA_3_405B
  (* Specialized *)
  | WONDER_DYNAMICS | DEEPMOTION | CASCADEUR | MOVE_AI | D_ID | HEYGEN
  | SYNTHESIA
  (* Voice & Speech *)
  | PLAY_HT | MURF_AI | RESEMBLE_AI | DESCRIPT_OVERDUB
  (* Enhancement & Post *)
  | TOPAZ_VIDEO_AI | REAL_ESRGAN | FLOWFRAMES | DEOLDIFY.

(** Every member of the enumeration, in declaration order. *)
Definition all_providers : list AIProvider :=
  [ RUNWAY_GEN3; PIKA_LABS; STABILITY_VIDEO; MOONVALLEY; HAIPER; LUMA_DREAM;
    KLING; COGVIDEO; MIDJOURNEY; DALL_E_3; STABLE_DIFFUSION_XL; FLUX_PRO;
    LEONARDO_AI; IDEOGRAM; SUNO_AI; UDIO; MUSICGEN; AUDIOCRAFT; ELEVENLABS;
    RIFFUSION; CLAUDE_3_OPUS; GPT_4_TURBO; GEMINI_ULTRA; LLAMA_3_405B;
    WONDER_DYNAMICS; DEEPMOTION; CASCADEUR; MOVE_AI; D_ID; HEYGEN; SYNTHESIA;
    PLAY_HT; MURF_AI; RESEMBLE_AI; DESCRIPT_OVERDUB; TOPAZ_VIDEO_AI;
    REAL_ESRGAN; FLOWFRAMES; DEOLDIFY ].

(** The enum values (the strings on the right of each member). *)
Definition provider_value (p : AIProvider) : string :=
  match p with
  | RUNWAY_GEN3 => "runway_gen3" | PIKA_LABS => "pika_labs"
  | STABILITY_VIDEO => "stability_video" | MOONVALLEY => "moonvalley"
  | HAIPER => "haiper" | LUMA_DREAM => "luma_dream_machine"
  | KLING => "kling" | COGVIDEO => "cogvideo"
  | MIDJOURNEY => "midjourney" | DALL_E_3 => "dalle3"
  | STABLE_DIFFUSION_XL => "sdxl" | FLUX_PRO => "flux_pro"
  | LEONARDO_AI => "leonardo" | IDEOGRAM => "ideogram"
  | SUNO_AI => "suno" | UDIO => "udio" | MUSICGEN => "musicgen"
  | AUDIOCRAFT => "audiocraft" | ELEVENLABS => "elevenlabs"
  | RIFFUSION => "riffusion"
  | CLAUDE_3_OPUS => "claude3_opus" | GPT_4_TURBO => "gpt4_turbo"
  | GEMINI_ULTRA => "gemini_ultra" | LLAMA_3_405B => "llama3_405b"
  | WONDER_DYNAMICS => "wonder_dynamics" | DEEPMOTION => "deepmotion"
  | CASCADEUR => "cascadeur" | MOVE_AI => "move_ai" | D_ID => "d_id"
  | HEYGEN => "heygen" | SYNTHESIA => "synthesia"
  | PLAY_HT => "playht" | MURF_AI => "murf" | RESEMBLE_AI => "resemble"
  | DESCRIPT_OVERDUB => "overdub"
  | TOPAZ_VIDEO_AI => "topaz" | REAL_ESRGAN => "realesrgan"
  | FLOWFRAMES => "flowframes" | DEOLDIFY => "deoldify"
  end.

#[global] Instance AIProvider_eq_dec : EqDecision AIProvider.
Proof. solve_decision. Defined.

Definition provider_index (p : AIProvider) : nat :=
  default 0%nat (list_find (λ q, q = p) all_providers ≫= λ r, Some r.1).

#[global] Instance AIProvider_countable : Countable AIProvider.
Proof.
  apply (inj_countable' provider_index (λ i, default RUNWAY_GEN3 (all_providers !! i))).
  intros []; reflexivity.
Defined.

(** ** Python values *)

(** The values the code receives from outside: parsed JSON, keyword
    arguments, dictionary entries of tasks and workflow steps. A [dict] is an
    association list read by first match. *)
Inductive PyVal : Type :=
  | VNone
  | VBool (b : bool)
  | VInt (z : Z)
  | VFloat (f : float)
  | VStr (s : string)
  | VBytes (bs : list Byte.byte)
  | VProvider (p : AIProvider)
  | VList (l : list PyVal)
  | VDict (d : list (string * PyVal)).

Abbreviation PyDict := (list (string * PyVal)).

(** [d.get(key)] on a dictionary, [None] of the option when the key is absent. *)
Fixpoint dict_lookup {V : Type} (key : string) (d : list (string * V)) : option V :=
  match d with
  | [] => None
  | (k, v) :: d' => if String.eqb k key then Some v else dict_lookup key d'
  end.

(** [d.get(key, dflt)]. *)
Definition dict_get_default (d : PyDict) (key : string) (dflt : PyVal) : PyVal :=
  default dflt (dict_lookup key d).

(** [d.get(key)]. *)
Definition dict_get (d : PyDict) (key : string) : PyVal :=
  dict_get_default d key VNone.

(** [v == s] for a string literal [s]. *)
Definition py_eq_str (v : PyVal) (s : string) : bool :=
  match v with
  | VStr s' => String.eqb s' s
  | _ => false
  end.

(** Truth value of a Python object ([if v:]). *)
Definition py_truthy (v : PyVal) : bool :=
  match v with
  | VNone => false
  | VBool b => b
  | VInt z => negb (z =? 0)%Z
  | VFloat f => negb (PrimFloat.eqb f 0%float)
  | VStr s => negb (String.eqb s "")
  | VBytes bs => match bs with [] => false | _ => true end
  | VProvider _ => true
  | VList l => match l with [] => false | _ => true end
  | VDict d => match d with [] => false | _ => true end
  end.

(** ** Provider configurations ([@dataclass class APIConfig]) *)

Record APIConfig : Type := mkAPIConfig {
  provider : AIProvider;
  api_key : string;
  endpoint : string;
  version : string;
  rate_limit : Z;
  cost_per_request : float;
  capabilities : list string;
  max_resolution : option string;
  max_duration : option Z;
  supported_formats : option (list string)
}.

(** The manager object: [self.configs] and [self.session] (only whether a
    session exists matters here). *)
Record AIModelManager : Type := mkManager {
  configs : gmap AIProvider APIConfig;
  session : bool
}.

Definition set_config (p : AIProvider) (c : APIConfig) (self : AIModelManager)
  : AIModelManager :=
  {| configs := <[p := c]> (configs self); session := session self |}.

(** The process environment read by [os.getenv]. *)
Definition Env := string → option string.

(** [os.getenv(name, "")]. *)
Definition getenv (env : Env) (name : string) : string := default "" (env name).

(** ** The registry ([load_api_configs]) *)

(** [self.configs[p] = APIConfig(...)] for each configured vendor, in source
    order; credentials come from the environment and default to the empty
    string. *)
Definition load_api_configs (env : Env) (self : AIModelManager) : AIModelManager :=
  (* Video Generation APIs *)
  let self := set_config RUNWAY_GEN3
    (mkAPIConfig RUNWAY_GEN3 (getenv env "RUNWAY_API_KEY")
       "https://api.runwayml.com/v1/" "gen3_alpha" 10 0.05
       ["text2video"; "image2video"; "video2video"]
       (Some "1280x768") (Some 10%Z) (Some ["mp4"; "mov"])) self in
  let self := set_config PIKA_LABS
    (mkAPIConfig PIKA_LABS (getenv env "PIKA_API_KEY")
       "https://api.pika.art/v1/" "1.0" 20 0.04
       ["text2video"; "image2video"; "video_editing"]
       (Some "1024x576") (Some 3%Z) (Some ["mp4"; "gif"])) self in
  let self := set_config LUMA_DREAM
    (mkAPIConfig LUMA_DREAM (getenv env "LUMA_API_KEY")
       "https://api.lumalabs.ai/dream-machine/v1/" "1.5" 15 0.03
       ["text2video"; "image2video"; "keyframe_animation"]
       (Some "1920x1080") (Some 5%Z) (Some ["mp4"; "webm"])) self in
  let self := set_config KLING
    (mkAPIConfig KLING (getenv env "KLING_API_KEY")
       "https://api.kuaishou.com/kling/v1/" "1.0" 10 0.02
       ["text2video"; "image2video"]
       (Some "1280x720") (Some 5%Z) (Some ["mp4"])) self in
  (* Image Generation APIs *)
  let self := set_config MIDJOURNEY
    (mkAPIConfig MIDJOURNEY (getenv env "MIDJOURNEY_API_KEY")
       "https://api.midjourney.com/v1/" "6.0" 10 0.02
       ["text2image"; "image_variation"; "upscale"; "style_transfer"]
       (Some "2048x2048") None (Some ["png"; "jpg"; "webp"])) self in
  let self := set_config DALL_E_3
    (mkAPIConfig DALL_E_3 (getenv env "OPENAI_API_KEY")
       "https://api.openai.com/v1/images/" "dall-e-3" 5 0.04
       ["text2image"; "image_edit"; "image_variation"]
       (Some "1792x1024") None (Some ["png"; "jpg"])) self in
  let self := set_config FLUX_PRO
    (mkAPIConfig FLUX_PRO (getenv env "FLUX_API_KEY")
       "https://api.blackforestlabs.ai/v1/" "flux.1_pro" 20 0.01
       ["text2image"; "controlnet"; "inpainting"]
       (Some "2048x2048") None (Some ["png"; "jpg"])) self in
  let self := set_config LEONARDO_AI
    (mkAPIConfig LEONARDO_AI (getenv env "LEONARDO_API_KEY")
       "https://cloud.leonardo.ai/api/rest/v1/" "1.0" 30 0.005
       ["text2image"; "consistent_character"; "game_assets"]
       (Some "1024x1024") None (Some ["png"; "jpg"])) self in
  (* Audio/Music APIs *)
  let self := set_config SUNO_AI
    (mkAPIConfig SUNO_AI (getenv env "SUNO_API_KEY")
       "https://api.suno.ai/v1/" "3.5" 10 0.08
       ["text2music"; "lyrics_generation"; "style_remix"]
       None (Some 240%Z) (Some ["mp3"; "wav"; "flac"])) self in
  let self := set_config UDIO
    (mkAPIConfig UDIO (getenv env "UDIO_API_KEY")
       "https://api.udio.com/v1/" "1.0" 10 0.06
       ["text2music"; "music_extension"; "stem_separation"]
       None (Some 300%Z) (Some ["mp3"; "wav"])) self in
  let self := set_config ELEVENLABS
    (mkAPIConfig ELEVENLABS (getenv env "ELEVENLABS_API_KEY")
       "https://api.elevenlabs.io/v1/" "2.0" 20 0.01
       ["text2speech"; "voice_cloning"; "speech2speech"]
       None None (Some ["mp3"; "wav"; "flac"])) self in
  (* Text/Script APIs *)
  let self := set_config CLAUDE_3_OPUS
    (mkAPIConfig CLAUDE_3_OPUS (getenv env "ANTHROPIC_API_KEY")
       "https://api.anthropic.com/v1/" "claude-3-opus-20240229" 10 0.015
       ["script_writing"; "dialogue"; "story_generation"; "editing"]
       None None None) self in
  let self := set_config GPT_4_TURBO
    (mkAPIConfig GPT_4_TURBO (getenv env "OPENAI_API_KEY")
       "https://api.openai.com/v1/" "gpt-4-turbo-preview" 10 0.01
       ["script_writing"; "code_generation"; "analysis"]
       None None None) self in
  (* Motion Capture & Animation *)
  let self := set_config WONDER_DYNAMICS
    (mkAPIConfig WONDER_DYNAMICS (getenv env "WONDER_API_KEY")
       "https://api.wonderdynamics.com/v1/" "1.0" 5 0.1
       ["mocap"; "body_tracking"; "face_tracking"; "cg_integration"]
       None None (Some ["fbx"; "bvh"; "usd"])) self in
  (* Voice & Avatar *)
  let self := set_config HEYGEN
    (mkAPIConfig HEYGEN (getenv env "HEYGEN_API_KEY")
       "https://api.heygen.com/v1/" "2.0" 10 0.05
       ["avatar_video"; "voice_sync"; "translation"]
       (Some "1920x1080") None (Some ["mp4"; "webm"])) self in
  (* Enhancement *)
  let self := set_config TOPAZ_VIDEO_AI
    (mkAPIConfig TOPAZ_VIDEO_AI (getenv env "TOPAZ_API_KEY")
       "https://api.topazlabs.com/v1/" "3.0" 5 0.1
       ["upscaling"; "denoising"; "stabilization"; "frame_interpolation"]
       (Some "8192x8192") None (Some ["mp4"; "mov"; "avi"])) self in
  self.

(** [AIModelManager.__init__]: an empty table, no session, then the load. *)
Definition init (env : Env) : AIModelManager :=
  load_api_configs env {| configs := ∅; session := false |}.

(** [initialize]: create the HTTP session when there is none. *)
Definition initialize (self : AIModelManager) : AIModelManager :=
  if negb (session self)
  then {| configs := configs self; session := true |}
  else self.

(** ** Exceptions and outcomes *)

(** The texts of the messages the code formats, with the value they embed. *)
Inductive Message : Type :=
  | Provider_not_configured (provider : PyVal)   (* "Provider {provider} not configured" *)
  | Provider_not_implemented (provider : PyVal)  (* "Provider {provider} not implemented" *)
  | Generation_failed (error : PyVal)            (* "Generation failed: {error}" *)
  | Unknown_task_type (task_type : PyVal).       (* "Unknown task type: {task_type}" *)

Inductive Exn : Type :=
  | ValueError (m : Message)
  | NotImplementedError (m : Message)
  | Exception_ (m : Message)
  | AttributeError (type_name attr : string)
  | NameError (name : string)
  | KeyError (key : PyVal)
  | IndexError
  | TypeError (what : string)
  | OverflowError
  | ContentTypeError.   (* [response.json()] on a body that is not JSON *)

(** What a call comes to: a value, an exception, or (out of fuel) a polling
    loop that has not stopped yet. *)
Inductive Outcome (A : Type) : Type :=
  | Returned (a : A)
  | Raised (e : Exn)
  | StillPolling.
Arguments Returned {A} a.
Arguments Raised {A} e.
Arguments StillPolling {A}.

#[global] Instance Outcome_ret : MRet Outcome := λ A a, Returned a.
#[global] Instance Outcome_bind : MBind Outcome := λ A B f o,
  match o with
  | Returned a => f a
  | Raised e => Raised e
  | StillPolling => StillPolling
  end.

(** ** Operations on Python values *)

(** [v[key]] with a string key. *)
Definition py_subscript (v : PyVal) (key : string) : Outcome PyVal :=
  match v with
  | VDict d =>
      match dict_lookup key d with
      | Some x => Returned x
      | None => Raised (KeyError (VStr key))
      end
  | VStr _ => Raised (TypeError "string indices must be integers")
  | VList _ => Raised (TypeError "list indices must be integers or slices")
  | VBytes _ => Raised (TypeError "byte indices must be integers or slices")
  | _ => Raised (TypeError "object is not subscriptable")
  end.

(** [v[0]]. *)
Definition py_subscript_0 (v : PyVal) : Outcome PyVal :=
  match v with
  | VList (x :: _) => Returned x
  | VStr (String c _) => Returned (VStr (String c ""))
  | VBytes (b :: _) => Returned (VInt (Z.of_N (Byte.to_N b)))
  | VList [] | VStr EmptyString | VBytes [] => Raised IndexError
  | VDict _ => Raised (KeyError (VInt 0))
  | _ => Raised (TypeError "object is not subscriptable")
  end.

(** [type(v).__name__]. *)
Definition py_type_name (v : PyVal) : string :=
  match v with
  | VNone => "NoneType" | VBool _ => "bool" | VInt _ => "int"
  | VFloat _ => "float" | VStr _ => "str" | VBytes _ => "bytes"
  | VProvider _ => "AIProvider" | VList _ => "list" | VDict _ => "dict"
  end.

(** [v.get(key)]: only a [dict] has the method. *)
Definition py_get (v : PyVal) (key : string) : Outcome PyVal :=
  match v with
  | VDict d => Returned (dict_get d key)
  | _ => Raised (AttributeError (py_type_name v) "get")
  end.

(** [min(duration, config.max_duration)] for an [int] duration and an
    [Optional[int]] maximum: comparing with [None] is a [TypeError]. *)
Definition py_min (duration : Z) (max_duration : option Z) : Outcome Z :=
  match max_duration with
  | Some m => Returned (Z.min duration m)
  | None => Raised (TypeError "'<' not supported between instances of 'NoneType' and 'int'")
  end.

(** [d[key] = v] on a dictionary under construction. *)
Fixpoint dict_set {V : Type} (key : string) (v : V) (d : list (string * V))
  : list (string * V) :=
  match d with
  | [] => [(key, v)]
  | (k, x) :: d' =>
      if String.eqb k key then (k, v) :: d' else (k, x) :: dict_set key v d'
  end.

(** ** Requests, the vendor and the event log *)

(** A piece of a formatted string: literal text, or [str(v)] of a value. *)
Inductive Frag : Type :=
  | Lit (s : string)
  | Fmt (v : PyVal).

Abbreviation Text := (list Frag).

(** What the code puts in a request body. [str()] and base64 are library
    functions: their results are kept as the expression that builds them. *)
Inductive Out : Type :=
  | OVal (v : PyVal)
  | OText (t : Text)
  | OB64 (bs : list Byte.byte)   (* [base64.b64encode(bs).decode('utf-8')] *)
  | OList (l : list Out)
  | ODict (d : list (string * Out)).

Abbreviation Body := (list (string * Out)).
Abbreviation Headers := (list (string * string)).

Inductive Event : Type :=
  | EPost (url : Text) (headers : Headers) (json : Body)
  | EGet (url : Text) (headers : Headers)
  | ESleep (seconds : Z).

(** An HTTP response: what [response.json()] parses to (if the body is JSON)
    and what [response.read()] returns. *)
Record Response : Type := mkResponse {
  resp_json : option PyVal;
  resp_bytes : list Byte.byte
}.

(** The log holds the newest event first. The vendor answers the request at
    the head of the log, knowing everything before it. *)
Abbreviation Log := (list Event).
Definition Vendor := Log → Response.

(** A coroutine of the manager. *)
Definition M (A : Type) : Type := Vendor → Log → Outcome A * Log.

#[global] Instance M_ret : MRet M := λ A a _ log, (Returned a, log).
#[global] Instance M_bind : MBind M := λ A B f m vendor log,
  match m vendor log with
  | (Returned a, log') => f a vendor log'
  | (Raised e, log') => (Raised e, log')
  | (StillPolling, log') => (StillPolling, log')
  end.

Definition lift {A} (o : Outcome A) : M A := λ _ log, (o, log).
Definition raise {A} (e : Exn) : M A := lift (Raised e).
Definition still_polling {A} : M A := lift StillPolling.

(** [async with self.session.post(url, headers=headers, json=data)]. *)
Definition session_post (self : AIModelManager) (url : Text) (headers : Headers)
    (data : Body) : M Response :=
  if session self
  then λ vendor log,
    let log' := EPost url headers data :: log in (Returned (vendor log'), log')
  else raise (AttributeError "NoneType" "post").

(** [async with self.session.get(url, headers=headers)]. *)
Definition session_get (self : AIModelManager) (url : Text) (headers : Headers)
  : M Response :=
  if session self
  then λ vendor log,
    let log' := EGet url headers :: log in (Returned (vendor log'), log')
  else raise (AttributeError "NoneType" "get").

(** [await asyncio.sleep(seconds)]. *)
Definition sleep (seconds : Z) : M unit :=
  λ _ log, (Returned tt, ESleep seconds :: log).

(** [await response.json()]. *)
Definition response_json (r : Response) : M PyVal :=
  match resp_json r with
  | Some v => mret v
  | None => raise ContentTypeError
  end.

(** [await response.read()]. *)
Definition response_read (r : Response) : M (list Byte.byte) :=
  mret (resp_bytes r).

(** A name that is no parameter, local or module global: [NameError]. *)
Definition unbound_name {A} (name : string) : M A := raise (NameError name).

(** A method the class does not define. *)
Definition missing_method {A} (name : string) : M A :=
  raise (AttributeError "AIModelManager" name).

(** The two headers of the bearer-token vendors. *)
Definition bearer_headers (config : APIConfig) : Headers :=
  [ ("Authorization", "Bearer " ++ api_key config);
    ("Content-Type", "application/json") ].

Abbreviation Result := PyDict.

Definition mem_string (k : string) (names : list string) : bool :=
  existsb (String.eqb k) names.

(** [self._adapter(a, ..., config, **kwargs)]: a keyword in [kwargs] that
    names a parameter of the adapter is a [TypeError] at the call. *)
Definition forward_kwargs {A} (parameters : list string) (kwargs : PyDict)
    (call : M A) : M A :=
  if existsb (λ kv : string * PyVal, mem_string kv.1 parameters) kwargs
  then raise (TypeError "got multiple values for argument")
  else call.

(** ** Video adapters *)

(** The [while True] loop of [_runway_gen3_video]: one status check per
    round; [completed] returns, [failed] raises, anything else sleeps five
    seconds and goes round again. *)
Fixpoint _runway_gen3_video_poll (fuel : nat) (self : AIModelManager)
    (config : APIConfig) (headers : Headers) (generation_id : PyVal) : M Result :=
  match fuel with
  | O => still_polling
  | S fuel' =>
      status_response ← session_get self
        [Lit (endpoint config ++ "generations/"); Fmt generation_id] headers;
      status_data ← response_json status_response;
      status ← lift (py_subscript status_data "status");
      if py_eq_str status "completed" then
        output_url ← lift (py_subscript status_data "output_url");
        mret [ ("url", output_url);
               ("provider", VStr "Runway Gen-3");
               ("cost", VFloat (cost_per_request config)) ]
      else
        status ← lift (py_subscript status_data "status");
        if py_eq_str status "failed" then
          error ← lift (py_get status_data "error");
          raise (Exception_ (Generation_failed error))
        else
          _ ← sleep 5;
          _runway_gen3_video_poll fuel' self config headers generation_id
  end.

Definition _runway_gen3_video (fuel : nat) (self : AIModelManager)
    (prompt : string) (image : option (list Byte.byte)) (duration : Z)
    (resolution : string) (config : APIConfig) : M Result :=
  let headers := bearer_headers config in
  clamped ← lift (py_min duration (max_duration config));
  let data : Body :=
    [ ("text_prompt", OVal (VStr prompt));
      ("duration", OVal (VInt clamped));
      ("resolution", OVal (VStr resolution));
      ("model", OVal (VStr (version config))) ] in
  let data :=
    match image with
    | Some (b :: bs) => dict_set "init_image" (OB64 (b :: bs)) data
    | _ => data
    end in
  response ← session_post self [Lit (endpoint config ++ "generations")] headers data;
  result ← response_json response;
  (* Poll for completion *)
  generation_id ← lift (py_get result "id");
  _runway_gen3_video_poll fuel self config headers generation_id.

(** [_pika_video] has no [**kwargs] parameter, and the module has no global
    of that name: building the request body stops at [kwargs.get]. *)
Definition _pika_video (self : AIModelManager)
    (prompt : string) (image : option (list Byte.byte)) (duration : Z)
    (resolution : string) (config : APIConfig) : M Result :=
  let headers := bearer_headers config in
  clamped ← lift (py_min duration (max_duration config));
  kwargs ← unbound_name "kwargs";
  let data : Body :=
    [ ("prompt", OVal (VStr prompt));
      ("seconds", OVal (VInt clamped));
      ("resolution", OVal (VStr resolution));
      ("motion", OVal (dict_get_default kwargs "motion" (VInt 3))) ] in
  let data :=
    match image with
    | Some (b :: bs) => dict_set "image" (OB64 (b :: bs)) data
    | _ => data
    end in
  response ← session_post self [Lit (endpoint config ++ "generate")] headers data;
  result ← response_json response;
  video_url ← lift (py_subscript result "video_url");
  mret [ ("url", video_url);
         ("provider", VStr "Pika Labs");
         ("cost", VFloat (cost_per_request config)) ].

(** [self.configs.get(provider)]: a [list] or a [dict] cannot be hashed; any
    other value that is not a member of the enumeration is just not a key. *)
Definition configs_get (self : AIModelManager) (provider : PyVal)
  : Outcome (option APIConfig) :=
  match provider with
  | VProvider p => Returned (configs self !! p)
  | VList _ => Raised (TypeError "unhashable type: 'list'")
  | VDict _ => Raised (TypeError "unhashable type: 'dict'")
  | _ => Returned None
  end.

(** [provider == AIProvider.X]. *)
Definition is_provider (provider : PyVal) (p : AIProvider) : bool :=
  match provider with
  | VProvider q => bool_decide (q = p)
  | _ => false
  end.

Definition generate_video (fuel : nat) (self : AIModelManager)
    (prompt : string) (provider : PyVal) (image : option (list Byte.byte))
    (duration : Z) (resolution : string) (kwargs : PyDict) : M Result :=
  config ← lift (configs_get self provider);
  match config with
  | None => raise (ValueError (Provider_not_configured provider))
  | Some config =>
      if is_provider provider RUNWAY_GEN3 then
        _runway_gen3_video fuel self prompt image duration resolution config
      else if is_provider provider PIKA_LABS then
        _pika_video self prompt image duration resolution config
      else if is_provider provider LUMA_DREAM then
        missing_method "_luma_video"
      else if is_provider provider KLING then
        missing_method "_kling_video"
      else if is_provider provider STABILITY_VIDEO then
        missing_method "_stability_video"
      else raise (NotImplementedError (Provider_not_implemented provider))
  end.

(** ** Image adapters *)

(** The [while True] loop of [_midjourney_image]: [completed] returns;
    every other status sleeps three seconds and goes round again. *)
Fixpoint _midjourney_image_poll (fuel : nat) (self : AIModelManager)
    (config : APIConfig) (headers : Headers) (job_id : PyVal) : M Result :=
  match fuel with
  | O => still_polling
  | S fuel' =>
      status_response ← session_get self
        [Lit (endpoint config ++ "job/"); Fmt job_id] headers;
      status_data ← response_json status_response;
      status ← lift (py_subscript status_data "status");
      if py_eq_str status "completed" then
        image_urls ← lift (py_subscript status_data "image_urls");
        mret [ ("urls", image_urls);
               ("provider", VStr "Midjourney");
               ("cost", VFloat (cost_per_request config)) ]
      else
        _ ← sleep 3;
        _midjourney_image_poll fuel' self config headers job_id
  end.

(** [full_prompt += f" --flag {kwargs[key]}"] when [kwargs.get(key)] is true. *)
Definition add_flag (kwargs : PyDict) (key flag : string) (full_prompt : Text)
  : Text :=
  if py_truthy (dict_get kwargs key)
  then (full_prompt ++ [Lit flag; Fmt (dict_get kwargs key)])%list
  else full_prompt.

Definition _midjourney_image (fuel : nat) (self : AIModelManager)
    (prompt : string) (style : option string) (config : APIConfig)
    (kwargs : PyDict) : M Result :=
  let headers := bearer_headers config in
  (* Midjourney style parameters *)
  let full_prompt : Text := [Lit prompt] in
  let full_prompt :=
    match style with
    | Some (String c st) =>
        (full_prompt ++ [Lit (" --style " ++ String c st)])%list
    | _ => full_prompt
    end in
  let full_prompt := add_flag kwargs "aspect_ratio" " --ar " full_prompt in
  let full_prompt := add_flag kwargs "quality" " --q " full_prompt in
  let full_prompt := add_flag kwargs "stylize" " --s " full_prompt in
  let data : Body :=
    [ ("prompt", OText full_prompt);
      ("version", OVal (VStr (version config))) ] in
  response ← session_post self [Lit (endpoint config ++ "imagine")] headers data;
  result ← response_json response;
  (* Wait for generation *)
  job_id ← lift (py_subscript result "job_id");
  _midjourney_image_poll fuel self config headers job_id.

Definition generate_image (fuel : nat) (self : AIModelManager)
    (prompt : string) (provider : PyVal) (negative_prompt : option string)
    (style : option string) (kwargs : PyDict) : M Result :=
  config ← lift (configs_get self provider);
  match config with
  | None => raise (ValueError (Provider_not_configured provider))
  | Some config =>
      if is_provider provider MIDJOURNEY then
        forward_kwargs ["self"; "prompt"; "style"; "config"] kwargs
          (_midjourney_image fuel self prompt style config kwargs)
      else if is_provider provider DALL_E_3 then
        missing_method "_dalle3_image"
      else if is_provider provider FLUX_PRO then
        missing_method "_flux_image"
      else if is_provider provider LEONARDO_AI then
        missing_method "_leonardo_image"
      else raise (NotImplementedError (Provider_not_implemented provider))
  end.

(** ** Music adapters *)

Definition _suno_music (self : AIModelManager)
    (prompt : string) (duration : Z) (genre : option string)
    (config : APIConfig) (kwargs : PyDict) : M Result :=
  let headers := bearer_headers config in
  clamped ← lift (py_min duration (max_duration config));
  let tags :=
    match genre with
    | Some (String c g) => String c g
    | _ => "pop"
    end in
  let data : Body :=
    [ ("prompt", OVal (VStr prompt));
      ("duration", OVal (VInt clamped));
      ("tags", OVal (VStr tags));
      ("instrumental", OVal (dict_get_default kwargs "instrumental" (VBool false)));
      ("make_public", OVal (VBool false)) ] in
  let data :=
    if py_truthy (dict_get kwargs "lyrics")
    then dict_set "lyrics" (OVal (dict_get kwargs "lyrics")) data
    else data in
  response ← session_post self [Lit (endpoint config ++ "generate")] headers data;
  result ← response_json response;
  audio_url ← lift (py_subscript result "audio_url");
  lyrics ← lift (py_get result "lyrics");
  mret [ ("url", audio_url);
         ("provider", VStr "Suno AI");
         ("cost", VFloat (cost_per_request config));
         ("lyrics", lyrics) ].

Definition generate_music (self : AIModelManager)
    (prompt : string) (provider : PyVal) (duration : Z) (genre : option string)
    (kwargs : PyDict) : M Result :=
  config ← lift (configs_get self provider);
  match config with
  | None => raise (ValueError (Provider_not_configured provider))
  | Some config =>
      if is_provider provider SUNO_AI then
        forward_kwargs ["self"; "prompt"; "duration"; "genre"; "config"] kwargs
          (_suno_music self prompt duration genre config kwargs)
      else if is_provider provider UDIO then
        missing_method "_udio_music"
      else if is_provider provider MUSICGEN then
        missing_method "_musicgen_music"
      else raise (NotImplementedError (Provider_not_implemented provider))
  end.

(** ** Voice adapters *)

Definition _elevenlabs_voice (self : AIModelManager)
    (text : string) (voice_id : option string) (config : APIConfig)
    (kwargs : PyDict) : M Result :=
  let headers : Headers :=
    [ ("xi-api-key", api_key config); ("Content-Type", "application/json") ] in
  let data : Body :=
    [ ("text", OVal (VStr text));
      ("model_id", OVal (VStr "eleven_multilingual_v2"));
      ("voice_settings", ODict
         [ ("stability", OVal (dict_get_default kwargs "stability" (VFloat 0.5)));
           ("similarity_boost", OVal (dict_get_default kwargs "similarity" (VFloat 0.5)));
           ("style", OVal (dict_get_default kwargs "style" (VFloat 0.0)));
           ("use_speaker_boost", OVal (VBool true)) ]) ] in
  let voice_id :=
    match voice_id with
    | Some (String c v) => String c v
    | _ => "21m00Tcm4TlvDq8ikWAM"   (* Default voice *)
    end in
  response ← session_post self
    [Lit (endpoint config ++ "text-to-speech/" ++ voice_id)] headers data;
  audio_data ← response_read response;
  mret [ ("audio", VBytes audio_data);
         ("provider", VStr "ElevenLabs");
         ("cost", VFloat (cost_per_request config)) ].

Definition generate_voice (self : AIModelManager)
    (text : string) (provider : PyVal) (voice_id : option string)
    (kwargs : PyDict) : M Result :=
  config ← lift (configs_get self provider);
  match config with
  | None => raise (ValueError (Provider_not_configured provider))
  | Some config =>
      if is_provider provider ELEVENLABS then
        forward_kwargs ["self"; "text"; "voice_id"; "config"] kwargs
          (_elevenlabs_voice self text voice_id config kwargs)
      else if is_provider provider PLAY_HT then
        missing_method "_playht_voice"
      else raise (NotImplementedError (Provider_not_implemented provider))
  end.

(** ** Script adapters *)

Definition _claude_script (self : AIModelManager)
    (prompt : string) (max_tokens : Z) (config : APIConfig)
    (kwargs : PyDict) : M Result :=
  let headers : Headers :=
    [ ("x-api-key", api_key config);
      ("anthropic-version", "2023-06-01");
      ("Content-Type", "application/json") ] in
  let system_prompt :=
    dict_get_default kwargs "system"
      (VStr "You are a professional screenwriter and creative director.") in
  let data : Body :=
    [ ("model", OVal (VStr (version config)));
      ("max_tokens", OVal (VInt max_tokens));
      ("messages", OList
         [ ODict [ ("role", OVal (VStr "user"));
                   ("content", OVal (VStr prompt)) ] ]);
      ("system", OVal system_prompt);
      ("temperature", OVal (dict_get_default kwargs "temperature" (VFloat 0.7))) ] in
  response ← session_post self [Lit (endpoint config ++ "messages")] headers data;
  result ← response_json response;
  content ← lift (py_subscript result "content");
  first ← lift (py_subscript_0 content);
  text ← lift (py_subscript first "text");
  mret [ ("text", text);
         ("provider", VStr "Claude 3 Opus");
         ("cost", VFloat (cost_per_request config)) ].

Definition generate_script (self : AIModelManager)
    (prompt : string) (provider : PyVal) (max_tokens : Z)
    (kwargs : PyDict) : M Result :=
  config ← lift (configs_get self provider);
  match config with
  | None => raise (ValueError (Provider_not_configured provider))
  | Some config =>
      if is_provider provider CLAUDE_3_OPUS then
        forward_kwargs ["self"; "prompt"; "max_tokens"; "config"] kwargs
          (_claude_script self prompt max_tokens config kwargs)
      else if is_provider provider GPT_4_TURBO then
        missing_method "_gpt4_script"
      else raise (NotImplementedError (Provider_not_implemented provider))
  end.

(** ** Recommendations *)

Definition get_best_provider_for_task (task : string) : AIProvider :=
  let recommendations : list (string * AIProvider) :=
    [ ("video_generation", RUNWAY_GEN3);
      ("cinematic_video", MOONVALLEY);
      ("fast_video", HAIPER);
      ("artistic_image", MIDJOURNEY);
      ("photorealistic_image", DALL_E_3);
      ("consistent_character", LEONARDO_AI);
      ("music_generation", SUNO_AI);
      ("voice_synthesis", ELEVENLABS);
      ("script_writing", CLAUDE_3_OPUS);
      ("motion_capture", WONDER_DYNAMICS);
      ("avatar_video", HEYGEN);
      ("video_enhancement", TOPAZ_VIDEO_AI) ] in
  default RUNWAY_GEN3 (dict_lookup task recommendations).

(** ** Cost estimation *)

(** The binary64 number nearest to [z] (ties to even); an infinity when [z]
    is out of range. *)
Definition to_float (z : Z) : float :=
  SF2Prim (binary_normalize 53 1024 z 0 false).

(** [float(z)] for a Python [int]: [OverflowError] when out of range. *)
Definition float_of_int (z : Z) : Outcome float :=
  let f := to_float z in
  if PrimFloat.is_infinity f then Raised OverflowError else Returned f.

(** [cost * count] for a [float] cost. *)
Definition py_float_mul (cost : float) (count : PyVal) : Outcome float :=
  match count with
  | VInt z => f ← float_of_int z; Returned (cost * f)%float
  | VBool b => Returned (cost * (if b then 1 else 0))%float
  | VFloat f => Returned (cost * f)%float
  | _ => Raised (TypeError "unsupported operand type(s) for *")
  end.

(** The loop of [estimate_cost]; [provider in self.configs] followed by
    [self.configs[provider]] is one lookup. *)
Fixpoint estimate_cost_loop (self : AIModelManager) (workflow : list PyDict)
    (total_cost : float) : Outcome float :=
  match workflow with
  | [] => Returned total_cost
  | step :: workflow' =>
      let provider := dict_get step "provider" in
      config ← configs_get self provider;
      match config with
      | Some config =>
          cost ← py_float_mul (cost_per_request config)
                   (dict_get_default step "count" (VInt 1));
          estimate_cost_loop self workflow' (total_cost + cost)%float
      | None => estimate_cost_loop self workflow' total_cost
      end
  end.

Definition estimate_cost (self : AIModelManager) (workflow : list PyDict)
  : Outcome float :=
  estimate_cost_loop self workflow 0.0%float.

(** ** Batch processing *)

(** [task.get("params", {})]: the keyword arguments that a parameter of some
    entry point names, at that parameter's annotated type, and every other
    keyword ([kw_other], where an entry under one of the names above is not
    read). *)
Record Params : Type := mkParams {
  kw_image : option (list Byte.byte);
  kw_duration : option Z;
  kw_resolution : option string;
  kw_negative_prompt : option string;
  kw_style : option string;
  kw_genre : option string;
  kw_voice_id : option string;
  kw_max_tokens : option Z;
  kw_other : PyDict
}.

Definition no_params : Params :=
  mkParams None None None None None None None None [].

(** A task dictionary, read at the keys [_process_task] reads:
    [task.get("type")], [task.get("provider")], [task["prompt"]],
    [task["text"]] (absent keys are [None] of the option) and the
    parameters. *)
Record Task : Type := mkTask {
  task_type : PyVal;
  task_provider : PyVal;
  task_prompt : option string;
  task_text : option string;
  task_params : Params
}.

Definition named_keywords : list string :=
  [ "image"; "duration"; "resolution"; "negative_prompt"; "style"; "genre";
    "voice_id"; "max_tokens" ].

Definition opt_entry {A} (name : string) (inj : A → PyVal) (o : option A) : PyDict :=
  match o with
  | Some a => [(name, inj a)]
  | None => []
  end.

(** The parameters as the dictionary they are. *)
Definition params_dict (p : Params) : PyDict :=
  (opt_entry "image" VBytes (kw_image p)
   ++ opt_entry "duration" VInt (kw_duration p)
   ++ opt_entry "resolution" VStr (kw_resolution p)
   ++ opt_entry "negative_prompt" VStr (kw_negative_prompt p)
   ++ opt_entry "style" VStr (kw_style p)
   ++ opt_entry "genre" VStr (kw_genre p)
   ++ opt_entry "voice_id" VStr (kw_voice_id p)
   ++ opt_entry "max_tokens" VInt (kw_max_tokens p)
   ++ List.filter (λ kv, negb (mem_string kv.1 named_keywords)) (kw_other p))%list.

(** Calling [f(a, provider, **params)]: a keyword that names a parameter
    already given by position is a [TypeError]; the keywords that name no
    parameter of [f] are collected in its [**kwargs]. *)
Definition bind_keywords (positional signature : list string) (p : Params)
  : M PyDict :=
  let d := params_dict p in
  if existsb (λ kv, mem_string kv.1 positional) d
  then raise (TypeError "got multiple values for argument")
  else mret (List.filter (λ kv, negb (mem_string kv.1 signature)) d).

(** [task[key]]. *)
Definition task_subscript (field : option string) (key : string) : M string :=
  match field with
  | Some s => mret s
  | None => raise (KeyError (VStr key))
  end.

Definition _process_task (fuel : nat) (self : AIModelManager) (task : Task)
  : M Result :=
  let task_type := task_type task in
  let provider := task_provider task in
  let params := task_params task in
  if py_eq_str task_type "video" then
    prompt ← task_subscript (task_prompt task) "prompt";
    kwargs ← bind_keywords ["self"; "prompt"; "provider"]
               ["image"; "duration"; "resolution"] params;
    generate_video fuel self prompt provider
      (kw_image params)
      (default 5%Z (kw_duration params))
      (default "1280x720" (kw_resolution params))
      kwargs
  else if py_eq_str task_type "image" then
    prompt ← task_subscript (task_prompt task) "prompt";
    kwargs ← bind_keywords ["self"; "prompt"; "provider"]
               ["negative_prompt"; "style"] params;
    generate_image fuel self prompt provider
      (kw_negative_prompt params) (kw_style params) kwargs
  else if py_eq_str task_type "music" then
    prompt ← task_subscript (task_prompt task) "prompt";
    kwargs ← bind_keywords ["self"; "prompt"; "provider"]
               ["duration"; "genre"] params;
    generate_music self prompt provider
      (default 60%Z (kw_duration params)) (kw_genre params) kwargs
  else if py_eq_str task_type "voice" then
    text ← task_subscript (task_text task) "text";
    kwargs ← bind_keywords ["self"; "text"; "provider"] ["voice_id"] params;
    generate_voice self text provider (kw_voice_id params) kwargs
  else if py_eq_str task_type "script" then
    prompt ← task_subscript (task_prompt task) "prompt";
    kwargs ← bind_keywords ["self"; "prompt"; "provider"] ["max_tokens"] params;
    generate_script self prompt provider
      (default 4000%Z (kw_max_tokens params)) kwargs
  else raise (ValueError (Unknown_task_type task_type)).

(** The [else] branch of [batch_process] ([parallel=False]): the [for] loop
    appending each result to [results]. *)
Fixpoint batch_process_loop (fuel : nat) (self : AIModelManager)
    (tasks : list Task) (results : list Result) : M (list Result) :=
  match tasks with
  | [] => mret results
  | task :: tasks' =>
      result ← _process_task fuel self task;
      batch_process_loop fuel self tasks' (results ++ [result])%list
  end.

Definition batch_process_sequential (fuel : nat) (self : AIModelManager)
    (tasks : list Task) : M (list Result) :=
  batch_process_loop fuel self tasks [].

(** *** [asyncio.gather]

    The library call of the parallel branch. Its children are futures, one
    per awaitable in argument order; each completes at most once. When a
    child completes with an exception and the outer future is not done, the
    outer future takes that exception; when the last child completes, the
    outer future takes the list of the children's results, read in argument
    order. With no children the result is the empty list. *)
Record Gather : Type := mkGather {
  children : list (option Result);     (* [Some r]: completed with result [r] *)
  outer : option (Outcome (list Result))
}.

(** The futures all done, their results in argument order. *)
Definition collect (children : list (option Result)) : option (list Result) :=
  mapM id children.

(** [_done_callback] for child [i] completing with [o]. *)
Definition done_callback (g : Gather) (i : nat) (o : Outcome Result) : Gather :=
  match outer g with
  | Some _ => g
  | None =>
      match o with
      | StillPolling => g            (* this child never completes *)
      | Raised e => mkGather (children g) (Some (Raised e))
      | Returned r =>
          match children g !! i with
          | Some None =>
              let children' := <[i := Some r]> (children g) in
              mkGather children' (Returned <$> collect children')
          | _ => g                   (* no such pending child *)
          end
      end
  end.

(** [await asyncio.gather] over the coroutines, the children completing in
    [order]. *)
Definition deliver (coros : list (Outcome Result)) (g : Gather) (i : nat)
  : Gather :=
  match coros !! i with
  | Some o => done_callback g i o
  | None => g
  end.

Definition gather (coros : list (Outcome Result)) (order : list nat)
  : Outcome (list Result) :=
  match coros with
  | [] => Returned []
  | _ =>
      let start := mkGather (replicate (length coros) None) None in
      default StillPolling (outer (foldl (deliver coros) start order))
  end.

(** The [if parallel] branch of [batch_process]. Task [i] runs against the
    vendor as it answers that task's own requests ([views i]); the tasks
    complete in [order]. *)
Definition batch_process_parallel (fuel : nat) (self : AIModelManager)
    (tasks : list Task) (views : nat → Vendor) (order : list nat)
  : Outcome (list Result) :=
  gather (imap (λ i task, (_process_task fuel self task (views i) []).1) tasks)
         order.

(** ** Scripted vendors

    The fake vendor of the polling tests: every POST is answered by
    [post_response]; the [k]-th status check (GET) since the start of the log
    is answered by the [k]-th entry of [statuses], and by [after] once the
    script is used up. *)
Definition is_get (e : Event) : bool :=
  match e with
  | EGet _ _ => true
  | _ => false
  end.

Definition status_checks (log : Log) : nat := length (List.filter is_get log).

Definition json_response (v : PyVal) : Response := mkResponse (Some v) [].

Definition scripted (post_response : Response) (statuses : list PyVal)
    (after : PyVal) : Vendor :=
  λ log,
    match log with
    | EGet _ _ :: log' =>
        json_response (default after (statuses !! status_checks log'))
    | _ => post_response
    end.

(** A status document [{"status": s, ...extra}]. *)
Definition status_doc (s : string) (extra : PyDict) : PyVal :=
  VDict (("status", VStr s) :: extra).

(** ** The entry points as one router

    [generate_video], [generate_image], [generate_music], [generate_voice]
    and [generate_script], each with the arguments of its signature after
    [provider]. *)
Inductive Capability : Set := Video | Image | Music | Voice | Script.

Inductive Call : Type :=
  | CallVideo (prompt : string) (image : option (list Byte.byte))
      (duration : Z) (resolution : string) (kwargs : PyDict)
  | CallImage (prompt : string) (negative_prompt style : option string)
      (kwargs : PyDict)
  | CallMusic (prompt : string) (duration : Z) (genre : option string)
      (kwargs : PyDict)
  | CallVoice (text : string) (voice_id : option string) (kwargs : PyDict)
  | CallScript (prompt : string) (max_tokens : Z) (kwargs : PyDict).

Definition capability (c : Call) : Capability :=
  match c with
  | CallVideo _ _ _ _ _ => Video
  | CallImage _ _ _ _ => Image
  | CallMusic _ _ _ _ => Music
  | CallVoice _ _ _ => Voice
  | CallScript _ _ _ => Script
  end.

Definition generate (fuel : nat) (self : AIModelManager) (provider : PyVal)
    (c : Call) : M Result :=
  match c with
  | CallVideo prompt image duration resolution kwargs =>
      generate_video fuel self prompt provider image duration resolution kwargs
  | CallImage prompt negative_prompt style kwargs =>
      generate_image fuel self prompt provider negative_prompt style kwargs
  | CallMusic prompt duration genre kwargs =>
      generate_music self prompt provider duration genre kwargs
  | CallVoice text voice_id kwargs =>
      generate_voice self text provider voice_id kwargs
  | CallScript prompt max_tokens kwargs =>
      generate_script self prompt provider max_tokens kwargs
  end.

(** The providers each entry point has an [if]/[elif] branch for. *)
Definition adapter_branches (cap : Capability) : list AIProvider :=
  match cap with
  | Video => [RUNWAY_GEN3; PIKA_LABS; LUMA_DREAM; KLING; STABILITY_VIDEO]
  | Image => [MIDJOURNEY; DALL_E_3; FLUX_PRO; LEONARDO_AI]
  | Music => [SUNO_AI; UDIO; MUSICGEN]
  | Voice => [ELEVENLABS; PLAY_HT]
  | Script => [CLAUDE_3_OPUS; GPT_4_TURBO]
  end.

(** * The web routes ([app.py]) *)

(** [request.json] of the three generation routes, read at the keys the
    routes read: the prompt, duration, resolution, style and genre at the
    annotated type of the parameter they are passed for ([None] when the key
    is absent), the provider as the JSON value it is ([None] when the key is
    absent, so that the route's default applies). *)
Record GenerationBody : Type := mkGenerationBody {
  body_prompt : option string;
  body_provider : option PyVal;
  body_duration : option Z;
  body_resolution : option string;
  body_style : option string;
  body_genre : option string
}.

(** The text of an error payload: the literal of the 400 answer, or
    [str(e)] of the exception caught. *)
Inductive ErrorText : Type :=
  | Prompt_is_required
  | Str (e : Exn).

(** What [jsonify] is given: a result dictionary or [{'error': text}]. *)
Inductive Payload : Type :=
  | JsonResult (r : Result)
  | JsonError (t : ErrorText).

(** [try: body except Exception as e: handler(e)]. *)
Definition try_except {A} (body : M A) (handler : Exn → M A) : M A :=
  λ vendor log,
    match body vendor log with
    | (Raised e, log') => handler e vendor log'
    | other => other
    end.

(** What the JSON encoder accepts: no [bytes], no enumeration member. *)
Fixpoint json_serializable (v : PyVal) : bool :=
  match v with
  | VBytes _ | VProvider _ => false
  | VList l => forallb json_serializable l
  | VDict d => forallb (λ kv, json_serializable (snd kv)) d
  | _ => true
  end.

(** [jsonify(result)]. *)
Definition jsonify (result : Result) : M Payload :=
  if json_serializable (VDict result)
  then mret (JsonResult result)
  else raise (TypeError "Object is not JSON serializable").

(** [if not prompt]. *)
Definition prompt_given (prompt : option string) : option string :=
  match prompt with
  | Some (String c s) => Some (String c s)
  | _ => None
  end.

(** [generate_video] of [app.py], the route [POST /api/generate/video];
    [ai_manager] is [None] when the import of the manager failed. The answer
    is the payload and the HTTP status. *)
Definition generate_video_route (fuel : nat) (ai_manager : option AIModelManager)
    (data : GenerationBody) : M (Payload * Z) :=
  try_except
    (let prompt := body_prompt data in
     let provider := default (VStr "runway_gen3") (body_provider data) in
     match prompt_given prompt with
     | None => mret (JsonError Prompt_is_required, 400%Z)
     | Some prompt =>
         match ai_manager with
         | Some manager =>
             result ← generate_video fuel manager prompt provider None
                        (default 5%Z (body_duration data))
                        (default "1280x720" (body_resolution data)) [];
             payload ← jsonify result;
             mret (payload, 200%Z)
         | None =>
             (* Mock response for development *)
             payload ← jsonify [ ("url", VStr "http://example.com/video.mp4");
                                 ("provider", provider);
                                 ("cost", VFloat 0.05) ];
             mret (payload, 200%Z)
         end
     end)
    (λ e, mret (JsonError (Str e), 500%Z)).

(** [generate_image] of [app.py], the route [POST /api/generate/image]. *)
Definition generate_image_route (fuel : nat) (ai_manager : option AIModelManager)
    (data : GenerationBody) : M (Payload * Z) :=
  try_except
    (let prompt := body_prompt data in
     let provider := default (VStr "midjourney") (body_provider data) in
     match prompt_given prompt with
     | None => mret (JsonError Prompt_is_required, 400%Z)
     | Some prompt =>
         match ai_manager with
         | Some manager =>
             result ← generate_image fuel manager prompt provider None
                        (body_style data) [];
             payload ← jsonify result;
             mret (payload, 200%Z)
         | None =>
             (* Mock response for development *)
             payload ← jsonify [ ("urls", VList [VStr "http://example.com/image1.jpg"]);
                                 ("provider", provider);
                                 ("cost", VFloat 0.02) ];
             mret (payload, 200%Z)
         end
     end)
    (λ e, mret (JsonError (Str e), 500%Z)).

(** [generate_audio] of [app.py], the route [POST /api/generate/audio]. *)
Definition generate_audio_route (ai_manager : option AIModelManager)
    (data : GenerationBody) : M (Payload * Z) :=
  try_except
    (let prompt := body_prompt data in
     let provider := default (VStr "suno") (body_provider data) in
     match prompt_given prompt with
     | None => mret (JsonError Prompt_is_required, 400%Z)
     | Some prompt =>
         match ai_manager with
         | Some manager =>
             result ← generate_music manager prompt provider
                        (default 60%Z (body_duration data))
                        (body_genre data) [];
             payload ← jsonify result;
             mret (payload, 200%Z)
         | None =>
             (* Mock response for development *)
             payload ← jsonify [ ("url", VStr "http://example.com/audio.mp3");
                                 ("provider", provider);
                                 ("cost", VFloat 0.08) ];
             mret (payload, 200%Z)
         end
     end)
    (λ e, mret (JsonError (Str e), 500%Z)).

(** * Vocabulary of the statements *)

(** ** Observations on the log *)

(** The [duration] field of every request body posted so far, newest first. *)
Fixpoint sent_durations (log : Log) : list (option Out) :=
  match log with
  | [] => []
  | EPost _ _ body :: log' => dict_lookup "duration" body :: sent_durations log'
  | _ :: log' => sent_durations log'
  end.

(** A computation is quiet when it posts nothing. *)
Definition quiet {A} (m : M A) : Prop :=
  ∀ vendor log, sent_durations (m vendor log).2 = sent_durations log.

(** The log after [n] more rounds of "check, then sleep". *)
Fixpoint rounds (n : nat) (check : Event) (seconds : Z) (log : Log) : Log :=
  match n with
  | O => log
  | S n' => rounds n' check seconds (ESleep seconds :: check :: log)
  end.

(** The exception of [min(duration, None)]. *)
Definition no_maximum_error : Exn :=
  TypeError "'<' not supported between instances of 'NoneType' and 'int'".

(** ** Status documents *)

(** [status_data["status"] == s] evaluates to true. *)
Definition status_is (status_data : PyVal) (s : string) : bool :=
  match py_subscript status_data "status" with
  | Returned st => py_eq_str st s
  | _ => false
  end.

(** [status_data["status"]] evaluates without an exception. *)
Definition has_status (status_data : PyVal) : bool :=
  match py_subscript status_data "status" with
  | Returned _ => true
  | _ => false
  end.

(** A status document that is not terminal for Runway. *)
Definition runway_pending (status_data : PyVal) : bool :=
  has_status status_data
  && negb (status_is status_data "completed")
  && negb (status_is status_data "failed").

(** A status document that is not terminal for Midjourney. *)
Definition midjourney_pending (status_data : PyVal) : bool :=
  has_status status_data && negb (status_is status_data "completed").

(** ** The children of [gather] *)

(** The children's slots once the children in [done] have completed with
    the results [rs]. *)
Definition slots (rs : list Result) (done : list nat) : list (option Result) :=
  imap (λ i r, if bool_decide (i ∈ done) then Some r else None) rs.

(** ** The estimate in the words of the specification *)

(** A planned operation [(provider, count)] as a workflow step. *)
Definition planned (op : AIProvider * Z) : PyDict :=
  [("provider", VProvider op.1); ("count", VInt op.2)].

(** [float] can hold the count. *)
Definition convertible (n : Z) : bool := negb (PrimFloat.is_infinity (to_float n)).

(** The pairs whose identifier is in the registry, each with the cost of its
    provider. *)
Definition known_operations (self : AIModelManager) (ops : list (AIProvider * Z))
  : list (float * Z) :=
  omap (λ op, config ← configs self !! op.1;
              Some (cost_per_request config, op.2)) ops.

(** The sum of [cost_per_request * count] over such pairs, added up from
    [start] in the order of the sequence. *)
Definition sum_of_costs (start : float) (known : list (float * Z)) : float :=
  foldl (λ total kc, (total + kc.1 * to_float kc.2)%float) start known.

(** ** Providers and adapters *)

(** The value is a member of the enumeration (JSON never parses to one). *)
Definition is_enum_member (v : PyVal) : bool :=
  match v with
  | VProvider _ => true
  | _ => false
  end.

(** The display name each defined adapter puts in its result. *)
Definition display_name (p : AIProvider) : option string :=
  match p with
  | RUNWAY_GEN3 => Some "Runway Gen-3"
  | PIKA_LABS => Some "Pika Labs"
  | MIDJOURNEY => Some "Midjourney"
  | SUNO_AI => Some "Suno AI"
  | ELEVENLABS => Some "ElevenLabs"
  | CLAUDE_3_OPUS => Some "Claude 3 Opus"
  | _ => None
  end.

(** The branches of the cascades whose adapter can return. *)
Definition served : list (Capability * AIProvider) :=
  [ (Video, RUNWAY_GEN3); (Image, MIDJOURNEY); (Music, SUNO_AI);
    (Voice, ELEVENLABS); (Script, CLAUDE_3_OPUS) ].

(** The branches of the cascades that call a method the class lacks. *)
Definition undefined_adapters : list (Capability * AIProvider * string) :=
  [ (Video, LUMA_DREAM, "_luma_video");
    (Video, KLING, "_kling_video");
    (Video, STABILITY_VIDEO, "_stability_video");
    (Image, DALL_E_3, "_dalle3_image");
    (Image, FLUX_PRO, "_flux_image");
    (Image, LEONARDO_AI, "_leonardo_image");
    (Music, UDIO, "_udio_music");
    (Music, MUSICGEN, "_musicgen_music");
    (Voice, PLAY_HT, "_playht_voice");
    (Script, GPT_4_TURBO, "_gpt4_script") ].

(** The keys [load_api_configs] assigns. *)
Definition configured_providers : list AIProvider :=
  [ RUNWAY_GEN3; PIKA_LABS; LUMA_DREAM; KLING; MIDJOURNEY; DALL_E_3; FLUX_PRO;
    LEONARDO_AI; SUNO_AI; UDIO; ELEVENLABS; CLAUDE_3_OPUS; GPT_4_TURBO;
    WONDER_DYNAMICS; HEYGEN; TOPAZ_VIDEO_AI ].

(** The number of HTTP requests in a log. *)
Definition is_request (e : Event) : bool :=
  match e with
  | ESleep _ => false
  | _ => true
  end.

Definition http_calls (log : Log) : nat := length (List.filter is_request log).

(** [cost * count] is defined: the count is a number that [float] can hold. *)
Definition multipliable (count : PyVal) : bool :=
  match count with
  | VInt n => convertible n
  | VBool _ | VFloat _ => true
  | _ => false
  end.

(** The outcome is not that of a loop still polling. *)
Definition finished {A} (o : Outcome A) : bool :=
  match o with
  | StillPolling => false
  | _ => true
  end.

(** The run has finished and added exactly one event to [log], a POST. *)
Definition one_post {A} (log : Log) (run : Outcome A * Log) : Prop :=
  finished run.1 = true ∧ ∃ url headers body, run.2 = EPost url headers body :: log.

(** ** Tasks *)

(** The entry point a task type selects, if any. *)
Definition task_capability (task_type : PyVal) : option Capability :=
  if py_eq_str task_type "video" then Some Video
  else if py_eq_str task_type "image" then Some Image
  else if py_eq_str task_type "music" then Some Music
  else if py_eq_str task_type "voice" then Some Voice
  else if py_eq_str task_type "script" then Some Script
  else None.

(** The key of the task's payload, and its value. *)
Definition payload_key (cap : Capability) : string :=
  match cap with
  | Voice => "text"
  | _ => "prompt"
  end.

Definition task_payload (task : Task) (cap : Capability) : option string :=
  match cap with
  | Voice => task_text task
  | _ => task_prompt task
  end.

(** The parameters have a keyword that names a parameter [_process_task]
    passes by position. *)
Definition clashes (cap : Capability) (params : Params) : bool :=
  existsb (λ kv : string * PyVal,
             mem_string kv.1 ["self"; payload_key cap; "provider"])
    (kw_other params).

(** The exception of [cost * count] for a count that cannot be multiplied. *)
Definition count_error (count : PyVal) : Exn :=
  match count with
  | VInt _ => OverflowError
  | _ => TypeError "unsupported operand type(s) for *"
  end.

(** The tags [get_best_provider_for_task] knows. *)
Definition recommended_tasks : list string :=
  [ "video_generation"; "cinematic_video"; "fast_video"; "artistic_image";
    "photorealistic_image"; "consistent_character"; "music_generation";
    "voice_synthesis"; "script_writing"; "motion_capture"; "avatar_video";
    "video_enhancement" ].

(** The exception of [self.configs.get(provider)] followed by the "not
    configured" test, for a provider that is no member of the enumeration. *)
Definition lookup_error (provider : PyVal) : Exn :=
  match provider with
  | VList _ => TypeError "unhashable type: 'list'"
  | VDict _ => TypeError "unhashable type: 'dict'"
  | _ => ValueError (Provider_not_configured provider)
  end.

(** The [**kwargs] of a call. *)
Definition call_kwargs (c : Call) : PyDict :=
  match c with
  | CallVideo _ _ _ _ kwargs => kwargs
  | CallImage _ _ _ kwargs => kwargs
  | CallMusic _ _ _ kwargs => kwargs
  | CallVoice _ _ kwargs => kwargs
  | CallScript _ _ kwargs => kwargs
  end.

(** * Fixtures of the examples *)

Definition no_env : Env := λ _, None.

(** The module-level [ai_manager], after [initialize()]. *)
Definition ai_manager : AIModelManager := initialize (init no_env).

(** The registry's Runway configuration (no credential in the environment). *)
Definition runway_config : APIConfig :=
  mkAPIConfig RUNWAY_GEN3 "" "https://api.runwayml.com/v1/" "gen3_alpha" 10 0.05
    ["text2video"; "image2video"; "video2video"]
    (Some "1280x768") (Some 10%Z) (Some ["mp4"; "mov"]).

(** The registry's Midjourney configuration (no credential in the
    environment); it has no maximum duration. *)
Definition midjourney_config : APIConfig :=
  mkAPIConfig MIDJOURNEY "" "https://api.midjourney.com/v1/" "6.0" 10 0.02
    ["text2image"; "image_variation"; "upscale"; "style_transfer"]
    (Some "2048x2048") None (Some ["png"; "jpg"; "webp"]).

(** The same configuration without a maximum duration, as [APIConfig]
    allows ([max_duration: Optional[int] = None]). *)
Definition config_without_maximum : APIConfig :=
  mkAPIConfig RUNWAY_GEN3 "" "https://api.runwayml.com/v1/" "gen3_alpha" 10 0.05
    ["text2video"; "image2video"; "video2video"]
    (Some "1280x768") None (Some ["mp4"; "mov"]).

(** A vendor that answers every request with [{"id": "g1", "job_id": "j1",
    "status": "processing"}]. *)
Definition busy_vendor : Vendor :=
  λ _, json_response
         (VDict [ ("id", VStr "g1"); ("job_id", VStr "j1");
                  ("status", VStr "processing") ]).

(** The answer to a submission, and three status documents. *)
Definition submitted : Response :=
  json_response (VDict [("id", VStr "g1"); ("job_id", VStr "j1")]).

Definition processing : PyVal := status_doc "processing" [].

Definition completed : PyVal :=
  status_doc "completed"
    [ ("output_url", VStr "https://cdn.example/v.mp4");
      ("image_urls", VList [VStr "https://cdn.example/i.png"]) ].

Definition failed : PyVal :=
  status_doc "failed" [("error", VStr "content rejected")].

(** The tasks of the batch examples: a voice task that succeeds and a video
    task for a provider without a video adapter. *)
Definition ok_task : Task :=
  mkTask (VStr "voice") (VProvider ELEVENLABS) None (Some "hello") no_params.

Definition failing_task : Task :=
  mkTask (VStr "video") (VProvider ELEVENLABS) (Some "a cat") None no_params.

(** A vendor that answers every request with four bytes of audio. *)
Definition voice_vendor : Vendor :=
  λ _, mkResponse None [Byte.x52; Byte.x49; Byte.x46; Byte.x46].

(** The vendor as task [i] of a parallel batch sees it: [i + 1] bytes of
    audio. *)
Definition audio_views (i : nat) : Vendor :=
  λ _, mkResponse None (replicate (S i) Byte.x2a).

Definition audio_result (n : nat) : Result :=
  [ ("audio", VBytes (replicate n Byte.x2a));
    ("provider", VStr "ElevenLabs");
    ("cost", VFloat 0.01) ].

(** Planned operations with an unknown identifier in the middle. *)
Definition example_operations : list (AIProvider * Z) :=
  [(RUNWAY_GEN3, 3%Z); (MOONVALLEY, 100%Z); (KLING, 2%Z)].

(** A status document with a [state] key instead of [status]. *)
Definition misspelt_status : PyVal := VDict [("state", VStr "completed")].

(** * Properties *)

(** Unfold the monad of coroutines and compute. *)
Ltac run_M :=
  unfold mbind, M_bind, mret, M_ret, raise, still_polling, lift,
    unbound_name, missing_method; simpl.

(** ** The registry *)

Lemma init_session env : session (init env) = false.
Proof. reflexivity. Qed.

Lemma initialize_configs self : configs (initialize self) = configs self.
Proof. unfold initialize. destruct (session self); reflexivity. Qed.

Lemma initialize_session self : session (initialize self) = true.
Proof. unfold initialize. destruct (session self) eqn:E; simpl; auto. Qed.

(** Sixteen of the thirty-nine members of the enumeration are configured. *)
Lemma registry_size env : size (configs (init env)) = 16%nat.
Proof. vm_compute. reflexivity. Qed.

Lemma enumeration_complete (p : AIProvider) : p ∈ all_providers.
Proof. destruct p; unfold all_providers; set_solver. Qed.

(** C9, as stated, fails: the enumeration has members without a
    configuration, for instance [MOONVALLEY] (which
    [get_best_provider_for_task] recommends for cinematic video). *)
Lemma C9_unconfigured_member :
  MOONVALLEY ∈ all_providers
  ∧ get_best_provider_for_task "cinematic_video" = MOONVALLEY
  ∧ configs (init no_env) !! MOONVALLEY = None
  ∧ configs_get (init no_env) (VProvider MOONVALLEY) = Returned None.
Proof.
  split; [apply enumeration_complete|].
  repeat split; vm_compute; reflexivity.
Qed.

(** C9 (amended): whatever the environment, the registry holds exactly the
    sixteen identifiers that [load_api_configs] assigns, out of the
    thirty-nine of the enumeration. Each of the sixteen is looked up to the
    configuration created for it at initialisation: its [provider] field is
    the identifier (so no two identifiers share an instance), and its
    endpoint and its capability list are not empty. Every other identifier
    of the enumeration is looked up to nothing. *)
Theorem C9_configured_providers_well_formed :
  ∀ (env : Env) (p : AIProvider),
    (p ∈ configured_providers →
     ∃ c, configs (init env) !! p = Some c
          ∧ configs_get (init env) (VProvider p) = Returned (Some c)
          ∧ provider c = p ∧ endpoint c ≠ "" ∧ capabilities c ≠ [])
    ∧ (p ∉ configured_providers →
       configs (init env) !! p = None
       ∧ configs_get (init env) (VProvider p) = Returned None)
    ∧ p ∈ all_providers
    ∧ length configured_providers = 16%nat ∧ NoDup configured_providers
    ∧ length all_providers = 39%nat ∧ NoDup all_providers.
Proof.
  intros env p. split; [|split; [|split; [apply enumeration_complete|]]].
  - intros Hin. unfold configs_get.
    destruct (configs (init env) !! p) as [c|] eqn:H.
    + exists c. split; [done|]. split; [done|].
      destruct p; vm_compute in H; try discriminate H;
        injection H as <-; repeat split; discriminate.
    + exfalso. unfold configured_providers in Hin.
      repeat (apply elem_of_cons in Hin as [->|Hin];
              [vm_compute in H; discriminate H|]).
      by apply elem_of_nil in Hin.
  - intros Hout. unfold configs_get.
    destruct (configs (init env) !! p) as [c|] eqn:H; [|done].
    exfalso. apply Hout. unfold configured_providers.
    destruct p; vm_compute in H; try discriminate H; set_solver.
  - split; [reflexivity|]. split; [|split; [reflexivity|]].
    + apply (bool_decide_unpack _). vm_compute. exact I.
    + apply (bool_decide_unpack _). vm_compute. exact I.
Qed.

Lemma C9_configured_providers_well_formed_witness :
  (∃ c, configs (init no_env) !! RUNWAY_GEN3 = Some c
        ∧ configs_get (init no_env) (VProvider RUNWAY_GEN3) = Returned (Some c)
        ∧ provider c = RUNWAY_GEN3 ∧ endpoint c ≠ "" ∧ capabilities c ≠ [])
  ∧ configs (init no_env) !! MOONVALLEY = None
  ∧ configs_get (init no_env) (VProvider MOONVALLEY) = Returned None.
Proof.
  split.
  - apply (C9_configured_providers_well_formed no_env RUNWAY_GEN3).
    apply list_elem_of_here.
  - apply (C9_configured_providers_well_formed no_env MOONVALLEY).
    apply (bool_decide_eq_false_1 _). vm_compute. reflexivity.
Defined.

Lemma enumeration_size : length all_providers = 39%nat.
Proof. reflexivity. Qed.

(** ** Routing *)

(** C2: for every entry point and every provider value that is not a key of
    [self.configs], the call raises the "not configured" [ValueError] and
    nothing else happens: the log of I/O events is unchanged, so no adapter
    ran and no HTTP request was made. *)
Theorem C2_unknown_provider_rejected :
  ∀ (fuel : nat) (self : AIModelManager) (provider : PyVal) (c : Call)
    (vendor : Vendor) (log : Log),
    configs_get self provider = Returned None →
    generate fuel self provider c vendor log
    = (Raised (ValueError (Provider_not_configured provider)), log).
Proof.
  intros fuel self provider c vendor log H.
  destruct c; simpl;
    unfold generate_video, generate_image, generate_music, generate_voice,
      generate_script;
    run_M; rewrite H; reflexivity.
Qed.

Lemma C2_unknown_provider_rejected_witness :
  configs_get ai_manager (VProvider MOONVALLEY) = Returned None
  ∧ generate 3 ai_manager (VProvider MOONVALLEY)
      (CallVideo "a cat" None 5 "1280x720" []) (λ _, json_response VNone) []
    = (Raised (ValueError (Provider_not_configured (VProvider MOONVALLEY))), []).
Proof.
  split; [vm_compute; reflexivity|].
  apply (C2_unknown_provider_rejected 3 ai_manager (VProvider MOONVALLEY)).
  vm_compute; reflexivity.
Defined.

(** The web routes pass the provider as a string; a string is never a key. *)
Lemma string_provider_not_configured self s :
  configs_get self (VStr s) = Returned None.
Proof. reflexivity. Qed.

Lemma is_provider_false (p q : AIProvider) :
  p ≠ q → is_provider (VProvider p) q = false.
Proof. intros H. simpl. by apply bool_decide_eq_false. Qed.

(** C3: a provider that has a configuration but no branch in the entry
    point's cascade gets the "not implemented" [NotImplementedError], again
    with the log unchanged; it is another exception than the [ValueError] of
    an absent configuration. *)
Theorem C3_unsupported_provider_rejected :
  ∀ (fuel : nat) (self : AIModelManager) (p : AIProvider) (config : APIConfig)
    (c : Call) (vendor : Vendor) (log : Log),
    configs self !! p = Some config →
    p ∉ adapter_branches (capability c) →
    generate fuel self (VProvider p) c vendor log
    = (Raised (NotImplementedError (Provider_not_implemented (VProvider p))), log)
    ∧ NotImplementedError (Provider_not_implemented (VProvider p))
      ≠ ValueError (Provider_not_configured (VProvider p)).
Proof.
  intros fuel self p config c vendor log Hcfg Hno.
  split; [|discriminate].
  destruct c; simpl in *;
    unfold generate_video, generate_image, generate_music, generate_voice,
      generate_script;
    unfold mbind, M_bind, lift; cbn [configs_get]; rewrite Hcfg;
    rewrite !is_provider_false by (intros ->; apply Hno; set_solver);
    reflexivity.
Qed.

Lemma C3_unsupported_provider_rejected_witness :
  ∃ config,
    configs ai_manager !! ELEVENLABS = Some config
    ∧ (ELEVENLABS ∉ adapter_branches Video)
    ∧ generate 3 ai_manager (VProvider ELEVENLABS)
        (CallVideo "a cat" None 5 "1280x720" []) (λ _, json_response VNone) []
      = (Raised (NotImplementedError
                   (Provider_not_implemented (VProvider ELEVENLABS))), [])
    ∧ NotImplementedError (Provider_not_implemented (VProvider ELEVENLABS))
      ≠ ValueError (Provider_not_configured (VProvider ELEVENLABS)).
Proof.
  assert (Hno : ELEVENLABS ∉ adapter_branches Video).
  { apply (bool_decide_eq_false_1 (ELEVENLABS ∈ adapter_branches Video)).
    vm_compute; reflexivity. }
  eexists. split; [vm_compute; reflexivity|]. split; [exact Hno|].
  eapply (C3_unsupported_provider_rejected 3 ai_manager ELEVENLABS);
    [vm_compute; reflexivity|exact Hno].
Defined.

(** ** The Pika adapter *)

(** C8, on the code: [_pika_video] never reaches its HTTP call. Whatever the
    request, building the body raises: [NameError] for the undefined
    [kwargs] (or, before that, [TypeError] when the configuration has no
    maximum duration); the log is unchanged. Through [generate_video] on the
    module's manager, every Pika request ends in that [NameError]. *)
Theorem C8_pika_body_raises_before_http :
  ∀ (fuel : nat) (self : AIModelManager) (prompt : string)
    (image : option (list Byte.byte)) (duration : Z) (resolution : string)
    (config : APIConfig) (kwargs : PyDict) (vendor : Vendor) (log : Log),
    _pika_video self prompt image duration resolution config vendor log
    = (Raised (match max_duration config with
               | Some _ => NameError "kwargs"
               | None => no_maximum_error
               end), log)
    ∧ generate_video fuel ai_manager prompt (VProvider PIKA_LABS) image
        duration resolution kwargs vendor log
      = (Raised (NameError "kwargs"), log).
Proof.
  intros. split.
  - unfold _pika_video. run_M. destruct (max_duration config); reflexivity.
  - reflexivity.
Qed.

(** ** Duration clamping *)

Lemma quiet_lift {A} (o : Outcome A) : quiet (lift o).
Proof. intros vendor log. reflexivity. Qed.

Lemma quiet_ret {A} (a : A) : quiet (mret a).
Proof. intros vendor log. reflexivity. Qed.

Lemma quiet_raise {A} (e : Exn) : quiet (raise (A := A) e).
Proof. apply quiet_lift. Qed.

Lemma quiet_bind {A B} (m : M A) (f : A → M B) :
  quiet m → (∀ a, quiet (f a)) → quiet (m ≫= f).
Proof.
  intros Hm Hf vendor log. unfold mbind, M_bind.
  specialize (Hm vendor log).
  destruct (m vendor log) as [[a|e|] log']; simpl in *; [|done..].
  by rewrite Hf.
Qed.

Lemma quiet_session_get self url headers : quiet (session_get self url headers).
Proof.
  unfold session_get. destruct (session self); [|apply quiet_raise].
  intros vendor log. reflexivity.
Qed.

Lemma quiet_sleep seconds : quiet (sleep seconds).
Proof. intros vendor log. reflexivity. Qed.

Lemma quiet_response_json r : quiet (response_json r).
Proof.
  unfold response_json.
  destruct (resp_json r); [apply quiet_ret|apply quiet_raise].
Qed.

Create HintDb quiet.
#[local] Hint Resolve quiet_lift quiet_ret quiet_raise quiet_session_get
  quiet_sleep quiet_response_json : quiet.

Ltac quiet_step :=
  first [ apply quiet_bind; [|intros ?]
        | solve [eauto with quiet]
        | match goal with |- quiet (if ?b then _ else _) => destruct b end ].

(** The polling loop of Runway posts nothing. *)
Lemma runway_poll_quiet fuel self config headers gid :
  quiet (_runway_gen3_video_poll fuel self config headers gid).
Proof.
  induction fuel as [|fuel IH]; simpl; [apply quiet_lift|].
  repeat quiet_step.
Qed.

(** A request followed by quiet steps shows its own duration field. *)
Lemma post_then_quiet {A} self url headers body (k : Response → M A) vendor log :
  session self = true →
  (∀ r, quiet (k r)) →
  sent_durations ((session_post self url headers body ≫= k) vendor log).2
  = dict_lookup "duration" body :: sent_durations log.
Proof.
  intros Hs Hk. unfold mbind, M_bind, session_post. rewrite Hs.
  by rewrite Hk.
Qed.

(** The adapters that put a duration in their request: Runway and Suno
    (Pika computes one, but see C8). *)
Lemma runway_sends_clamped_duration fuel self prompt image duration resolution
    config vendor log m :
  session self = true →
  max_duration config = Some m →
  sent_durations
    (_runway_gen3_video fuel self prompt image duration resolution config
       vendor log).2
  = Some (OVal (VInt (Z.min duration m))) :: sent_durations log.
Proof.
  intros Hs Hm. unfold _runway_gen3_video. rewrite Hm.
  change (lift (py_min duration (Some m)) ≫= ?k) with (k (Z.min duration m)).
  cbv beta zeta.
  rewrite post_then_quiet; [|done|].
  - f_equal. destruct image as [[|b bs]|]; reflexivity.
  - intros r. repeat quiet_step. apply runway_poll_quiet.
Qed.

Lemma suno_sends_clamped_duration self prompt duration genre config kwargs
    vendor log m :
  session self = true →
  max_duration config = Some m →
  sent_durations
    (_suno_music self prompt duration genre config kwargs vendor log).2
  = Some (OVal (VInt (Z.min duration m))) :: sent_durations log.
Proof.
  intros Hs Hm. unfold _suno_music. rewrite Hm.
  change (lift (py_min duration (Some m)) ≫= ?k) with (k (Z.min duration m)).
  cbv beta zeta.
  rewrite post_then_quiet; [|done|].
  - f_equal. destruct (py_truthy (dict_get kwargs "lyrics")); reflexivity.
  - intros r. repeat quiet_step.
Qed.

(** The polling loop of Midjourney posts nothing. *)
Lemma midjourney_poll_quiet fuel self config headers job_id :
  quiet (_midjourney_image_poll fuel self config headers job_id).
Proof.
  induction fuel as [|fuel IH]; simpl; [apply quiet_lift|].
  repeat quiet_step.
Qed.

Lemma quiet_response_read r : quiet (response_read r).
Proof. intros vendor log. reflexivity. Qed.

(** The adapters that put no duration in their request: ElevenLabs,
    Midjourney and Claude, whatever keyword arguments they are given. *)
Lemma elevenlabs_sends_no_duration self text voice_id config kwargs vendor log :
  session self = true →
  sent_durations
    (_elevenlabs_voice self text voice_id config kwargs vendor log).2
  = None :: sent_durations log.
Proof.
  intros Hs. unfold _elevenlabs_voice. cbv zeta.
  rewrite post_then_quiet; [done|done|].
  intros r. apply quiet_bind; [apply quiet_response_read|].
  intros a. apply quiet_ret.
Qed.

Lemma midjourney_sends_no_duration fuel self prompt style config kwargs vendor
    log :
  session self = true →
  sent_durations
    (_midjourney_image fuel self prompt style config kwargs vendor log).2
  = None :: sent_durations log.
Proof.
  intros Hs. unfold _midjourney_image. cbv zeta.
  rewrite post_then_quiet; [done|done|].
  intros r. repeat quiet_step. apply midjourney_poll_quiet.
Qed.

Lemma claude_sends_no_duration self prompt max_tokens config kwargs vendor log :
  session self = true →
  sent_durations
    (_claude_script self prompt max_tokens config kwargs vendor log).2
  = None :: sent_durations log.
Proof.
  intros Hs. unfold _claude_script. cbv zeta.
  rewrite post_then_quiet; [done|done|].
  intros r. repeat quiet_step.
Qed.

(** C7 (amended): with a session open, Runway and Suno each post exactly one
    request, and when the configuration has a maximum duration [m] its
    [duration] field is [min(requested, m)]; when it has none, the adapter
    raises a [TypeError] and posts nothing. The other adapters that post
    (ElevenLabs for voice, Midjourney, Claude) post one request without a
    [duration] field, whatever configuration and keyword arguments they are
    given. In the registry Runway and Suno have a maximum (10 and 240
    seconds), and the voice provider, Midjourney and Claude have none. *)
Theorem C7_duration_clamped_when_maximum_configured :
  ∀ (fuel : nat) (self : AIModelManager) (prompt : string)
    (image : option (list Byte.byte)) (duration : Z) (resolution : string)
    (genre style voice_id : option string) (max_tokens : Z)
    (config : APIConfig) (kwargs : PyDict) (vendor : Vendor) (log : Log),
    session self = true →
    match max_duration config with
    | Some m =>
        sent_durations
          (_runway_gen3_video fuel self prompt image duration resolution config
             vendor log).2
        = Some (OVal (VInt (Z.min duration m))) :: sent_durations log
        ∧ sent_durations
            (_suno_music self prompt duration genre config kwargs vendor log).2
          = Some (OVal (VInt (Z.min duration m))) :: sent_durations log
    | None =>
        _runway_gen3_video fuel self prompt image duration resolution config
          vendor log
        = (Raised no_maximum_error, log)
        ∧ _suno_music self prompt duration genre config kwargs vendor log
          = (Raised no_maximum_error, log)
    end
    ∧ sent_durations
        (_elevenlabs_voice self prompt voice_id config kwargs vendor log).2
      = None :: sent_durations log
    ∧ sent_durations
        (_midjourney_image fuel self prompt style config kwargs vendor log).2
      = None :: sent_durations log
    ∧ sent_durations
        (_claude_script self prompt max_tokens config kwargs vendor log).2
      = None :: sent_durations log
    ∧ (∀ env,
         max_duration <$> configs (init env) !! RUNWAY_GEN3 = Some (Some 10%Z)
         ∧ max_duration <$> configs (init env) !! SUNO_AI = Some (Some 240%Z)
         ∧ max_duration <$> configs (init env) !! ELEVENLABS = Some None
         ∧ max_duration <$> configs (init env) !! MIDJOURNEY = Some None
         ∧ max_duration <$> configs (init env) !! CLAUDE_3_OPUS = Some None).
Proof.
  intros fuel self prompt image duration resolution genre style voice_id
    max_tokens config kwargs vendor log Hs.
  split; [|split; [|split; [|split]]].
  - destruct (max_duration config) as [m|] eqn:Hm.
    + split.
      * by apply runway_sends_clamped_duration.
      * by apply suno_sends_clamped_duration.
    + unfold _runway_gen3_video, _suno_music. rewrite Hm. split; reflexivity.
  - by apply elevenlabs_sends_no_duration.
  - by apply midjourney_sends_no_duration.
  - by apply claude_sends_no_duration.
  - intros env. repeat split; vm_compute; reflexivity.
Qed.

Lemma runway_config_registered : configs ai_manager !! RUNWAY_GEN3 = Some runway_config.
Proof. vm_compute; reflexivity. Qed.

Lemma C7_duration_clamped_when_maximum_configured_witness :
  session ai_manager = true
  ∧ (sent_durations
       (_runway_gen3_video 2 ai_manager "a cat" None 99 "1280x720"
          runway_config busy_vendor []).2
     = [Some (OVal (VInt 10))]
     ∧ sent_durations
         (_suno_music ai_manager "a cat" 99 None runway_config [("seed", VInt 7)]
            busy_vendor []).2
       = [Some (OVal (VInt 10))])
    ∧ sent_durations
        (_elevenlabs_voice ai_manager "a cat" None runway_config
           [("seed", VInt 7)] busy_vendor []).2
      = [None]
    ∧ sent_durations
        (_midjourney_image 2 ai_manager "a cat" None runway_config
           [("seed", VInt 7)] busy_vendor []).2
      = [None]
    ∧ sent_durations
        (_claude_script ai_manager "a cat" 4000 runway_config
           [("seed", VInt 7)] busy_vendor []).2
      = [None]
    ∧ (∀ env,
         max_duration <$> configs (init env) !! RUNWAY_GEN3 = Some (Some 10%Z)
         ∧ max_duration <$> configs (init env) !! SUNO_AI = Some (Some 240%Z)
         ∧ max_duration <$> configs (init env) !! ELEVENLABS = Some None
         ∧ max_duration <$> configs (init env) !! MIDJOURNEY = Some None
         ∧ max_duration <$> configs (init env) !! CLAUDE_3_OPUS = Some None).
Proof.
  split; [reflexivity|].
  exact (C7_duration_clamped_when_maximum_configured 2 ai_manager "a cat" None
           99 "1280x720" None None None 4000 runway_config
           [("seed", VInt 7)] busy_vendor [] eq_refl).
Defined.

(** C7, as stated, fails where the maximum is absent: Runway and Suno do not
    pass the requested duration through, they raise before posting; and the
    voice provider of the registry, which has no maximum, is served by an
    adapter that posts no duration at all. *)
Lemma C7_no_maximum_no_pass_through :
  max_duration config_without_maximum = None
  ∧ generate_video 2 (set_config RUNWAY_GEN3 config_without_maximum ai_manager)
      "a cat" (VProvider RUNWAY_GEN3) None 5 "1280x720" [] busy_vendor []
    = (Raised no_maximum_error, [])
  ∧ generate_music (set_config SUNO_AI config_without_maximum ai_manager)
      "a tune" (VProvider SUNO_AI) 60 None [] busy_vendor []
    = (Raised no_maximum_error, [])
  ∧ max_duration <$> configs ai_manager !! ELEVENLABS = Some None
  ∧ sent_durations
      (generate_voice ai_manager "hello" (VProvider ELEVENLABS) None
         [("duration", VInt 99)] busy_vendor []).2
    = [None].
Proof. repeat split; vm_compute; reflexivity. Qed.

(** ** Polling *)

Lemma status_checks_rounds n url headers seconds log :
  status_checks (rounds n (EGet url headers) seconds log)
  = (n + status_checks log)%nat.
Proof.
  revert log. induction n as [|n IH]; intros log; simpl; [done|].
  rewrite IH. unfold status_checks. simpl. lia.
Qed.

Lemma status_is_dict d s :
  status_is d s = true → ∃ fields, d = VDict fields.
Proof.
  unfold status_is. destruct d; simpl; try discriminate. eauto.
Qed.

Section Scripted.
Context (self : AIModelManager) (config : APIConfig) (headers : Headers).
Context (post_response : Response) (statuses : list PyVal) (after : PyVal).
Hypothesis session_open : session self = true.

Let vendor : Vendor := scripted post_response statuses after.

(** *** Runway *)

Lemma runway_round fuel gid log d :
  default after (statuses !! status_checks log) = d →
  runway_pending d = true →
  _runway_gen3_video_poll (S fuel) self config headers gid vendor log
  = _runway_gen3_video_poll fuel self config headers gid vendor
      (rounds 1
         (EGet [Lit (endpoint config ++ "generations/"); Fmt gid] headers)
         5 log).
Proof.
  intros Hd Hp. simpl. unfold session_get. rewrite session_open.
  unfold mbind at 1, M_bind at 1. cbv beta iota zeta.
  unfold vendor at 1, scripted. rewrite Hd.
  unfold runway_pending, has_status, status_is in Hp.
  unfold json_response, response_json. simpl resp_json. run_M.
  destruct (py_subscript d "status") as [st| |]; [|done..]. simpl in *.
  destruct (py_eq_str st "completed"); [done|].
  destruct (py_eq_str st "failed"); [done|]. reflexivity.
Qed.

Lemma runway_completed fuel gid log d output_url :
  default after (statuses !! status_checks log) = d →
  status_is d "completed" = true →
  py_subscript d "output_url" = Returned output_url →
  _runway_gen3_video_poll (S fuel) self config headers gid vendor log
  = (Returned [ ("url", output_url);
                ("provider", VStr "Runway Gen-3");
                ("cost", VFloat (cost_per_request config)) ],
     EGet [Lit (endpoint config ++ "generations/"); Fmt gid] headers :: log).
Proof.
  intros Hd Hc Hu. simpl. unfold session_get. rewrite session_open.
  unfold mbind at 1, M_bind at 1. cbv beta iota zeta.
  unfold vendor at 1, scripted. rewrite Hd.
  unfold status_is in Hc.
  unfold json_response, response_json. simpl resp_json. run_M.
  destruct (py_subscript d "status") as [st| |]; [|done..]. simpl.
  rewrite Hc, Hu. reflexivity.
Qed.

Lemma runway_failed fuel gid log d :
  default after (statuses !! status_checks log) = d →
  status_is d "failed" = true →
  status_is d "completed" = false →
  ∃ fields,
    d = VDict fields
    ∧ _runway_gen3_video_poll (S fuel) self config headers gid vendor log
      = (Raised (Exception_ (Generation_failed (dict_get fields "error"))),
         EGet [Lit (endpoint config ++ "generations/"); Fmt gid] headers :: log).
Proof.
  intros Hd Hf Hc. destruct (status_is_dict _ _ Hf) as [fields ->].
  exists fields. split; [done|].
  simpl. unfold session_get. rewrite session_open.
  unfold mbind at 1, M_bind at 1. cbv beta iota zeta.
  unfold vendor at 1, scripted. rewrite Hd.
  unfold status_is in Hf, Hc.
  unfold json_response, response_json. simpl resp_json. run_M.
  simpl in Hf, Hc.
  destruct (dict_lookup "status" fields) as [st|]; [|done]. simpl.
  rewrite Hc, Hf. reflexivity.
Qed.

(** A terminal status document ends the loop at that check, whatever else
    the document holds. *)
Lemma runway_terminal_log fuel gid log d :
  default after (statuses !! status_checks log) = d →
  status_is d "completed" = true ∨ status_is d "failed" = true →
  (_runway_gen3_video_poll (S fuel) self config headers gid vendor log).2
  = EGet [Lit (endpoint config ++ "generations/"); Fmt gid] headers :: log.
Proof.
  intros Hd [Hc|Hf].
  - simpl. unfold session_get. rewrite session_open.
    unfold mbind at 1, M_bind at 1. cbv beta iota zeta.
    unfold vendor at 1, scripted. rewrite Hd.
    unfold status_is in Hc.
    unfold json_response, response_json. simpl resp_json. run_M.
    destruct (py_subscript d "status") as [st| |]; [|done..]. simpl.
    rewrite Hc. destruct (py_subscript d "output_url"); reflexivity.
  - destruct (runway_failed fuel gid log d Hd Hf) as (fields & _ & ->);
      [|reflexivity].
    unfold status_is in *.
    destruct (py_subscript d "status") as [st| |]; [|done..].
    destruct st; simpl in *; try done.
    apply String.eqb_eq in Hf as ->. reflexivity.
Qed.

(** The pending rounds at the head of a script are all gone through. *)
Lemma runway_pending_rounds pre fuel gid log :
  Forall (λ d, runway_pending d = true) pre →
  (∀ i d, pre !! i = Some d →
          default after (statuses !! (status_checks log + i)%nat) = d) →
  _runway_gen3_video_poll (length pre + fuel) self config headers gid vendor log
  = _runway_gen3_video_poll fuel self config headers gid vendor
      (rounds (length pre)
         (EGet [Lit (endpoint config ++ "generations/"); Fmt gid] headers)
         5 log).
Proof.
  intros Hp. revert log.
  induction Hp as [|d pre Hd Hp IH]; intros log Hs; [reflexivity|].
  cbn [length Nat.add].
  rewrite (runway_round _ _ _ d); [| |done].
  - cbn [rounds]. apply IH. intros i d' Hi.
    specialize (Hs (S i) d' Hi).
    unfold status_checks in *. simpl. rewrite <- Hs. f_equal. f_equal. lia.
  - specialize (Hs 0%nat d eq_refl). by rewrite Nat.add_0_r in Hs.
Qed.
End Scripted.

Lemma status_failed_not_completed d :
  status_is d "failed" = true → status_is d "completed" = false.
Proof.
  unfold status_is. destruct (py_subscript d "status") as [st| |]; [|done..].
  destruct st; simpl; try done.
  intros H. apply String.eqb_eq in H as ->. reflexivity.
Qed.

Section ScriptedMidjourney.
Context (self : AIModelManager) (config : APIConfig) (headers : Headers).
Context (post_response : Response) (statuses : list PyVal) (after : PyVal).
Hypothesis session_open : session self = true.

Let vendor : Vendor := scripted post_response statuses after.

Lemma midjourney_round fuel job_id log d :
  default after (statuses !! status_checks log) = d →
  midjourney_pending d = true →
  _midjourney_image_poll (S fuel) self config headers job_id vendor log
  = _midjourney_image_poll fuel self config headers job_id vendor
      (rounds 1 (EGet [Lit (endpoint config ++ "job/"); Fmt job_id] headers)
         3 log).
Proof.
  intros Hd Hp. simpl. unfold session_get. rewrite session_open.
  unfold mbind at 1, M_bind at 1. cbv beta iota zeta.
  unfold vendor at 1, scripted. rewrite Hd.
  unfold midjourney_pending, has_status, status_is in Hp.
  unfold json_response, response_json. simpl resp_json. run_M.
  destruct (py_subscript d "status") as [st| |]; [|done..]. simpl in *.
  destruct (py_eq_str st "completed"); [done|]. reflexivity.
Qed.

Lemma midjourney_completed fuel job_id log d image_urls :
  default after (statuses !! status_checks log) = d →
  status_is d "completed" = true →
  py_subscript d "image_urls" = Returned image_urls →
  _midjourney_image_poll (S fuel) self config headers job_id vendor log
  = (Returned [ ("urls", image_urls);
                ("provider", VStr "Midjourney");
                ("cost", VFloat (cost_per_request config)) ],
     EGet [Lit (endpoint config ++ "job/"); Fmt job_id] headers :: log).
Proof.
  intros Hd Hc Hu. simpl. unfold session_get. rewrite session_open.
  unfold mbind at 1, M_bind at 1. cbv beta iota zeta.
  unfold vendor at 1, scripted. rewrite Hd.
  unfold status_is in Hc.
  unfold json_response, response_json. simpl resp_json. run_M.
  destruct (py_subscript d "status") as [st| |]; [|done..]. simpl.
  rewrite Hc, Hu. reflexivity.
Qed.

Lemma midjourney_pending_rounds pre fuel job_id log :
  Forall (λ d, midjourney_pending d = true) pre →
  (∀ i d, pre !! i = Some d →
          default after (statuses !! (status_checks log + i)%nat) = d) →
  _midjourney_image_poll (length pre + fuel) self config headers job_id vendor log
  = _midjourney_image_poll fuel self config headers job_id vendor
      (rounds (length pre)
         (EGet [Lit (endpoint config ++ "job/"); Fmt job_id] headers) 3 log).
Proof.
  intros Hp. revert log.
  induction Hp as [|d pre Hd Hp IH]; intros log Hs; [reflexivity|].
  cbn [length Nat.add].
  rewrite (midjourney_round _ _ _ d); [| |done].
  - cbn [rounds]. apply IH. intros i d' Hi.
    specialize (Hs (S i) d' Hi).
    unfold status_checks in *. simpl. rewrite <- Hs. f_equal. f_equal. lia.
  - specialize (Hs 0%nat d eq_refl). by rewrite Nat.add_0_r in Hs.
Qed.
End ScriptedMidjourney.

(** A script read from its start. *)
Lemma script_prefix (pre : list PyVal) d rest after log :
  status_checks log = 0%nat →
  ∀ i x, pre !! i = Some x →
    default after ((pre ++ d :: rest)%list !! (status_checks log + i)%nat) = x.
Proof.
  intros H0 i x Hi. rewrite H0. simpl. by rewrite lookup_app_l_Some with (x := x).
Qed.

Lemma script_next (pre : list PyVal) d rest after url headers seconds log :
  status_checks log = 0%nat →
  default after
    ((pre ++ d :: rest)%list
       !! status_checks (rounds (length pre) (EGet url headers) seconds log)) = d.
Proof.
  intros H0. rewrite status_checks_rounds, H0, Nat.add_0_r.
  by rewrite list_lookup_middle.
Qed.

(** Runway, for any script of status documents [pre ++ d :: rest] whose
    entries [pre] are not terminal: the loop makes [length pre + 1] status
    checks, sleeping five seconds after each of the first [length pre], and
    stops at [d]: with its output URL when [d] is [completed], with the
    vendor's [error] when [d] is [failed]. Any fuel above [length pre]
    suffices. *)
Theorem runway_polls_until_terminal :
  ∀ (self : AIModelManager) (config : APIConfig) (headers : Headers)
    (post_response : Response) (pre : list PyVal) (d : PyVal)
    (rest : list PyVal) (after gid : PyVal) (extra : nat) (log : Log),
    session self = true →
    Forall (λ x, runway_pending x = true) pre →
    status_checks log = 0%nat →
    let vendor := scripted post_response (pre ++ d :: rest)%list after in
    let check := EGet [Lit (endpoint config ++ "generations/"); Fmt gid] headers in
    let run :=
      _runway_gen3_video_poll (length pre + S extra) self config headers gid
        vendor log in
    (∀ output_url,
        status_is d "completed" = true →
        py_subscript d "output_url" = Returned output_url →
        run = (Returned [ ("url", output_url);
                          ("provider", VStr "Runway Gen-3");
                          ("cost", VFloat (cost_per_request config)) ],
               check :: rounds (length pre) check 5 log))
    ∧ (status_is d "failed" = true →
       ∃ fields,
         d = VDict fields
         ∧ run = (Raised (Exception_ (Generation_failed (dict_get fields "error"))),
                  check :: rounds (length pre) check 5 log))
    ∧ (∀ outcome log', run = (outcome, log') →
         (status_is d "completed" = true ∨ status_is d "failed" = true) →
         status_checks log' = S (length pre)).
Proof.
  intros self config headers post_response pre d rest after gid extra log
    Hs Hp H0. cbv zeta.
  rewrite (runway_pending_rounds self config headers post_response _ after Hs
             pre (S extra) gid log Hp (script_prefix pre d rest after log H0)).
  pose proof (script_next pre d rest after
                [Lit (endpoint config ++ "generations/"); Fmt gid] headers 5
                log H0) as Hd.
  split; [|split].
  - intros u Hc Hu. by apply runway_completed with (d := d).
  - intros Hf. apply runway_failed; [done..|].
    by apply status_failed_not_completed.
  - intros outcome log' Hrun Hterm.
    pose proof (runway_terminal_log self config headers post_response _ after
                  Hs extra gid _ d Hd Hterm) as Hlog.
    rewrite Hrun in Hlog. simpl in Hlog. subst log'.
    unfold status_checks at 1. simpl.
    fold (status_checks
            (rounds (length pre)
               (EGet [Lit (endpoint config ++ "generations/"); Fmt gid] headers)
               5 log)).
    rewrite status_checks_rounds, H0. lia.
Qed.

(** Midjourney, for any script [pre ++ d :: rest] whose entries [pre] are not
    [completed]: [length pre + 1] status checks, three seconds of sleep after
    each of the first [length pre], and the image URLs of [d]. *)
Theorem midjourney_polls_until_completed :
  ∀ (self : AIModelManager) (config : APIConfig) (headers : Headers)
    (post_response : Response) (pre : list PyVal) (d : PyVal)
    (rest : list PyVal) (after job_id image_urls : PyVal) (extra : nat)
    (log : Log),
    session self = true →
    Forall (λ x, midjourney_pending x = true) pre →
    status_checks log = 0%nat →
    status_is d "completed" = true →
    py_subscript d "image_urls" = Returned image_urls →
    let check := EGet [Lit (endpoint config ++ "job/"); Fmt job_id] headers in
    _midjourney_image_poll (length pre + S extra) self config headers job_id
      (scripted post_response (pre ++ d :: rest)%list after) log
    = (Returned [ ("urls", image_urls);
                  ("provider", VStr "Midjourney");
                  ("cost", VFloat (cost_per_request config)) ],
       check :: rounds (length pre) check 3 log).
Proof.
  intros self config headers post_response pre d rest after job_id image_urls
    extra log Hs Hp H0 Hc Hu. cbv zeta.
  rewrite (midjourney_pending_rounds self config headers post_response _ after
             Hs pre (S extra) job_id log Hp
             (script_prefix pre d rest after log H0)).
  apply midjourney_completed with (d := d); [done| |done..].
  by apply script_next.
Qed.

(** A [failed] status document is not terminal for Midjourney. *)
Lemma failed_is_midjourney_pending d :
  status_is d "failed" = true → midjourney_pending d = true.
Proof.
  intros Hf. unfold midjourney_pending.
  rewrite (status_failed_not_completed _ Hf).
  unfold has_status, status_is in *.
  by destruct (py_subscript d "status").
Qed.

(** From the entry points to the loops. *)
Lemma generate_video_runway fuel self prompt image duration resolution kwargs
    config :
  configs self !! RUNWAY_GEN3 = Some config →
  generate_video fuel self prompt (VProvider RUNWAY_GEN3) image duration
    resolution kwargs
  = _runway_gen3_video fuel self prompt image duration resolution config.
Proof.
  intros H. unfold generate_video, mbind, M_bind, lift. simpl. by rewrite H.
Qed.

Lemma generate_image_midjourney fuel self prompt negative_prompt style config :
  configs self !! MIDJOURNEY = Some config →
  generate_image fuel self prompt (VProvider MIDJOURNEY) negative_prompt style []
  = _midjourney_image fuel self prompt style config [].
Proof.
  intros H. unfold generate_image, mbind, M_bind, lift. simpl. by rewrite H.
Qed.

Lemma runway_submit fuel self prompt image duration resolution config m
    post_response statuses after result gid log :
  session self = true →
  max_duration config = Some m →
  resp_json post_response = Some result →
  py_get result "id" = Returned gid →
  ∃ body,
    _runway_gen3_video fuel self prompt image duration resolution config
      (scripted post_response statuses after) log
    = _runway_gen3_video_poll fuel self config (bearer_headers config) gid
        (scripted post_response statuses after)
        (EPost [Lit (endpoint config ++ "generations")] (bearer_headers config)
           body :: log).
Proof.
  intros Hs Hm Hr Hg. eexists.
  unfold _runway_gen3_video, session_post. rewrite Hm, Hs.
  unfold mbind, M_bind, lift, response_json. cbv beta iota zeta.
  unfold scripted at 1. rewrite Hr. unfold mret, M_ret. cbv beta iota zeta.
  rewrite Hg. reflexivity.
Qed.

Lemma midjourney_submit fuel self prompt style config kwargs
    post_response statuses after result job_id log :
  session self = true →
  resp_json post_response = Some result →
  py_subscript result "job_id" = Returned job_id →
  ∃ body,
    _midjourney_image fuel self prompt style config kwargs
      (scripted post_response statuses after) log
    = _midjourney_image_poll fuel self config (bearer_headers config) job_id
        (scripted post_response statuses after)
        (EPost [Lit (endpoint config ++ "imagine")] (bearer_headers config)
           body :: log).
Proof.
  intros Hs Hr Hj. eexists.
  unfold _midjourney_image, session_post. rewrite Hs.
  unfold mbind, M_bind, lift, response_json. cbv beta iota zeta.
  unfold scripted at 1. rewrite Hr. unfold mret, M_ret. cbv beta iota zeta.
  rewrite Hj. reflexivity.
Qed.

(** X5: Runway from submission to result: the vendor accepts the job,
    reports [length pre] statuses that are neither [completed] nor [failed]
    and then [completed]; the adapter makes exactly [length pre + 1] status
    checks and returns the normalized result with the output URL. *)
Theorem runway_adapter_returns_when_completed :
  ∀ (self : AIModelManager) (prompt : string) (image : option (list Byte.byte))
    (duration : Z) (resolution : string) (config : APIConfig) (m : Z)
    (post_response : Response) (result gid : PyVal) (pre : list PyVal)
    (d : PyVal) (rest : list PyVal) (after output_url : PyVal) (extra : nat)
    (log : Log),
    session self = true →
    max_duration config = Some m →
    resp_json post_response = Some result →
    py_get result "id" = Returned gid →
    Forall (λ x, runway_pending x = true) pre →
    status_is d "completed" = true →
    py_subscript d "output_url" = Returned output_url →
    status_checks log = 0%nat →
    let run :=
      _runway_gen3_video (length pre + S extra) self prompt image duration
        resolution config (scripted post_response (pre ++ d :: rest)%list after)
        log in
    run.1 = Returned [ ("url", output_url);
                       ("provider", VStr "Runway Gen-3");
                       ("cost", VFloat (cost_per_request config)) ]
    ∧ status_checks run.2 = S (length pre).
Proof.
  intros self prompt image duration resolution config m post_response result
    gid pre d rest after output_url extra log Hs Hm Hr Hg Hp Hc Hu H0.
  cbv zeta.
  destruct (runway_submit (length pre + S extra) self prompt image duration
              resolution config m post_response (pre ++ d :: rest)%list after
              result gid log Hs Hm Hr Hg) as [body ->].
  destruct (runway_polls_until_terminal self config (bearer_headers config)
              post_response pre d rest after gid extra
              (EPost [Lit (endpoint config ++ "generations")]
                 (bearer_headers config) body :: log) Hs Hp H0)
    as (Hdone & _ & Hcount).
  split.
  - by rewrite (Hdone output_url Hc Hu).
  - eapply Hcount; [apply surjective_pairing|by left].
Qed.

(** X6: Midjourney from submission to result: the vendor accepts the job,
    reports [length pre] statuses other than [completed] ([failed] may be
    among them) and then [completed]; the adapter makes exactly
    [length pre + 1] status checks and returns the image URLs. *)
Theorem midjourney_adapter_returns_when_completed :
  ∀ (self : AIModelManager) (prompt : string) (style : option string)
    (config : APIConfig) (kwargs : PyDict) (post_response : Response)
    (result job_id : PyVal) (pre : list PyVal) (d : PyVal) (rest : list PyVal)
    (after image_urls : PyVal) (extra : nat) (log : Log),
    session self = true →
    resp_json post_response = Some result →
    py_subscript result "job_id" = Returned job_id →
    Forall (λ x, midjourney_pending x = true) pre →
    status_is d "completed" = true →
    py_subscript d "image_urls" = Returned image_urls →
    status_checks log = 0%nat →
    let run :=
      _midjourney_image (length pre + S extra) self prompt style config kwargs
        (scripted post_response (pre ++ d :: rest)%list after) log in
    run.1 = Returned [ ("urls", image_urls);
                       ("provider", VStr "Midjourney");
                       ("cost", VFloat (cost_per_request config)) ]
    ∧ status_checks run.2 = S (length pre).
Proof.
  intros self prompt style config kwargs post_response result job_id pre d rest
    after image_urls extra log Hs Hr Hj Hp Hc Hu H0.
  cbv zeta.
  destruct (midjourney_submit (length pre + S extra) self prompt style config
              kwargs post_response (pre ++ d :: rest)%list after result job_id
              log Hs Hr Hj) as [body ->].
  rewrite (midjourney_polls_until_completed self config (bearer_headers config)
             post_response pre d rest after job_id image_urls extra
             (EPost [Lit (endpoint config ++ "imagine")]
                (bearer_headers config) body :: log) Hs Hp H0 Hc Hu).
  split; [reflexivity|]. simpl.
  unfold status_checks at 1. simpl.
  fold (status_checks
          (rounds (length pre)
             (EGet [Lit (endpoint config ++ "job/"); Fmt job_id]
                (bearer_headers config)) 3
             (EPost [Lit (endpoint config ++ "imagine")]
                (bearer_headers config) body :: log))).
  rewrite status_checks_rounds. unfold status_checks at 1. simpl.
  fold (status_checks log). rewrite H0. lia.
Qed.

(** *** The polling test of the specification *)

(** [processing], [processing], [completed]: three status checks, then the
    result, for Runway and for Midjourney. *)
Example runway_three_status_checks :
  let run :=
    generate_video 3 ai_manager "a cat" (VProvider RUNWAY_GEN3) None 5
      "1280x720" []
      (scripted submitted [processing; processing; completed] processing) [] in
  run.1 = Returned [ ("url", VStr "https://cdn.example/v.mp4");
                     ("provider", VStr "Runway Gen-3");
                     ("cost", VFloat 0.05) ]
  ∧ status_checks run.2 = 3%nat.
Proof. vm_compute. split; reflexivity. Qed.

Example midjourney_three_status_checks :
  let run :=
    generate_image 3 ai_manager "a cat" (VProvider MIDJOURNEY) None None []
      (scripted submitted [processing; processing; completed] processing) [] in
  run.1 = Returned [ ("urls", VList [VStr "https://cdn.example/i.png"]);
                     ("provider", VStr "Midjourney");
                     ("cost", VFloat 0.02) ]
  ∧ status_checks run.2 = 3%nat.
Proof. vm_compute. split; reflexivity. Qed.

(** Runway stops at [failed] with the vendor's reason. *)
Example runway_reports_failure :
  let run :=
    generate_video 3 ai_manager "a cat" (VProvider RUNWAY_GEN3) None 5
      "1280x720" [] (scripted submitted [processing; failed; completed] processing) [] in
  run.1 = Raised (Exception_ (Generation_failed (VStr "content rejected")))
  ∧ status_checks run.2 = 2%nat.
Proof. vm_compute. split; reflexivity. Qed.

Lemma midjourney_config_registered :
  ∃ config, configs ai_manager !! MIDJOURNEY = Some config.
Proof. eexists. vm_compute. reflexivity. Qed.

(** C1, on the code: the Midjourney loop has no [failed] branch. Against a
    vendor that reports [failed] once and [completed] afterwards the adapter
    makes two status checks and returns a result; against a vendor that
    reports [failed] for ever it never stops, making as many status checks as
    it is given rounds. (Runway stops at the first [failed]:
    [runway_reports_failure], [runway_polls_until_terminal].) *)
Theorem C1_midjourney_polls_past_failed :
  (let run :=
     generate_image 2 ai_manager "a cat" (VProvider MIDJOURNEY) None None []
       (scripted submitted [failed; completed] failed) [] in
   run.1 = Returned [ ("urls", VList [VStr "https://cdn.example/i.png"]);
                      ("provider", VStr "Midjourney");
                      ("cost", VFloat 0.02) ]
   ∧ status_checks run.2 = 2%nat)
  ∧ ∀ fuel : nat,
      let run :=
        generate_image fuel ai_manager "a cat" (VProvider MIDJOURNEY) None None
          [] (scripted submitted [] failed) [] in
      run.1 = StillPolling ∧ status_checks run.2 = fuel.
Proof.
  split; [vm_compute; split; reflexivity|].
  intros fuel. cbv zeta.
  destruct midjourney_config_registered as [config Hcfg].
  rewrite (generate_image_midjourney _ _ _ _ _ config Hcfg).
  destruct (midjourney_submit fuel ai_manager "a cat" None config [] submitted
              [] failed _ (VStr "j1") [] eq_refl eq_refl eq_refl)
    as [body ->].
  pose proof (midjourney_pending_rounds ai_manager config (bearer_headers config)
                submitted [] failed eq_refl (replicate fuel failed) 0
                (VStr "j1")
                [EPost [Lit (endpoint config ++ "imagine")]
                   (bearer_headers config) body]) as H.
  rewrite length_replicate, Nat.add_0_r in H. rewrite H.
  - simpl. split; [reflexivity|]. rewrite status_checks_rounds.
    unfold status_checks. simpl. lia.
  - apply Forall_replicate. reflexivity.
  - intros i d Hi. apply lookup_replicate in Hi as [-> _]. reflexivity.
Qed.

(** ** Batches *)

(** The sequential loop over [pre ++ post] is the loop over [pre] followed,
    on its results and its log, by the loop over [post]. *)
Lemma batch_process_loop_app fuel self pre post results vendor log :
  batch_process_loop fuel self (pre ++ post)%list results vendor log
  = (batch_process_loop fuel self pre results
       ≫= batch_process_loop fuel self post) vendor log.
Proof.
  revert results log. induction pre as [|task pre IH]; intros results log.
  - reflexivity.
  - cbn [app batch_process_loop].
    unfold mbind, M_bind in *.
    destruct (_process_task fuel self task vendor log) as [[r|e|] log'];
      [|reflexivity..].
    by rewrite IH.
Qed.

(** The results are appended to the accumulator in input order. *)
Lemma batch_process_loop_results fuel self tasks acc vendor log rs log' :
  batch_process_loop fuel self tasks acc vendor log = (Returned rs, log') →
  ∃ new, rs = (acc ++ new)%list ∧ length new = length tasks.
Proof.
  revert acc log. induction tasks as [|task tasks IH]; intros acc log H.
  - injection H as <- <-. exists []. by rewrite app_nil_r.
  - cbn [batch_process_loop] in H. unfold mbind, M_bind in H.
    destruct (_process_task fuel self task vendor log) as [[r|e|] log1];
      [|discriminate..].
    apply IH in H as (new & -> & Hlen).
    exists (r :: new). rewrite <- app_assoc. simpl. by rewrite Hlen.
Qed.

(** The accumulator is only ever extended. *)
Lemma batch_process_loop_acc fuel self tasks acc vendor log :
  batch_process_loop fuel self tasks acc vendor log
  = match batch_process_loop fuel self tasks [] vendor log with
    | (Returned rs, log') => (Returned (acc ++ rs)%list, log')
    | other => other
    end.
Proof.
  revert acc log. induction tasks as [|task tasks IH]; intros acc log.
  - simpl. unfold mret, M_ret. by rewrite app_nil_r.
  - cbn [batch_process_loop]. unfold mbind, M_bind.
    destruct (_process_task fuel self task vendor log) as [[r|e|] log1];
      [|reflexivity..].
    rewrite (IH (acc ++ [r])%list), (IH ([] ++ [r])%list).
    destruct (batch_process_loop fuel self tasks [] vendor log1)
      as [[rs|e|] log2]; [|reflexivity..].
    by rewrite <- app_assoc.
Qed.

(** X15: sequential batches compose: when both return, the results of
    [pre ++ post] are those of [pre] followed by those of [post] run on the
    log [pre] left. *)
Lemma batch_process_sequential_app fuel self pre post vendor log rs1 log1 rs2 log2 :
  batch_process_sequential fuel self pre vendor log = (Returned rs1, log1) →
  batch_process_sequential fuel self post vendor log1 = (Returned rs2, log2) →
  batch_process_sequential fuel self (pre ++ post)%list vendor log
  = (Returned (rs1 ++ rs2)%list, log2).
Proof.
  unfold batch_process_sequential. intros Hpre Hpost.
  rewrite batch_process_loop_app. unfold mbind, M_bind. rewrite Hpre.
  by rewrite batch_process_loop_acc, Hpost.
Qed.

(** C4: in sequential mode the tasks run one after another in input order,
    each on the log its predecessors left. When the tasks before [t] have
    returned and [t] raises [e], the batch raises [e]: no list of results is
    returned, and the log is the one [t] left, so nothing of the tasks after
    [t] has run. *)
Theorem C4_sequential_batch_fails_fast :
  ∀ (fuel : nat) (self : AIModelManager) (pre : list Task) (t : Task)
    (post : list Task) (vendor : Vendor) (log log1 log2 : Log)
    (results : list Result) (e : Exn),
    batch_process_sequential fuel self pre vendor log = (Returned results, log1) →
    _process_task fuel self t vendor log1 = (Raised e, log2) →
    batch_process_sequential fuel self (pre ++ t :: post)%list vendor log
    = (Raised e, log2).
Proof.
  intros fuel self pre t post vendor log log1 log2 results e Hpre Ht.
  unfold batch_process_sequential in *.
  rewrite batch_process_loop_app. unfold mbind, M_bind.
  rewrite Hpre. cbn [batch_process_loop]. unfold mbind, M_bind.
  by rewrite Ht.
Qed.

Lemma C4_sequential_batch_fails_fast_witness :
  let first_post :=
    EPost [Lit "https://api.elevenlabs.io/v1/text-to-speech/21m00Tcm4TlvDq8ikWAM"]
      [("xi-api-key", ""); ("Content-Type", "application/json")]
      [ ("text", OVal (VStr "hello"));
        ("model_id", OVal (VStr "eleven_multilingual_v2"));
        ("voice_settings", ODict
           [ ("stability", OVal (VFloat 0.5));
             ("similarity_boost", OVal (VFloat 0.5));
             ("style", OVal (VFloat 0));
             ("use_speaker_boost", OVal (VBool true)) ]) ] in
  let unsupported :=
    NotImplementedError (Provider_not_implemented (VProvider ELEVENLABS)) in
  batch_process_sequential 1 ai_manager [ok_task] voice_vendor []
  = (Returned [ [ ("audio", VBytes [Byte.x52; Byte.x49; Byte.x46; Byte.x46]);
                  ("provider", VStr "ElevenLabs"); ("cost", VFloat 0.01) ] ],
     [first_post])
  ∧ _process_task 1 ai_manager failing_task voice_vendor [first_post]
    = (Raised unsupported, [first_post])
  ∧ batch_process_sequential 1 ai_manager [ok_task; failing_task; ok_task]
      voice_vendor []
    = (Raised unsupported, [first_post]).
Proof.
  cbv zeta.
  split; [vm_compute; reflexivity|]. split; [vm_compute; reflexivity|].
  eapply (C4_sequential_batch_fails_fast 1 ai_manager [ok_task] failing_task
            [ok_task] voice_vendor []).
  - vm_compute. reflexivity.
  - vm_compute. reflexivity.
Defined.

(** In that run exactly one request was posted: the first task's. *)
Example sequential_batch_example_log :
  let run :=
    batch_process_sequential 1 ai_manager [ok_task; failing_task; ok_task]
      voice_vendor [] in
  length run.2 = 1%nat
  ∧ (batch_process_sequential 1 ai_manager [ok_task; ok_task] voice_vendor []).1
    = Returned
        [ [ ("audio", VBytes [Byte.x52; Byte.x49; Byte.x46; Byte.x46]);
            ("provider", VStr "ElevenLabs"); ("cost", VFloat 0.01) ];
          [ ("audio", VBytes [Byte.x52; Byte.x49; Byte.x46; Byte.x46]);
            ("provider", VStr "ElevenLabs"); ("cost", VFloat 0.01) ] ].
Proof. vm_compute. split; reflexivity. Qed.

(** *** The parallel branch *)

Section Gather.
Context (rs : list Result).

Lemma slots_lookup done i :
  slots rs done !! i
  = (λ r, if bool_decide (i ∈ done) then Some r else None) <$> rs !! i.
Proof. unfold slots. by rewrite list_lookup_imap. Qed.

Lemma slots_nil : slots rs [] = replicate (length rs) None.
Proof.
  apply list_eq. intros i. rewrite slots_lookup.
  destruct (rs !! i) as [r|] eqn:E; cbn [fmap option_fmap option_map].
  - rewrite lookup_replicate_2; [|by eapply lookup_lt_Some].
    rewrite bool_decide_eq_false_2; [done|]. apply not_elem_of_nil.
  - symmetry. apply lookup_replicate_None. by apply lookup_ge_None.
Qed.

Lemma slots_snoc done i r :
  rs !! i = Some r →
  <[i := Some r]> (slots rs done) = slots rs (done ++ [i]).
Proof.
  intros Hi. apply list_eq. intros j. destruct (decide (i = j)) as [<-|Hne].
  - rewrite list_lookup_insert_eq.
    + rewrite slots_lookup, Hi. cbn [fmap option_fmap option_map].
      rewrite bool_decide_eq_true_2; [done|]. set_solver.
    + unfold slots. rewrite length_imap. by eapply lookup_lt_Some.
  - rewrite list_lookup_insert_ne by done. rewrite !slots_lookup.
    destruct (rs !! j) as [r'|]; cbn [fmap option_fmap option_map]; [|done].
    f_equal. rewrite (bool_decide_ext (j ∈ (done ++ [i])%list) (j ∈ done)); [done|].
    set_solver.
Qed.

Lemma slots_all done :
  (∀ i, (i < length rs)%nat → i ∈ done) → slots rs done = Some <$> rs.
Proof.
  intros Hall. apply list_eq. intros i.
  rewrite slots_lookup, list_lookup_fmap.
  destruct (rs !! i) as [r|] eqn:E; cbn [fmap option_fmap option_map]; [|done].
  rewrite bool_decide_eq_true_2; [done|].
  apply Hall. by eapply lookup_lt_Some.
Qed.

Lemma collect_pending (l : list (option Result)) i :
  l !! i = Some None → collect l = None.
Proof.
  intros Hi. apply mapM_None_2, Exists_exists.
  exists None. split; [|done]. by eapply list_elem_of_lookup_2.
Qed.

Lemma collect_all : collect (Some <$> rs) = Some rs.
Proof. unfold collect. by apply mapM_fmap_Some. Qed.

(** While children are still pending the outer future is not done, and
    the slots hold the results of the children that have completed. *)
Lemma deliver_all (done : list nat) :
  NoDup done →
  (∀ i, i ∈ done → (i < length rs)%nat) →
  foldl (deliver (Returned <$> rs))
    (mkGather (replicate (length (Returned <$> rs)) None) None) done
  = mkGather (slots rs done)
      (match done with
       | [] => None
       | _ => Returned <$> collect (slots rs done)
       end).
Proof.
  induction done as [|i done IH] using rev_ind; intros Hnd Hlt.
  - simpl. by rewrite slots_nil, length_fmap.
  - apply NoDup_app in Hnd as (Hnd & Hfresh & _).
    rewrite foldl_snoc, IH; [|done|intros j Hj; apply Hlt; set_solver].
    assert (Hi : (i < length rs)%nat) by (apply Hlt; set_solver).
    assert (Hni : i ∉ done) by (intros Hin; apply (Hfresh i Hin); set_solver).
    destruct (lookup_lt_is_Some_2 rs i Hi) as [r Hr].
    assert (Hpending : slots rs done !! i = Some None).
    { rewrite slots_lookup, Hr. cbn [fmap option_fmap option_map].
      by rewrite bool_decide_eq_false_2. }
    assert (Houter : match done with
                     | [] => None
                     | _ => Returned <$> collect (slots rs done)
                     end = None).
    { destruct done; [done|]. by rewrite (collect_pending _ i). }
    rewrite Houter. unfold deliver, done_callback.
    rewrite list_lookup_fmap, Hr. simpl.
    rewrite Hpending, (slots_snoc _ _ _ Hr).
    by destruct done.
Qed.

(** Whatever the order of completion, [gather] returns the results in the
    order of its arguments. *)
Lemma gather_returns_in_argument_order (order : list nat) :
  order ≡ₚ seq 0 (length rs) →
  gather (Returned <$> rs) order = Returned rs.
Proof.
  intros Hperm. unfold gather.
  destruct (Returned <$> rs) as [|c cs] eqn:Hc.
  { apply fmap_nil_inv in Hc as ->. reflexivity. }
  rewrite <- Hc. rewrite deliver_all.
  - simpl. rewrite slots_all, collect_all.
    + destruct order; [|done].
      apply Permutation_nil_l in Hperm. by destruct rs.
    + intros i Hi. rewrite Hperm. apply elem_of_seq. lia.
  - rewrite Hperm. apply NoDup_seq.
  - intros i Hi. rewrite Hperm in Hi. apply elem_of_seq in Hi. lia.
Qed.
End Gather.

(** C5: in parallel mode, when every task's coroutine returns, the batch
    returns the results position for position in the order of the tasks,
    whatever the order in which the tasks complete. *)
Theorem C5_parallel_batch_keeps_task_order :
  ∀ (fuel : nat) (self : AIModelManager) (tasks : list Task)
    (views : nat → Vendor) (order : list nat) (results : list Result),
    imap (λ i task, (_process_task fuel self task (views i) []).1) tasks
    = Returned <$> results →
    order ≡ₚ seq 0 (length tasks) →
    batch_process_parallel fuel self tasks views order = Returned results.
Proof.
  intros fuel self tasks views order results Hall Hperm.
  unfold batch_process_parallel. rewrite Hall.
  apply gather_returns_in_argument_order.
  replace (length results) with (length tasks); [done|].
  by rewrite <- (length_imap (λ i task,
       (_process_task fuel self task (views i) []).1) tasks), Hall, length_fmap.
Qed.

Lemma C5_parallel_batch_keeps_task_order_witness :
  imap (λ i task, (_process_task 1 ai_manager task (audio_views i) []).1)
    [ok_task; ok_task; ok_task]
  = Returned <$> [audio_result 1; audio_result 2; audio_result 3]
  ∧ [2; 0; 1]%nat ≡ₚ seq 0 3
  ∧ batch_process_parallel 1 ai_manager [ok_task; ok_task; ok_task] audio_views
      [2; 0; 1]%nat
    = Returned [audio_result 1; audio_result 2; audio_result 3].
Proof.
  assert (Hperm : [2; 0; 1]%nat ≡ₚ seq 0 3).
  { simpl. exact (perm_trans (perm_swap 0%nat 2%nat [1%nat])
                    (perm_skip 0%nat (perm_swap 1%nat 2%nat []))). }
  split; [vm_compute; reflexivity|]. split; [exact Hperm|].
  apply C5_parallel_batch_keeps_task_order; [vm_compute; reflexivity|exact Hperm].
Defined.

(** In parallel mode a task that raises fails the batch as soon as it
    completes. *)
Example parallel_batch_failure :
  batch_process_parallel 1 ai_manager [ok_task; failing_task; ok_task]
    audio_views [2; 1; 0]%nat
  = Raised (NotImplementedError (Provider_not_implemented (VProvider ELEVENLABS))).
Proof. vm_compute. reflexivity. Qed.

(** ** Cost estimates *)

Lemma float_of_int_convertible n :
  convertible n = true → float_of_int n = Returned (to_float n).
Proof.
  unfold convertible, float_of_int, to_float.
  by destruct (PrimFloat.is_infinity _).
Qed.

Lemma float_of_int_not_convertible n :
  convertible n = false → float_of_int n = Raised OverflowError.
Proof.
  unfold convertible, float_of_int, to_float.
  by destruct (PrimFloat.is_infinity _).
Qed.

(** The loop over planned operations: the sum when [float] can hold every
    count of a known pair, [OverflowError] otherwise. *)
Lemma estimate_cost_loop_planned self ops total :
  estimate_cost_loop self (planned <$> ops) total
  = if forallb (λ kc : float * Z, convertible kc.2) (known_operations self ops)
    then Returned (sum_of_costs total (known_operations self ops))
    else Raised OverflowError.
Proof.
  revert total. induction ops as [|[p n] ops IH]; intros total; [reflexivity|].
  cbn [fmap list_fmap estimate_cost_loop].
  change (dict_get (planned (p, n)) "provider") with (VProvider p).
  change (dict_get_default (planned (p, n)) "count" (VInt 1)) with (VInt n).
  unfold known_operations in *. cbn [omap list_omap] in *.
  cbn [configs_get mbind Outcome_bind fst snd] in *.
  destruct (configs self !! p) as [config|]; cbn.
  - destruct (convertible n) eqn:Hn.
    + rewrite (float_of_int_convertible _ Hn). cbn. by apply IH.
    + by rewrite (float_of_int_not_convertible _ Hn).
  - by apply IH.
Qed.

(** The estimate of a workflow in two parts. *)
Lemma estimate_cost_in_two_parts_aux self first second :
  estimate_cost self (first ++ second)%list
  = (total ← estimate_cost self first; estimate_cost_loop self second total).
Proof.
  unfold estimate_cost. generalize 0%float as total.
  induction first as [|step first IH]; intros total; [reflexivity|].
  cbn [app estimate_cost_loop].
  destruct (configs_get self (dict_get step "provider")) as [[config|]| |];
    cbn; [|done..].
  destruct (py_float_mul _ _); cbn; done.
Qed.

(** A step whose provider is not a key is skipped, whatever else it holds. *)
Lemma estimate_cost_loop_skip self before step after total :
  configs_get self (dict_get step "provider") = Returned None →
  estimate_cost_loop self (before ++ step :: after)%list total
  = estimate_cost_loop self (before ++ after)%list total.
Proof.
  intros Hskip. revert total.
  induction before as [|s before IH]; intros total.
  - cbn [app estimate_cost_loop]. by rewrite Hskip.
  - cbn [app estimate_cost_loop].
    destruct (configs_get self (dict_get s "provider")) as [[config|]| |];
      cbn; [|done..].
    destruct (py_float_mul _ _); cbn; done.
Qed.

(** C6, as stated, fails in its worked example: with the registry's costs
    0.05 (Runway) and 0.02 (Kling) the estimate of [(A, 3); (B, 2)] is the
    binary64 number 0.19000000000000003, which is not equal to 0.19
    ([0.05 * 3] is already 0.15000000000000002). *)
Lemma C6_estimate_example_is_not_0_19 :
  cost_per_request <$> configs ai_manager !! RUNWAY_GEN3 = Some 0.05%float
  ∧ cost_per_request <$> configs ai_manager !! KLING = Some 0.02%float
  ∧ ∃ total,
      estimate_cost ai_manager (planned <$> [(RUNWAY_GEN3, 3%Z); (KLING, 2%Z)])
      = Returned total
      ∧ total = 0.19000000000000003%float
      ∧ PrimFloat.eqb total 0.19 = false
      ∧ PrimFloat.ltb 0.19 total = true.
Proof.
  split; [vm_compute; reflexivity|]. split; [vm_compute; reflexivity|].
  eexists. split; [vm_compute; reflexivity|].
  repeat split; vm_compute; reflexivity.
Qed.

(** C6 (amended): for every sequence of planned operations with integer
    counts, the estimate is the sum, from 0.0 and in sequence order, of
    [cost_per_request * count] over the pairs whose identifier is in the
    registry, when [float] can hold the count of each of these pairs, and
    the call raises [OverflowError] when it cannot hold one of them; a step
    with an unknown identifier is skipped without error whatever its count,
    so the estimate with it equals the estimate without it; and the worked
    example yields 0.19 up to binary64 rounding, namely the next float above
    0.19. *)
Theorem C6_estimate_cost_sums_known_operations :
  ∀ (self : AIModelManager) (ops : list (AIProvider * Z)),
    estimate_cost self (planned <$> ops)
    = (if forallb (λ kc : float * Z, convertible kc.2) (known_operations self ops)
       then Returned (sum_of_costs 0 (known_operations self ops))
       else Raised OverflowError)
    ∧ (∀ (before : list PyDict) (step : PyDict) (after : list PyDict),
         configs_get self (dict_get step "provider") = Returned None →
         estimate_cost self (before ++ step :: after)%list
         = estimate_cost self (before ++ after)%list)
    ∧ estimate_cost ai_manager (planned <$> [(RUNWAY_GEN3, 3%Z); (KLING, 2%Z)])
      = Returned (PrimFloat.next_up 0.19).
Proof.
  intros self ops. split; [|split].
  - apply estimate_cost_loop_planned.
  - intros before step after Hskip. by apply estimate_cost_loop_skip.
  - vm_compute. reflexivity.
Qed.

Lemma C6_estimate_cost_sums_known_operations_witness :
  estimate_cost ai_manager (planned <$> example_operations)
  = Returned (sum_of_costs 0 [(0.05%float, 3%Z); (0.02%float, 2%Z)])
  ∧ estimate_cost ai_manager
      (planned <$> [(RUNWAY_GEN3, 3%Z); (MOONVALLEY, (2 ^ 1024)%Z);
                    (KLING, (2 ^ 1024)%Z); (RUNWAY_GEN3, 1%Z)])
    = Raised OverflowError
  ∧ estimate_cost ai_manager
      ([planned (RUNWAY_GEN3, 3%Z)]
       ++ [("provider", VStr "runway_gen3"); ("count", VStr "many")]
       :: [planned (KLING, 2%Z)])%list
    = estimate_cost ai_manager
        ([planned (RUNWAY_GEN3, 3%Z)] ++ [planned (KLING, 2%Z)])%list.
Proof.
  split; [|split].
  - destruct (C6_estimate_cost_sums_known_operations ai_manager
                example_operations) as (H & _).
    exact (eq_trans H eq_refl).
  - destruct (C6_estimate_cost_sums_known_operations ai_manager
                [(RUNWAY_GEN3, 3%Z); (MOONVALLEY, (2 ^ 1024)%Z);
                 (KLING, (2 ^ 1024)%Z); (RUNWAY_GEN3, 1%Z)]) as (H & _).
    exact (eq_trans H eq_refl).
  - destruct (C6_estimate_cost_sums_known_operations ai_manager []) as (_ & H & _).
    apply H. reflexivity.
Defined.

Example estimate_example_with_unknown :
  known_operations ai_manager example_operations
  = [(0.05%float, 3%Z); (0.02%float, 2%Z)]
  ∧ estimate_cost ai_manager (planned <$> example_operations)
    = estimate_cost ai_manager (planned <$> [(RUNWAY_GEN3, 3%Z); (KLING, 2%Z)]).
Proof. vm_compute. split; reflexivity. Qed.

Lemma dict_lookup_set_ne {V} (k k' : string) (v : V) d :
  String.eqb k' k = false →
  dict_lookup k (dict_set k' v d) = dict_lookup k d.
Proof.
  intros Hne. induction d as [|[k0 x] d IH]; simpl.
  - by rewrite Hne.
  - destruct (String.eqb k0 k') eqn:E; simpl.
    + apply String.eqb_eq in E as ->. by rewrite Hne.
    + destruct (String.eqb k0 k); [done|]. apply IH.
Qed.

Lemma dict_lookup_set_eq {V} (k : string) (v : V) d :
  dict_lookup k (dict_set k v d) = Some v.
Proof.
  induction d as [|[k0 x] d IH]; simpl.
  - by rewrite String.eqb_refl.
  - destruct (String.eqb k0 k) eqn:E; simpl; by rewrite E.
Qed.

(** Steps that agree on provider and count contribute the same. *)
Lemma estimate_cost_loop_step_ext self before s1 s2 after total :
  dict_get s1 "provider" = dict_get s2 "provider" →
  dict_get_default s1 "count" (VInt 1) = dict_get_default s2 "count" (VInt 1) →
  estimate_cost_loop self (before ++ s1 :: after)%list total
  = estimate_cost_loop self (before ++ s2 :: after)%list total.
Proof.
  intros Hp Hc. revert total.
  induction before as [|s before IH]; intros total.
  - cbn [app estimate_cost_loop]. by rewrite Hp, Hc.
  - cbn [app estimate_cost_loop].
    destruct (configs_get self (dict_get s "provider")) as [[config|]| |];
      cbn; [|done..].
    destruct (py_float_mul _ _); cbn; done.
Qed.

(** C10: the estimate of the empty workflow is exactly 0.0; a step without a
    [count] key is estimated as the same step with [count] 1, wherever it
    stands in the workflow; and such a step for a provider of the registry
    adds exactly one [cost_per_request] of that provider to the total of the
    steps before it, so that alone it is estimated at [cost_per_request].
    The registry is that of [load_api_configs], the only code that
    fills [configs]. *)
Theorem C10_estimate_cost_default_count :
  ∀ (self : AIModelManager),
    estimate_cost self [] = Returned 0%float
    ∧ (∀ (before : list PyDict) (step : PyDict) (after : list PyDict),
         dict_lookup "count" step = None →
         estimate_cost self (before ++ step :: after)%list
         = estimate_cost self
             (before ++ dict_set "count" (VInt 1) step :: after)%list)
    ∧ (∀ (env : Env) (p : AIProvider) (config : APIConfig)
         (before : list PyDict) (step : PyDict) (after : list PyDict),
         configs (init env) !! p = Some config →
         configs self !! p = Some config →
         dict_get step "provider" = VProvider p →
         dict_lookup "count" step = None →
         estimate_cost self (before ++ step :: after)%list
         = (total ← estimate_cost self before;
            estimate_cost_loop self after (total + cost_per_request config)%float)
         ∧ estimate_cost self [step] = Returned (cost_per_request config)).
Proof.
  intros self. split; [reflexivity|]. split.
  - intros before step after Hnone. apply estimate_cost_loop_step_ext.
    + unfold dict_get, dict_get_default.
      by rewrite dict_lookup_set_ne.
    + unfold dict_get_default. by rewrite Hnone, dict_lookup_set_eq.
  - intros env p config before step after Hregistry Hself Hprovider Hnone.
    assert (Hstep : ∀ total rest,
      estimate_cost_loop self (step :: rest) total
      = estimate_cost_loop self rest (total + cost_per_request config * 1)%float).
    { intros total rest. cbn [estimate_cost_loop]. rewrite Hprovider.
      cbn [configs_get mbind Outcome_bind]. rewrite Hself.
      unfold dict_get_default. rewrite Hnone. reflexivity. }
    assert (Hone : (cost_per_request config * 1)%float = cost_per_request config
                   ∧ (0 + cost_per_request config)%float = cost_per_request config).
    { destruct p; vm_compute in Hregistry; try discriminate Hregistry;
        injection Hregistry as <-; split; vm_compute; reflexivity. }
    destruct Hone as [Hone Hzero]. rewrite Hone in Hstep. split.
    + rewrite estimate_cost_in_two_parts_aux.
      destruct (estimate_cost self before) as [total| |]; cbn; [|done..].
      apply Hstep.
    + unfold estimate_cost. rewrite Hstep. cbn [estimate_cost_loop].
      by rewrite Hzero.
Qed.

Lemma C10_estimate_cost_default_count_witness :
  estimate_cost ai_manager [] = Returned 0%float
  ∧ estimate_cost ai_manager [[("provider", VProvider RUNWAY_GEN3)]]
    = estimate_cost ai_manager
        [[("provider", VProvider RUNWAY_GEN3); ("count", VInt 1)]]
  ∧ estimate_cost ai_manager
      [planned (KLING, 2%Z); [("provider", VProvider RUNWAY_GEN3)];
       planned (KLING, 1%Z)]
    = (total ← estimate_cost ai_manager [planned (KLING, 2%Z)];
       estimate_cost_loop ai_manager [planned (KLING, 1%Z)] (total + 0.05)%float)
  ∧ estimate_cost ai_manager [[("provider", VProvider RUNWAY_GEN3)]]
    = Returned 0.05%float.
Proof.
  destruct (C10_estimate_cost_default_count ai_manager) as (H1 & H2 & H3).
  split; [exact H1|]. split.
  - exact (H2 [] [("provider", VProvider RUNWAY_GEN3)] [] eq_refl).
  - split.
    + apply (H3 no_env RUNWAY_GEN3 runway_config [planned (KLING, 2%Z)]
               [("provider", VProvider RUNWAY_GEN3)] [planned (KLING, 1%Z)]);
        vm_compute; reflexivity.
    + apply (H3 no_env RUNWAY_GEN3 runway_config []
               [("provider", VProvider RUNWAY_GEN3)] []);
        vm_compute; reflexivity.
Defined.

(** * Further properties *)

(** ** Reading a run backwards *)

Lemma bind_returned {A B} (m : M A) (f : A → M B) vendor log b log' :
  (m ≫= f) vendor log = (Returned b, log') →
  ∃ a log1, m vendor log = (Returned a, log1)
            ∧ f a vendor log1 = (Returned b, log').
Proof.
  unfold mbind, M_bind.
  destruct (m vendor log) as [[a|e|] log1]; try discriminate. eauto.
Qed.

Lemma lift_returned {A} (o : Outcome A) vendor log a log' :
  lift o vendor log = (Returned a, log') → o = Returned a ∧ log' = log.
Proof. unfold lift. by intros [= -> ->]. Qed.

Lemma ret_returned {A} (a b : A) vendor log log' :
  (mret a : M A) vendor log = (Returned b, log') → b = a ∧ log' = log.
Proof. unfold mret, M_ret. by intros [= -> ->]. Qed.

Lemma forward_kwargs_returned {A} parameters kwargs (call : M A) vendor log a log' :
  forward_kwargs parameters kwargs call vendor log = (Returned a, log') →
  call vendor log = (Returned a, log').
Proof.
  unfold forward_kwargs. by destruct (existsb _ kwargs).
Qed.

Ltac bindR H :=
  let a := fresh "a" in
  let l := fresh "l" in
  let Hm := fresh "Hm" in
  apply bind_returned in H as (a & l & Hm & H).

Ltac liftR H :=
  let E := fresh "E" in
  apply lift_returned in H as [E ->].

(** The shape of what each adapter returns. *)
Lemma runway_poll_result fuel self config headers gid vendor log r log' :
  _runway_gen3_video_poll fuel self config headers gid vendor log
  = (Returned r, log') →
  ∃ url, r = [ ("url", url); ("provider", VStr "Runway Gen-3");
               ("cost", VFloat (cost_per_request config)) ].
Proof.
  revert log. induction fuel as [|fuel IH]; intros log H; [discriminate|].
  cbn [_runway_gen3_video_poll] in H.
  bindR H. bindR H. bindR H.
  destruct (py_eq_str a1 "completed").
  - bindR H. apply ret_returned in H as [-> _]. eauto.
  - bindR H. destruct (py_eq_str a2 "failed").
    + bindR H. discriminate.
    + bindR H. eauto.
Qed.

Lemma runway_result fuel self prompt image duration resolution config vendor
    log r log' :
  _runway_gen3_video fuel self prompt image duration resolution config vendor log
  = (Returned r, log') →
  ∃ url, r = [ ("url", url); ("provider", VStr "Runway Gen-3");
               ("cost", VFloat (cost_per_request config)) ].
Proof.
  unfold _runway_gen3_video. intros H.
  bindR H. bindR H. bindR H. bindR H. by eapply runway_poll_result.
Qed.

Lemma midjourney_poll_result fuel self config headers job_id vendor log r log' :
  _midjourney_image_poll fuel self config headers job_id vendor log
  = (Returned r, log') →
  ∃ urls, r = [ ("urls", urls); ("provider", VStr "Midjourney");
                ("cost", VFloat (cost_per_request config)) ].
Proof.
  revert log. induction fuel as [|fuel IH]; intros log H; [discriminate|].
  cbn [_midjourney_image_poll] in H.
  bindR H. bindR H. bindR H.
  destruct (py_eq_str a1 "completed").
  - bindR H. apply ret_returned in H as [-> _]. eauto.
  - bindR H. eauto.
Qed.

Lemma midjourney_result fuel self prompt style config kwargs vendor log r log' :
  _midjourney_image fuel self prompt style config kwargs vendor log
  = (Returned r, log') →
  ∃ urls, r = [ ("urls", urls); ("provider", VStr "Midjourney");
                ("cost", VFloat (cost_per_request config)) ].
Proof.
  unfold _midjourney_image. intros H.
  bindR H. bindR H. bindR H. by eapply midjourney_poll_result.
Qed.

Lemma suno_result self prompt duration genre config kwargs vendor log r log' :
  _suno_music self prompt duration genre config kwargs vendor log
  = (Returned r, log') →
  ∃ url lyrics, r = [ ("url", url); ("provider", VStr "Suno AI");
                      ("cost", VFloat (cost_per_request config));
                      ("lyrics", lyrics) ].
Proof.
  unfold _suno_music. intros H.
  bindR H. bindR H. bindR H. bindR H. bindR H.
  apply ret_returned in H as [-> _]. eauto.
Qed.

Lemma elevenlabs_result self text voice_id config kwargs vendor log r log' :
  _elevenlabs_voice self text voice_id config kwargs vendor log
  = (Returned r, log') →
  ∃ audio, r = [ ("audio", VBytes audio); ("provider", VStr "ElevenLabs");
                 ("cost", VFloat (cost_per_request config)) ].
Proof.
  unfold _elevenlabs_voice. intros H.
  bindR H. bindR H. apply ret_returned in H as [-> _]. eauto.
Qed.

Lemma claude_result self prompt max_tokens config kwargs vendor log r log' :
  _claude_script self prompt max_tokens config kwargs vendor log
  = (Returned r, log') →
  ∃ text, r = [ ("text", text); ("provider", VStr "Claude 3 Opus");
                ("cost", VFloat (cost_per_request config)) ].
Proof.
  unfold _claude_script. intros H.
  bindR H. bindR H. bindR H. bindR H. bindR H.
  apply ret_returned in H as [-> _]. eauto.
Qed.

Lemma pika_never_returns self prompt image duration resolution config vendor
    log r log' :
  _pika_video self prompt image duration resolution config vendor log
  ≠ (Returned r, log').
Proof.
  unfold _pika_video. intros H. bindR H. bindR H. discriminate.
Qed.

Lemma is_provider_true provider p :
  is_provider provider p = true → provider = VProvider p.
Proof.
  destruct provider; simpl; try discriminate.
  intros H. by apply bool_decide_eq_true in H as ->.
Qed.

(** ** What a generation call can come to *)

(** The branch, the display name and the cost of a result. *)
Lemma generate_result_shape :
  ∀ (fuel : nat) (self : AIModelManager) (provider : PyVal) (c : Call)
    (vendor : Vendor) (log log' : Log) (r : Result),
    generate fuel self provider c vendor log = (Returned r, log') →
    ∃ p config name,
      provider = VProvider p
      ∧ (capability c, p) ∈ served
      ∧ configs self !! p = Some config
      ∧ display_name p = Some name
      ∧ dict_lookup "provider" r = Some (VStr name)
      ∧ dict_lookup "cost" r = Some (VFloat (cost_per_request config)).
Proof.
  intros fuel self provider c vendor log log' r H.
  destruct c; cbn [generate] in H;
    unfold generate_video, generate_image, generate_music, generate_voice,
      generate_script in H;
    bindR H; liftR Hm;
    (destruct a as [config|]; [|discriminate]);
    repeat match type of H with
    | (if is_provider ?v ?q then _ else _) _ _ = _ =>
        let E := fresh "E" in
        destruct (is_provider v q) eqn:E;
        [apply is_provider_true in E; subst v|clear E]
    end;
    try discriminate;
    try apply forward_kwargs_returned in H;
    try (exfalso; by eapply pika_never_returns);
    simpl in E;
    [ apply runway_result in H as [url ->]
    | apply midjourney_result in H as [urls ->]
    | apply suno_result in H as (url & lyrics & ->)
    | apply elevenlabs_result in H as [audio ->]
    | apply claude_result in H as [text ->] ];
    (eexists _, config, _; split; [reflexivity|]; split; [set_solver|];
     split; [by injection E|]; repeat split; reflexivity).
Qed.

(** X1: whatever the registry holds, a call of an entry point returns a
    result only on one of five branches (Runway video, Midjourney image,
    Suno music, ElevenLabs voice, Claude script), and the result then carries
    that adapter's display name and the [cost_per_request] of the
    provider's configuration. *)
Theorem generate_result_names_adapter_and_cost :
  ∀ (fuel : nat) (self : AIModelManager) (provider : PyVal) (c : Call)
    (vendor : Vendor) (log log' : Log) (r : Result),
    generate fuel self provider c vendor log = (Returned r, log') →
    ∃ p config name,
      provider = VProvider p
      ∧ (capability c, p) ∈ served
      ∧ configs self !! p = Some config
      ∧ display_name p = Some name
      ∧ dict_lookup "provider" r = Some (VStr name)
      ∧ dict_lookup "cost" r = Some (VFloat (cost_per_request config)).
Proof. apply generate_result_shape. Qed.

Lemma generate_result_names_adapter_and_cost_witness :
  generate 1 ai_manager (VProvider ELEVENLABS) (CallVoice "hello" None [])
    voice_vendor []
  = (Returned [ ("audio", VBytes [Byte.x52; Byte.x49; Byte.x46; Byte.x46]);
                ("provider", VStr "ElevenLabs"); ("cost", VFloat 0.01) ],
     (generate 1 ai_manager (VProvider ELEVENLABS) (CallVoice "hello" None [])
        voice_vendor []).2)
  ∧ ∃ p config name,
      VProvider ELEVENLABS = VProvider p
      ∧ (Voice, p) ∈ served
      ∧ configs ai_manager !! p = Some config
      ∧ display_name p = Some name
      ∧ dict_lookup "provider"
          [ ("audio", VBytes [Byte.x52; Byte.x49; Byte.x46; Byte.x46]);
            ("provider", VStr "ElevenLabs"); ("cost", VFloat 0.01) ]
        = Some (VStr name)
      ∧ dict_lookup "cost"
          [ ("audio", VBytes [Byte.x52; Byte.x49; Byte.x46; Byte.x46]);
            ("provider", VStr "ElevenLabs"); ("cost", VFloat 0.01) ]
        = Some (VFloat (cost_per_request config)).
Proof.
  assert (H : generate 1 ai_manager (VProvider ELEVENLABS)
                (CallVoice "hello" None []) voice_vendor []
              = (Returned [ ("audio", VBytes [Byte.x52; Byte.x49; Byte.x46; Byte.x46]);
                            ("provider", VStr "ElevenLabs");
                            ("cost", VFloat 0.01) ],
                 (generate 1 ai_manager (VProvider ELEVENLABS)
                    (CallVoice "hello" None []) voice_vendor []).2)).
  { vm_compute. reflexivity. }
  split; [exact H|].
  exact (generate_result_names_adapter_and_cost 1 ai_manager
           (VProvider ELEVENLABS) (CallVoice "hello" None []) voice_vendor [] _ _ H).
Defined.

Lemma forward_kwargs_raised {A} parameters kwargs (call : M A) vendor log :
  (∃ e, call vendor log = (Raised e, log)) →
  ∃ e, forward_kwargs parameters kwargs call vendor log = (Raised e, log).
Proof.
  unfold forward_kwargs. destruct (existsb _ kwargs); [|done].
  intros _. by eexists.
Qed.

Ltac no_session Hs :=
  unfold session_post; rewrite Hs; run_M; eauto.

(** X2: on a manager whose session was never created ([initialize] not
    called) every call of an entry point raises, and nothing is sent: the
    log is unchanged. *)
Theorem generate_without_session_sends_nothing :
  ∀ (fuel : nat) (self : AIModelManager) (provider : PyVal) (c : Call)
    (vendor : Vendor) (log : Log),
    session self = false →
    ∃ e, generate fuel self provider c vendor log = (Raised e, log).
Proof.
  intros fuel self provider c vendor log Hs.
  destruct c; cbn [generate];
    unfold generate_video, generate_image, generate_music, generate_voice,
      generate_script;
    unfold mbind at 1, M_bind at 1, lift at 1;
    (destruct (configs_get self provider) as [[config|]|e|] eqn:Ecfg;
       [| eexists; reflexivity ..
        | exfalso; destruct provider; discriminate Ecfg]);
    repeat match goal with
    | |- ∃ e, (if ?b then _ else _) _ _ = _ => destruct b
    end;
    try (eexists; reflexivity);
    try apply forward_kwargs_raised.
  - unfold _runway_gen3_video. destruct (max_duration config); run_M;
      [no_session Hs | eauto].
  - unfold _pika_video. destruct (max_duration config); run_M; eauto.
  - unfold _midjourney_image. run_M. no_session Hs.
  - unfold _suno_music. destruct (max_duration config); run_M;
      [no_session Hs | eauto].
  - unfold _elevenlabs_voice. run_M. no_session Hs.
  - unfold _claude_script. run_M. no_session Hs.
Qed.

Lemma generate_without_session_sends_nothing_witness :
  session (init no_env) = false
  ∧ ∃ e, generate 3 (init no_env) (VProvider RUNWAY_GEN3)
           (CallVideo "a cat" None 5 "1280x720" []) busy_vendor []
         = (Raised e, []).
Proof.
  split; [reflexivity|].
  exact (generate_without_session_sends_nothing 3 (init no_env)
           (VProvider RUNWAY_GEN3) (CallVideo "a cat" None 5 "1280x720" [])
           busy_vendor [] eq_refl).
Defined.

(** X3: a provider that has a configuration and a branch in the cascade of
    the entry point, but whose branch calls a method the class does not
    define, ends in [AttributeError] for that method, with the log
    unchanged. *)
Theorem generate_undefined_adapter_raises :
  ∀ (fuel : nat) (self : AIModelManager) (p : AIProvider) (config : APIConfig)
    (c : Call) (method : string) (vendor : Vendor) (log : Log),
    configs self !! p = Some config →
    (capability c, p, method) ∈ undefined_adapters →
    generate fuel self (VProvider p) c vendor log
    = (Raised (AttributeError "AIModelManager" method), log).
Proof.
  intros fuel self p config c method vendor log Hcfg Hin.
  unfold undefined_adapters in Hin.
  repeat (apply elem_of_cons in Hin as [Hin|Hin];
          [injection Hin as Hc -> ->; destruct c; try discriminate Hc;
           cbn [generate];
           unfold generate_video, generate_image, generate_music,
             generate_voice, generate_script, mbind, M_bind, lift;
           cbn [configs_get]; rewrite Hcfg; reflexivity|]).
  by apply elem_of_nil in Hin.
Qed.

Lemma generate_undefined_adapter_raises_witness :
  ∃ config,
    configs ai_manager !! DALL_E_3 = Some config
    ∧ (Image, DALL_E_3, "_dalle3_image") ∈ undefined_adapters
    ∧ generate 3 ai_manager (VProvider DALL_E_3) (CallImage "a cat" None None [])
        busy_vendor []
      = (Raised (AttributeError "AIModelManager" "_dalle3_image"), []).
Proof.
  assert (Hin : (Image, DALL_E_3, "_dalle3_image") ∈ undefined_adapters).
  { unfold undefined_adapters. do 3 apply list_elem_of_further.
    apply list_elem_of_here. }
  eexists. split; [vm_compute; reflexivity|]. split; [exact Hin|].
  eapply (generate_undefined_adapter_raises 3 ai_manager DALL_E_3 _
            (CallImage "a cat" None None []));
    [vm_compute; reflexivity|exact Hin].
Defined.

(** The operations on values never wait. *)
Lemma py_subscript_finished v key : py_subscript v key ≠ StillPolling.
Proof. destruct v; simpl; try discriminate. by destruct (dict_lookup key d). Qed.

Lemma py_subscript_0_finished v : py_subscript_0 v ≠ StillPolling.
Proof. by destruct v as [| | | |[|]|[|]| |[|]|]. Qed.

Lemma py_get_finished v key : py_get v key ≠ StillPolling.
Proof. by destruct v. Qed.

Ltac pure_case x :=
  let E := fresh "E" in
  destruct x eqn:E; simpl;
  [ | | exfalso;
        first [ by eapply py_subscript_finished
              | by eapply py_subscript_0_finished
              | by eapply py_get_finished ] ].

Ltac one_post_done := split; [reflexivity|do 3 eexists; reflexivity].

(** X4: the adapters without a polling loop (Suno, ElevenLabs, Claude), with
    a session open, send exactly one request, a POST, whatever the vendor
    answers and whether the answer can be read or not; they never wait. For
    Suno this needs a configured maximum duration. *)
Theorem synchronous_adapters_post_once :
  ∀ (self : AIModelManager) (config : APIConfig) (prompt : string)
    (duration max_tokens : Z) (genre voice_id : option string)
    (kwargs : PyDict) (vendor : Vendor) (log : Log),
    session self = true →
    one_post log (_elevenlabs_voice self prompt voice_id config kwargs vendor log)
    ∧ one_post log (_claude_script self prompt max_tokens config kwargs vendor log)
    ∧ (is_Some (max_duration config) →
       one_post log (_suno_music self prompt duration genre config kwargs vendor log)).
Proof.
  intros self config prompt duration max_tokens genre voice_id kwargs vendor log
    Hs.
  unfold one_post. split; [|split].
  - unfold _elevenlabs_voice, session_post. rewrite Hs. run_M. one_post_done.
  - unfold _claude_script, session_post, response_json. rewrite Hs. run_M.
    destruct (resp_json _) as [result|]; simpl; [|one_post_done].
    pure_case (py_subscript result "content"); [|one_post_done].
    pure_case (py_subscript_0 a); [|one_post_done].
    pure_case (py_subscript a0 "text"); one_post_done.
  - intros [m Hm]. unfold _suno_music, session_post, response_json.
    rewrite Hm, Hs. run_M.
    destruct (resp_json _) as [result|]; simpl; [|one_post_done].
    pure_case (py_subscript result "audio_url"); [|one_post_done].
    pure_case (py_get result "lyrics"); one_post_done.
Qed.

Lemma synchronous_adapters_post_once_witness :
  session ai_manager = true
  ∧ one_post [] (_elevenlabs_voice ai_manager "hello" None runway_config []
                   voice_vendor [])
  ∧ one_post [] (_claude_script ai_manager "hello" 4000 runway_config []
                   voice_vendor [])
  ∧ one_post [] (_suno_music ai_manager "hello" 60 None runway_config []
                   voice_vendor []).
Proof.
  split; [reflexivity|].
  destruct (synchronous_adapters_post_once ai_manager runway_config "hello" 60
              4000 None None [] voice_vendor [] eq_refl)
    as (Hvoice & Hscript & Hmusic).
  split; [exact Hvoice|]. split; [exact Hscript|].
  apply Hmusic. by eexists.
Defined.

(** ** More on polling *)

Lemma runway_adapter_returns_when_completed_witness :
  let run :=
    _runway_gen3_video 3 ai_manager "a cat" None 5 "1280x720" runway_config
      (scripted submitted [processing; processing; completed] processing) [] in
  run.1 = Returned [ ("url", VStr "https://cdn.example/v.mp4");
                     ("provider", VStr "Runway Gen-3");
                     ("cost", VFloat (cost_per_request runway_config)) ]
  ∧ status_checks run.2 = 3%nat.
Proof.
  refine (runway_adapter_returns_when_completed ai_manager "a cat" None 5
            "1280x720" runway_config 10 submitted _ (VStr "g1")
            [processing; processing] completed [] processing _ 0 []
            eq_refl eq_refl eq_refl eq_refl _ eq_refl eq_refl eq_refl).
  repeat constructor.
Defined.

Lemma midjourney_adapter_returns_when_completed_witness :
  let run :=
    _midjourney_image 3 ai_manager "a cat" None runway_config []
      (scripted submitted [processing; failed; completed] processing) [] in
  run.1 = Returned [ ("urls", VList [VStr "https://cdn.example/i.png"]);
                     ("provider", VStr "Midjourney");
                     ("cost", VFloat (cost_per_request runway_config)) ]
  ∧ status_checks run.2 = 3%nat.
Proof.
  refine (midjourney_adapter_returns_when_completed ai_manager "a cat" None
            runway_config [] submitted _ (VStr "j1") [processing; failed]
            completed [] processing _ 0 [] eq_refl eq_refl eq_refl _ eq_refl
            eq_refl eq_refl).
  repeat constructor.
Defined.

(** X7: Runway, from submission to failure: after [length pre] statuses that
    are not terminal the vendor reports [failed]; the adapter raises
    [Exception("Generation failed: {error}")] with the [error] entry of that
    status document ([None] when there is none), having made
    [length pre + 1] status checks. *)
Theorem runway_adapter_raises_when_failed :
  ∀ (self : AIModelManager) (prompt : string) (image : option (list Byte.byte))
    (duration : Z) (resolution : string) (config : APIConfig) (m : Z)
    (post_response : Response) (result gid : PyVal) (pre : list PyVal)
    (fields : PyDict) (rest : list PyVal) (after : PyVal) (extra : nat)
    (log : Log),
    session self = true →
    max_duration config = Some m →
    resp_json post_response = Some result →
    py_get result "id" = Returned gid →
    Forall (λ x, runway_pending x = true) pre →
    status_is (VDict fields) "failed" = true →
    status_checks log = 0%nat →
    let run :=
      _runway_gen3_video (length pre + S extra) self prompt image duration
        resolution config
        (scripted post_response (pre ++ VDict fields :: rest)%list after) log in
    run.1 = Raised (Exception_ (Generation_failed (dict_get fields "error")))
    ∧ status_checks run.2 = S (length pre).
Proof.
  intros self prompt image duration resolution config m post_response result
    gid pre fields rest after extra log Hs Hm Hr Hg Hp Hf H0.
  cbv zeta.
  destruct (runway_submit (length pre + S extra) self prompt image duration
              resolution config m post_response
              (pre ++ VDict fields :: rest)%list after
              result gid log Hs Hm Hr Hg) as [body ->].
  destruct (runway_polls_until_terminal self config (bearer_headers config)
              post_response pre (VDict fields) rest after gid extra
              (EPost [Lit (endpoint config ++ "generations")]
                 (bearer_headers config) body :: log) Hs Hp H0)
    as (_ & Hfail & Hcount).
  destruct (Hfail Hf) as (fields' & [= <-] & Hrun).
  split.
  - by rewrite Hrun.
  - eapply Hcount; [apply surjective_pairing|by right].
Qed.

Lemma runway_adapter_raises_when_failed_witness :
  let run :=
    _runway_gen3_video 2 ai_manager "a cat" None 5 "1280x720" runway_config
      (scripted submitted [processing; failed; completed] processing) [] in
  run.1 = Raised (Exception_ (Generation_failed (VStr "content rejected")))
  ∧ status_checks run.2 = 2%nat.
Proof.
  refine (runway_adapter_raises_when_failed ai_manager "a cat" None 5
            "1280x720" runway_config 10 submitted _ (VStr "g1") [processing]
            [("status", VStr "failed"); ("error", VStr "content rejected")]
            [completed] processing 0 [] eq_refl eq_refl eq_refl eq_refl _
            eq_refl eq_refl).
  repeat constructor.
Defined.

Section ScriptedErrors.
Context (self : AIModelManager) (config : APIConfig) (headers : Headers).
Context (post_response : Response) (statuses : list PyVal) (after : PyVal).
Hypothesis session_open : session self = true.

Lemma runway_status_error fuel gid log d e :
  default after (statuses !! status_checks log) = d →
  py_subscript d "status" = Raised e →
  _runway_gen3_video_poll (S fuel) self config headers gid
    (scripted post_response statuses after) log
  = (Raised e,
     EGet [Lit (endpoint config ++ "generations/"); Fmt gid] headers :: log).
Proof.
  intros Hd He. simpl. unfold session_get. rewrite session_open.
  unfold mbind at 1, M_bind at 1. cbv beta iota zeta.
  unfold scripted at 1. rewrite Hd.
  unfold json_response, response_json. simpl resp_json. run_M.
  by rewrite He.
Qed.

Lemma midjourney_status_error fuel job_id log d e :
  default after (statuses !! status_checks log) = d →
  py_subscript d "status" = Raised e →
  _midjourney_image_poll (S fuel) self config headers job_id
    (scripted post_response statuses after) log
  = (Raised e, EGet [Lit (endpoint config ++ "job/"); Fmt job_id] headers :: log).
Proof.
  intros Hd He. simpl. unfold session_get. rewrite session_open.
  unfold mbind at 1, M_bind at 1. cbv beta iota zeta.
  unfold scripted at 1. rewrite Hd.
  unfold json_response, response_json. simpl resp_json. run_M.
  by rewrite He.
Qed.

Lemma runway_completed_error fuel gid log d e :
  default after (statuses !! status_checks log) = d →
  status_is d "completed" = true →
  py_subscript d "output_url" = Raised e →
  _runway_gen3_video_poll (S fuel) self config headers gid
    (scripted post_response statuses after) log
  = (Raised e,
     EGet [Lit (endpoint config ++ "generations/"); Fmt gid] headers :: log).
Proof.
  intros Hd Hc He. simpl. unfold session_get. rewrite session_open.
  unfold mbind at 1, M_bind at 1. cbv beta iota zeta.
  unfold scripted at 1. rewrite Hd.
  unfold status_is in Hc.
  unfold json_response, response_json. simpl resp_json. run_M.
  destruct (py_subscript d "status") as [st| |]; [|done..]. simpl.
  by rewrite Hc, He.
Qed.

Lemma midjourney_completed_error fuel job_id log d e :
  default after (statuses !! status_checks log) = d →
  status_is d "completed" = true →
  py_subscript d "image_urls" = Raised e →
  _midjourney_image_poll (S fuel) self config headers job_id
    (scripted post_response statuses after) log
  = (Raised e, EGet [Lit (endpoint config ++ "job/"); Fmt job_id] headers :: log).
Proof.
  intros Hd Hc He. simpl. unfold session_get. rewrite session_open.
  unfold mbind at 1, M_bind at 1. cbv beta iota zeta.
  unfold scripted at 1. rewrite Hd.
  unfold status_is in Hc.
  unfold json_response, response_json. simpl resp_json. run_M.
  destruct (py_subscript d "status") as [st| |]; [|done..]. simpl.
  by rewrite Hc, He.
Qed.
End ScriptedErrors.

(** X8: a status document from which [status_data["status"]] cannot be read
    (a dictionary without that key: [KeyError]; a JSON value that is no
    dictionary: [TypeError]) ends either polling loop at that status check
    with that exception: it is not counted as "any other status". *)
Theorem polling_stops_on_unreadable_status :
  ∀ (self : AIModelManager) (config : APIConfig) (headers : Headers)
    (post_response : Response) (pre : list PyVal) (d : PyVal)
    (rest : list PyVal) (after id : PyVal) (extra : nat) (log : Log) (e : Exn),
    session self = true →
    status_checks log = 0%nat →
    py_subscript d "status" = Raised e →
    let vendor := scripted post_response (pre ++ d :: rest)%list after in
    let runway_check :=
      EGet [Lit (endpoint config ++ "generations/"); Fmt id] headers in
    let midjourney_check :=
      EGet [Lit (endpoint config ++ "job/"); Fmt id] headers in
    (Forall (λ x, runway_pending x = true) pre →
     _runway_gen3_video_poll (length pre + S extra) self config headers id
       vendor log
     = (Raised e, runway_check :: rounds (length pre) runway_check 5 log))
    ∧ (Forall (λ x, midjourney_pending x = true) pre →
       _midjourney_image_poll (length pre + S extra) self config headers id
         vendor log
       = (Raised e, midjourney_check :: rounds (length pre) midjourney_check 3 log)).
Proof.
  intros self config headers post_response pre d rest after id extra log e
    Hs H0 He. cbv zeta. split; intros Hp.
  - rewrite (runway_pending_rounds self config headers post_response _ after Hs
               pre (S extra) id log Hp (script_prefix pre d rest after log H0)).
    apply runway_status_error with (d := d); [done| |done].
    by apply script_next.
  - rewrite (midjourney_pending_rounds self config headers post_response _ after
               Hs pre (S extra) id log Hp
               (script_prefix pre d rest after log H0)).
    apply midjourney_status_error with (d := d); [done| |done].
    by apply script_next.
Qed.

Lemma polling_stops_on_unreadable_status_witness :
  let vendor := scripted submitted [processing; misspelt_status] processing in
  let headers := bearer_headers runway_config in
  let runway_check :=
    EGet [Lit (endpoint runway_config ++ "generations/"); Fmt (VStr "g1")]
      headers in
  let midjourney_check :=
    EGet [Lit (endpoint runway_config ++ "job/"); Fmt (VStr "g1")] headers in
  _runway_gen3_video_poll 2 ai_manager runway_config headers (VStr "g1")
    vendor []
  = (Raised (KeyError (VStr "status")), [runway_check; ESleep 5; runway_check])
  ∧ _midjourney_image_poll 2 ai_manager runway_config headers (VStr "g1")
      vendor []
    = (Raised (KeyError (VStr "status")),
       [midjourney_check; ESleep 3; midjourney_check]).
Proof.
  destruct (polling_stops_on_unreadable_status ai_manager runway_config
              (bearer_headers runway_config) submitted [processing]
              misspelt_status [] processing (VStr "g1") 0 []
              (KeyError (VStr "status")) eq_refl eq_refl eq_refl)
    as [Hrunway Hmidjourney].
  split; [apply Hrunway|apply Hmidjourney]; repeat constructor.
Defined.

(** X9: a document that says [completed] but lacks the output entry
    ([output_url] for Runway, [image_urls] for Midjourney) ends the loop with
    the [KeyError] of that entry, not with a result. *)
Theorem polling_completed_without_output_raises :
  ∀ (self : AIModelManager) (config : APIConfig) (headers : Headers)
    (post_response : Response) (pre : list PyVal) (fields : PyDict)
    (rest : list PyVal) (after id : PyVal) (extra : nat) (log : Log),
    session self = true →
    status_checks log = 0%nat →
    status_is (VDict fields) "completed" = true →
    let vendor := scripted post_response (pre ++ VDict fields :: rest)%list after in
    (Forall (λ x, runway_pending x = true) pre →
     dict_lookup "output_url" fields = None →
     (_runway_gen3_video_poll (length pre + S extra) self config headers id
        vendor log).1
     = Raised (KeyError (VStr "output_url")))
    ∧ (Forall (λ x, midjourney_pending x = true) pre →
       dict_lookup "image_urls" fields = None →
       (_midjourney_image_poll (length pre + S extra) self config headers id
          vendor log).1
       = Raised (KeyError (VStr "image_urls"))).
Proof.
  intros self config headers post_response pre fields rest after id extra log
    Hs H0 Hc. cbv zeta. split; intros Hp Hnone.
  - rewrite (runway_pending_rounds self config headers post_response _ after Hs
               pre (S extra) id log Hp
               (script_prefix pre (VDict fields) rest after log H0)).
    rewrite (runway_completed_error self config headers post_response _ after
               Hs extra id _ (VDict fields) (KeyError (VStr "output_url")));
      [done|by apply script_next|done|].
    simpl. by rewrite Hnone.
  - rewrite (midjourney_pending_rounds self config headers post_response _ after
               Hs pre (S extra) id log Hp
               (script_prefix pre (VDict fields) rest after log H0)).
    rewrite (midjourney_completed_error self config headers post_response _
               after Hs extra id _ (VDict fields) (KeyError (VStr "image_urls")));
      [done|by apply script_next|done|].
    simpl. by rewrite Hnone.
Qed.

Lemma polling_completed_without_output_raises_witness :
  let vendor :=
    scripted submitted [processing; VDict [("status", VStr "completed")]]
      processing in
  (_runway_gen3_video_poll 2 ai_manager runway_config
     (bearer_headers runway_config) (VStr "g1") vendor []).1
  = Raised (KeyError (VStr "output_url"))
  ∧ (_midjourney_image_poll 2 ai_manager runway_config
       (bearer_headers runway_config) (VStr "g1") vendor []).1
    = Raised (KeyError (VStr "image_urls")).
Proof.
  destruct (polling_completed_without_output_raises ai_manager runway_config
              (bearer_headers runway_config) submitted [processing]
              [("status", VStr "completed")] [] processing (VStr "g1") 0 []
              eq_refl eq_refl eq_refl)
    as [Hrunway Hmidjourney].
  split; [apply Hrunway|apply Hmidjourney]; first [reflexivity|repeat constructor].
Defined.

(** X10: when the answer to the submission is a dictionary without the job
    identifier, Runway ([result.get("id")], under a configuration with a
    maximum duration) goes on and polls the status URL formatted from
    [None], while Midjourney ([result["job_id"]], under any configuration)
    raises [KeyError] with the POST as its only request. *)
Theorem submission_without_job_identifier :
  ∀ (fuel : nat) (self : AIModelManager) (prompt : string)
    (image : option (list Byte.byte)) (duration : Z) (resolution : string)
    (style : option string) (config : APIConfig) (kwargs : PyDict)
    (fields : PyDict) (statuses : list PyVal) (after : PyVal) (log : Log),
    session self = true →
    let vendor := scripted (json_response (VDict fields)) statuses after in
    (∀ m : Z,
       max_duration config = Some m →
       dict_lookup "id" fields = None →
       ∃ body,
         _runway_gen3_video fuel self prompt image duration resolution config
           vendor log
         = _runway_gen3_video_poll fuel self config (bearer_headers config) VNone
             vendor
             (EPost [Lit (endpoint config ++ "generations")]
                (bearer_headers config) body :: log))
    ∧ (dict_lookup "job_id" fields = None →
       (_midjourney_image fuel self prompt style config kwargs vendor log).1
       = Raised (KeyError (VStr "job_id"))
       ∧ one_post log
           (_midjourney_image fuel self prompt style config kwargs vendor log)).
Proof.
  intros fuel self prompt image duration resolution style config kwargs
    fields statuses after log Hs. cbv zeta. split.
  - intros m Hm Hnone.
    apply (runway_submit fuel self prompt image duration resolution config m
             (json_response (VDict fields)) statuses after (VDict fields) VNone
             log Hs Hm eq_refl).
    simpl. unfold dict_get, dict_get_default. by rewrite Hnone.
  - intros Hnone. unfold _midjourney_image, session_post. rewrite Hs.
    unfold mbind, M_bind, lift, response_json. cbv beta iota zeta.
    unfold scripted at 1 2. simpl. rewrite Hnone. simpl.
    split; [reflexivity|]. split; [reflexivity|by do 3 eexists].
Qed.

Lemma submission_without_job_identifier_witness :
  let vendor := scripted (json_response (VDict [])) [] processing in
  configs ai_manager !! RUNWAY_GEN3 = Some runway_config
  ∧ configs ai_manager !! MIDJOURNEY = Some midjourney_config
  ∧ (∃ body,
       _runway_gen3_video 1 ai_manager "a cat" None 5 "1280x720" runway_config
         vendor []
       = _runway_gen3_video_poll 1 ai_manager runway_config
           (bearer_headers runway_config) VNone vendor
           [EPost [Lit (endpoint runway_config ++ "generations")]
              (bearer_headers runway_config) body])
  ∧ (_midjourney_image 1 ai_manager "a cat" None midjourney_config [] vendor []).1
    = Raised (KeyError (VStr "job_id"))
  ∧ one_post [] (_midjourney_image 1 ai_manager "a cat" None midjourney_config
                   [] vendor []).
Proof.
  cbv zeta. split; [vm_compute; reflexivity|]. split; [vm_compute; reflexivity|].
  split.
  - destruct (submission_without_job_identifier 1 ai_manager "a cat" None 5
                "1280x720" None runway_config [] [] [] processing []
                eq_refl) as [Hrunway _].
    exact (Hrunway 10%Z eq_refl eq_refl).
  - destruct (submission_without_job_identifier 1 ai_manager "a cat" None 5
                "1280x720" None midjourney_config [] [] [] processing []
                eq_refl) as [_ Hmidjourney].
    exact (Hmidjourney eq_refl).
Defined.

(** ** Tasks *)

(** [_process_task] by the entry point the task type selects. *)
Lemma process_task_dispatch fuel self task :
  _process_task fuel self task
  = match task_capability (task_type task) with
    | Some Video =>
        prompt ← task_subscript (task_prompt task) "prompt";
        kwargs ← bind_keywords ["self"; "prompt"; "provider"]
                   ["image"; "duration"; "resolution"] (task_params task);
        generate_video fuel self prompt (task_provider task)
          (kw_image (task_params task))
          (default 5%Z (kw_duration (task_params task)))
          (default "1280x720" (kw_resolution (task_params task))) kwargs
    | Some Image =>
        prompt ← task_subscript (task_prompt task) "prompt";
        kwargs ← bind_keywords ["self"; "prompt"; "provider"]
                   ["negative_prompt"; "style"] (task_params task);
        generate_image fuel self prompt (task_provider task)
          (kw_negative_prompt (task_params task)) (kw_style (task_params task))
          kwargs
    | Some Music =>
        prompt ← task_subscript (task_prompt task) "prompt";
        kwargs ← bind_keywords ["self"; "prompt"; "provider"]
                   ["duration"; "genre"] (task_params task);
        generate_music self prompt (task_provider task)
          (default 60%Z (kw_duration (task_params task)))
          (kw_genre (task_params task)) kwargs
    | Some Voice =>
        text ← task_subscript (task_text task) "text";
        kwargs ← bind_keywords ["self"; "text"; "provider"] ["voice_id"]
                   (task_params task);
        generate_voice self text (task_provider task)
          (kw_voice_id (task_params task)) kwargs
    | Some Script =>
        prompt ← task_subscript (task_prompt task) "prompt";
        kwargs ← bind_keywords ["self"; "prompt"; "provider"] ["max_tokens"]
                   (task_params task);
        generate_script self prompt (task_provider task)
          (default 4000%Z (kw_max_tokens (task_params task))) kwargs
    | None => raise (ValueError (Unknown_task_type (task_type task)))
    end.
Proof.
  unfold _process_task, task_capability.
  repeat match goal with
  | |- context [py_eq_str ?v ?s] => destruct (py_eq_str v s)
  end; reflexivity.
Qed.

Lemma existsb_filter_implied {A} (f g : A → bool) (l : list A) :
  (∀ x, f x = true → g x = true) →
  existsb f (List.filter g l) = existsb f l.
Proof.
  intros Hfg. induction l as [|x l IH]; [done|]. simpl.
  destruct (g x) eqn:Eg; simpl; rewrite IH; [done|].
  destruct (f x) eqn:Ef; [|done]. apply Hfg in Ef. congruence.
Qed.

Lemma existsb_opt_entry {A} (f : string * PyVal → bool) name (inj : A → PyVal) o :
  (∀ v, f (name, v) = false) → existsb f (opt_entry name inj o) = false.
Proof. intros Hf. destruct o; simpl; [|done]. by rewrite Hf. Qed.

(** A positional name is none of the named keywords. *)
Lemma positional_not_named cap k :
  mem_string k ["self"; payload_key cap; "provider"] = true →
  negb (mem_string k named_keywords) = true.
Proof.
  unfold mem_string. simpl. rewrite !orb_false_r.
  intros H. apply orb_true_iff in H as [H|H];
    [|apply orb_true_iff in H as [H|H]];
    apply String.eqb_eq in H; subst k; by destruct cap.
Qed.

Lemma params_dict_clash cap params :
  existsb (λ kv : string * PyVal,
             mem_string kv.1 ["self"; payload_key cap; "provider"])
    (params_dict params)
  = clashes cap params.
Proof.
  unfold params_dict, clashes. rewrite !existsb_app.
  rewrite !existsb_opt_entry by (intros v; by destruct cap).
  simpl. apply existsb_filter_implied.
  intros [k v]. apply positional_not_named.
Qed.

Lemma bind_keywords_clash cap signature params :
  bind_keywords ["self"; payload_key cap; "provider"] signature params
  = if clashes cap params
    then raise (TypeError "got multiple values for argument")
    else mret (List.filter (λ kv, negb (mem_string kv.1 signature))
                 (params_dict params)).
Proof. unfold bind_keywords. by rewrite params_dict_clash. Qed.

(** [_process_task] once more: payload, keywords, entry point. *)
Lemma process_task_steps fuel self task cap :
  task_capability (task_type task) = Some cap →
  ∃ signature (call : string → PyDict → M Result),
    _process_task fuel self task
    = (payload ← task_subscript (task_payload task cap) (payload_key cap);
       kwargs ← bind_keywords ["self"; payload_key cap; "provider"] signature
                  (task_params task);
       call payload kwargs)
    ∧ ∀ payload kwargs, ∃ c,
        capability c = cap
        ∧ call payload kwargs = generate fuel self (task_provider task) c.
Proof.
  intros Hcap. rewrite process_task_dispatch, Hcap.
  set (params := task_params task). set (provider := task_provider task).
  destruct cap.
  - exists ["image"; "duration"; "resolution"],
      (λ prompt kwargs,
         generate_video fuel self prompt provider (kw_image params)
           (default 5%Z (kw_duration params))
           (default "1280x720" (kw_resolution params)) kwargs).
    split; [reflexivity|]. intros payload kwargs.
    exists (CallVideo payload (kw_image params)
              (default 5%Z (kw_duration params))
              (default "1280x720" (kw_resolution params)) kwargs).
    by split.
  - exists ["negative_prompt"; "style"],
      (λ prompt kwargs,
         generate_image fuel self prompt provider (kw_negative_prompt params)
           (kw_style params) kwargs).
    split; [reflexivity|]. intros payload kwargs.
    exists (CallImage payload (kw_negative_prompt params) (kw_style params)
              kwargs).
    by split.
  - exists ["duration"; "genre"],
      (λ prompt kwargs,
         generate_music self prompt provider (default 60%Z (kw_duration params))
           (kw_genre params) kwargs).
    split; [reflexivity|]. intros payload kwargs.
    exists (CallMusic payload (default 60%Z (kw_duration params))
              (kw_genre params) kwargs).
    by split.
  - exists ["voice_id"],
      (λ text kwargs,
         generate_voice self text provider (kw_voice_id params) kwargs).
    split; [reflexivity|]. intros payload kwargs.
    exists (CallVoice payload (kw_voice_id params) kwargs).
    by split.
  - exists ["max_tokens"],
      (λ prompt kwargs,
         generate_script self prompt provider
           (default 4000%Z (kw_max_tokens params)) kwargs).
    split; [reflexivity|]. intros payload kwargs.
    exists (CallScript payload (default 4000%Z (kw_max_tokens params)) kwargs).
    by split.
Qed.

(** X11: a task whose type is none of [video], [image], [music], [voice],
    [script] (an absent type included) raises the "Unknown task type"
    [ValueError], whatever else it holds, and nothing is sent. *)
Theorem process_task_unknown_type :
  ∀ (fuel : nat) (self : AIModelManager) (task : Task) (vendor : Vendor)
    (log : Log),
    task_capability (task_type task) = None →
    _process_task fuel self task vendor log
    = (Raised (ValueError (Unknown_task_type (task_type task))), log).
Proof.
  intros fuel self task vendor log Hnone.
  by rewrite process_task_dispatch, Hnone.
Qed.

Lemma process_task_unknown_type_witness :
  task_capability VNone = None
  ∧ _process_task 1 ai_manager
      (mkTask VNone (VProvider ELEVENLABS) (Some "a cat") (Some "hello") no_params)
      voice_vendor []
    = (Raised (ValueError (Unknown_task_type VNone)), []).
Proof.
  split; [reflexivity|].
  exact (process_task_unknown_type 1 ai_manager
           (mkTask VNone (VProvider ELEVENLABS) (Some "a cat") (Some "hello")
              no_params) voice_vendor [] eq_refl).
Defined.

(** X12: a task of a known type without its payload key ([text] for a voice
    task, [prompt] for the others) raises the [KeyError] of that key before
    anything else is looked at: provider, parameters and registry play no
    part, and nothing is sent. *)
Theorem process_task_missing_payload :
  ∀ (fuel : nat) (self : AIModelManager) (task : Task) (cap : Capability)
    (vendor : Vendor) (log : Log),
    task_capability (task_type task) = Some cap →
    task_payload task cap = None →
    _process_task fuel self task vendor log
    = (Raised (KeyError (VStr (payload_key cap))), log).
Proof.
  intros fuel self task cap vendor log Hcap Hnone.
  destruct (process_task_steps fuel self task cap Hcap)
    as (signature & call & -> & _).
  by rewrite Hnone.
Qed.

Lemma process_task_missing_payload_witness :
  _process_task 1 ai_manager
    (mkTask (VStr "voice") (VProvider ELEVENLABS) (Some "hello") None no_params)
    voice_vendor []
  = (Raised (KeyError (VStr "text")), []).
Proof.
  exact (process_task_missing_payload 1 ai_manager
           (mkTask (VStr "voice") (VProvider ELEVENLABS) (Some "hello") None
              no_params) Voice voice_vendor [] eq_refl eq_refl).
Defined.

(** X13: a task whose parameters hold a keyword that [_process_task] already
    passes by position ([prompt] or [text], [provider], [self]) raises
    [TypeError] at the call of the entry point: nothing is looked up and
    nothing is sent. *)
Theorem process_task_keyword_clash :
  ∀ (fuel : nat) (self : AIModelManager) (task : Task) (cap : Capability)
    (payload : string) (vendor : Vendor) (log : Log),
    task_capability (task_type task) = Some cap →
    task_payload task cap = Some payload →
    clashes cap (task_params task) = true →
    _process_task fuel self task vendor log
    = (Raised (TypeError "got multiple values for argument"), log).
Proof.
  intros fuel self task cap payload vendor log Hcap Hpayload Hclash.
  destruct (process_task_steps fuel self task cap Hcap)
    as (signature & call & -> & _).
  rewrite Hpayload, bind_keywords_clash, Hclash. reflexivity.
Qed.

Lemma process_task_keyword_clash_witness :
  _process_task 1 ai_manager
    (mkTask (VStr "voice") (VProvider ELEVENLABS) None (Some "hello")
       (mkParams None None None None None None None None
          [("provider", VStr "elevenlabs")]))
    voice_vendor []
  = (Raised (TypeError "got multiple values for argument"), []).
Proof.
  exact (process_task_keyword_clash 1 ai_manager
           (mkTask (VStr "voice") (VProvider ELEVENLABS) None (Some "hello")
              (mkParams None None None None None None None None
                 [("provider", VStr "elevenlabs")]))
           Voice "hello" voice_vendor [] eq_refl eq_refl eq_refl).
Defined.

(** X14: [_process_task] always passes [task.get("provider")] to the entry
    point, so the entry point's default provider never applies: a task of a
    known type with its payload and no clashing keyword, but whose provider
    is absent ([None]) or any other value that is no key of the registry,
    raises the "not configured" [ValueError], and nothing is sent. *)
Theorem process_task_never_defaults_provider :
  ∀ (fuel : nat) (self : AIModelManager) (task : Task) (cap : Capability)
    (payload : string) (vendor : Vendor) (log : Log),
    task_capability (task_type task) = Some cap →
    task_payload task cap = Some payload →
    clashes cap (task_params task) = false →
    configs_get self (task_provider task) = Returned None →
    _process_task fuel self task vendor log
    = (Raised (ValueError (Provider_not_configured (task_provider task))), log).
Proof.
  intros fuel self task cap payload vendor log Hcap Hpayload Hclash Hcfg.
  destruct (process_task_steps fuel self task cap Hcap)
    as (signature & call & -> & Hcall).
  rewrite Hpayload, bind_keywords_clash, Hclash.
  unfold task_subscript, mbind, M_bind, mret, M_ret.
  destruct (Hcall payload
              (List.filter (λ kv, negb (mem_string kv.1 signature))
                 (params_dict (task_params task)))) as (c & _ & ->).
  destruct c; cbn [generate];
    unfold generate_video, generate_image, generate_music, generate_voice,
      generate_script, mbind, M_bind, lift;
    by rewrite Hcfg.
Qed.

Lemma process_task_never_defaults_provider_witness :
  _process_task 1 ai_manager
    (mkTask (VStr "video") VNone (Some "a cat") None no_params) busy_vendor []
  = (Raised (ValueError (Provider_not_configured VNone)), []).
Proof.
  exact (process_task_never_defaults_provider 1 ai_manager
           (mkTask (VStr "video") VNone (Some "a cat") None no_params) Video
           "a cat" busy_vendor [] eq_refl eq_refl eq_refl eq_refl).
Defined.

(** ** More on batches *)

Lemma batch_process_sequential_app_witness :
  let result :=
    [ ("audio", VBytes [Byte.x52; Byte.x49; Byte.x46; Byte.x46]);
      ("provider", VStr "ElevenLabs"); ("cost", VFloat 0.01) ] in
  batch_process_sequential 1 ai_manager ([ok_task] ++ [ok_task])%list
    voice_vendor []
  = (Returned ([result] ++ [result])%list,
     (batch_process_sequential 1 ai_manager [ok_task; ok_task] voice_vendor []).2).
Proof.
  cbv zeta.
  eapply (batch_process_sequential_app 1 ai_manager [ok_task] [ok_task]
            voice_vendor []).
  - vm_compute. reflexivity.
  - vm_compute. reflexivity.
Defined.

(** X16: a sequential batch that returns gives exactly one result per task. *)
Theorem sequential_batch_one_result_per_task :
  ∀ (fuel : nat) (self : AIModelManager) (tasks : list Task) (vendor : Vendor)
    (log log' : Log) (results : list Result),
    batch_process_sequential fuel self tasks vendor log = (Returned results, log') →
    length results = length tasks.
Proof.
  intros fuel self tasks vendor log log' results H.
  apply batch_process_loop_results in H as (new & -> & Hlen). by simpl.
Qed.

Lemma sequential_batch_one_result_per_task_witness :
  ∃ results log',
    batch_process_sequential 1 ai_manager [ok_task; ok_task] voice_vendor []
    = (Returned results, log')
    ∧ length results = 2%nat.
Proof.
  do 2 eexists. split; [vm_compute; reflexivity|].
  eapply (sequential_batch_one_result_per_task 1 ai_manager [ok_task; ok_task]
            voice_vendor []).
  vm_compute. reflexivity.
Defined.

Lemma deliver_done coros g o l :
  outer g = Some o → foldl (deliver coros) g l = g.
Proof.
  intros Ho. induction l as [|k l IH]; [done|]. simpl.
  replace (deliver coros g k) with g; [done|].
  unfold deliver, done_callback. destruct (coros !! k); [|done].
  by rewrite Ho.
Qed.

(** While no child has raised and child [i] is pending, the outer future is
    not done. *)
Lemma deliver_keeps_pending coros i e l g :
  coros !! i = Some (Raised e) →
  (∀ j, j ∈ l → ∀ e', coros !! j ≠ Some (Raised e')) →
  outer g = None →
  children g !! i = Some None →
  outer (foldl (deliver coros) g l) = None
  ∧ children (foldl (deliver coros) g l) !! i = Some None.
Proof.
  intros Hi. revert g. induction l as [|j l IH]; intros g Hl Ho Hc; [done|].
  simpl. apply IH.
  - intros k Hk. apply Hl. by apply list_elem_of_further.
  - unfold deliver, done_callback.
    destruct (coros !! j) as [[r|e'|]|] eqn:Ej; rewrite ?Ho; try done.
    + destruct (children g !! j) as [[|]|] eqn:Ec; try done. simpl.
      rewrite (collect_pending _ i); [done|].
      rewrite list_lookup_insert_ne; [done|]. intros ->. congruence.
    + exfalso. eapply Hl; [apply list_elem_of_here|done].
  - unfold deliver, done_callback.
    destruct (coros !! j) as [[r|e'|]|] eqn:Ej; rewrite ?Ho; try done.
    destruct (children g !! j) as [[|]|] eqn:Ec; try done. simpl.
    rewrite list_lookup_insert_ne; [done|]. intros ->. congruence.
Qed.

Lemma gather_first_failure coros earlier i later e :
  coros !! i = Some (Raised e) →
  (∀ j, j ∈ earlier → ∀ e', coros !! j ≠ Some (Raised e')) →
  gather coros (earlier ++ i :: later)%list = Raised e.
Proof.
  intros Hi Hearlier.
  transitivity
    (default StillPolling
       (outer (foldl (deliver coros)
                 (mkGather (replicate (length coros) None) None)
                 (earlier ++ i :: later)%list))).
  { unfold gather. by destruct coros. }
  rewrite foldl_app. cbn [foldl].
  destruct (deliver_keeps_pending coros i e earlier
              (mkGather (replicate (length coros) None) None) Hi Hearlier
              eq_refl) as [Ho Hpending].
  { simpl. apply lookup_replicate_2. by eapply lookup_lt_Some. }
  set (g := foldl (deliver coros)
              (mkGather (replicate (length coros) None) None) earlier) in *.
  assert (Hstep : deliver coros g i = mkGather (children g) (Some (Raised e))).
  { unfold deliver, done_callback. by rewrite Hi, Ho. }
  by rewrite Hstep, (deliver_done _ _ (Raised e)).
Qed.

(** X17: in parallel mode the first task to complete with an exception
    decides the batch: when task [i] raises [e] and no task that completed
    before it raised, the batch raises [e], whatever completes later. *)
Theorem parallel_batch_first_failure_wins :
  ∀ (fuel : nat) (self : AIModelManager) (tasks : list Task)
    (views : nat → Vendor) (earlier later : list nat) (i : nat) (task : Task)
    (e : Exn),
    tasks !! i = Some task →
    (_process_task fuel self task (views i) []).1 = Raised e →
    (∀ j t, j ∈ earlier → tasks !! j = Some t →
       ∃ r, (_process_task fuel self t (views j) []).1 = Returned r) →
    batch_process_parallel fuel self tasks views (earlier ++ i :: later)%list
    = Raised e.
Proof.
  intros fuel self tasks views earlier later i task e Hi He Hearlier.
  unfold batch_process_parallel. apply gather_first_failure.
  - by rewrite list_lookup_imap, Hi; simpl; rewrite He.
  - intros j Hj e'. rewrite list_lookup_imap.
    destruct (tasks !! j) as [t|] eqn:Ej; simpl; [|done].
    destruct (Hearlier j t Hj Ej) as [r ->]. done.
Qed.

Lemma parallel_batch_first_failure_wins_witness :
  batch_process_parallel 1 ai_manager [ok_task; failing_task; ok_task]
    audio_views ([2%nat] ++ 1%nat :: [0%nat])%list
  = Raised (NotImplementedError (Provider_not_implemented (VProvider ELEVENLABS))).
Proof.
  apply (parallel_batch_first_failure_wins 1 ai_manager
           [ok_task; failing_task; ok_task] audio_views [2%nat] [0%nat] 1%nat
           failing_task).
  - reflexivity.
  - vm_compute. reflexivity.
  - intros j t Hj Ht. apply list_elem_of_singleton in Hj as ->.
    injection Ht as <-. eexists. vm_compute. reflexivity.
Defined.

(** ** More on cost estimates *)

(** X18: an estimate can be made in two parts: the estimate of
    [first ++ second] is the estimate of [second] started from the total of
    [first], and an exception in [first] is the exception of the whole. *)
Theorem estimate_cost_in_two_parts :
  ∀ (self : AIModelManager) (first second : list PyDict),
    estimate_cost self (first ++ second)%list
    = (total ← estimate_cost self first; estimate_cost_loop self second total).
Proof. apply estimate_cost_in_two_parts_aux. Qed.

(** X19: a workflow none of whose steps names a key of the registry (steps
    that give the provider as a string, or not at all, among them) is
    estimated at exactly 0.0, without an error. *)
Theorem estimate_cost_of_unknown_steps_is_zero :
  ∀ (self : AIModelManager) (workflow : list PyDict),
    Forall (λ step, configs_get self (dict_get step "provider") = Returned None)
      workflow →
    estimate_cost self workflow = Returned 0%float.
Proof.
  intros self workflow Hall. unfold estimate_cost.
  generalize 0%float as total.
  induction Hall as [|step workflow Hstep _ IH]; intros total; [reflexivity|].
  cbn [estimate_cost_loop]. rewrite Hstep. cbn. apply IH.
Qed.

Lemma estimate_cost_of_unknown_steps_is_zero_witness :
  estimate_cost ai_manager
    [ [("provider", VStr "runway_gen3"); ("count", VInt 3)];
      [("count", VInt 2)];
      [("provider", VProvider MOONVALLEY); ("count", VStr "many")] ]
  = Returned 0%float.
Proof.
  apply estimate_cost_of_unknown_steps_is_zero.
  repeat constructor.
Defined.

Lemma py_float_mul_error cost count :
  multipliable count = false →
  py_float_mul cost count = Raised (count_error count).
Proof.
  destruct count; simpl; try done.
  unfold convertible, float_of_int. intros H.
  apply negb_false_iff in H. by rewrite H.
Qed.

(** X20: a step for a provider of the registry whose count is no number
    ([None], a string, a list, ...) or an integer too large for [float]
    aborts the estimate with [TypeError], respectively [OverflowError]: the
    steps before it are lost and the steps after it are not looked at. *)
Theorem estimate_cost_aborts_on_bad_count :
  ∀ (self : AIModelManager) (before : list PyDict) (step : PyDict)
    (after : list PyDict) (config : APIConfig) (total : float),
    estimate_cost self before = Returned total →
    configs_get self (dict_get step "provider") = Returned (Some config) →
    multipliable (dict_get_default step "count" (VInt 1)) = false →
    estimate_cost self (before ++ step :: after)%list
    = Raised (count_error (dict_get_default step "count" (VInt 1))).
Proof.
  intros self before step after config total Hbefore Hcfg Hbad.
  rewrite estimate_cost_in_two_parts_aux, Hbefore. cbn.
  by rewrite Hcfg; cbn; rewrite (py_float_mul_error _ _ Hbad).
Qed.

Lemma estimate_cost_aborts_on_bad_count_witness :
  estimate_cost ai_manager
    ([[("provider", VProvider KLING)]]
     ++ [("provider", VProvider RUNWAY_GEN3); ("count", VStr "3")]
     :: [[("provider", VProvider KLING)]])%list
  = Raised (TypeError "unsupported operand type(s) for *")
  ∧ estimate_cost ai_manager
      ([] ++ [("provider", VProvider RUNWAY_GEN3); ("count", VInt (2 ^ 1024))]
       :: [])%list
    = Raised OverflowError.
Proof.
  split.
  - eapply (estimate_cost_aborts_on_bad_count ai_manager
              [[("provider", VProvider KLING)]]
              [("provider", VProvider RUNWAY_GEN3); ("count", VStr "3")]
              [[("provider", VProvider KLING)]]);
      vm_compute; reflexivity.
  - eapply (estimate_cost_aborts_on_bad_count ai_manager []
              [("provider", VProvider RUNWAY_GEN3); ("count", VInt (2 ^ 1024))]
              []);
      vm_compute; reflexivity.
Defined.

(** ** More on the registry *)

Ltac lookup_inserts :=
  repeat first [ rewrite lookup_insert_eq
               | rewrite lookup_insert_ne by discriminate ].

Lemma configs_set_config p c self :
  configs (set_config p c self) = <[p := c]> (configs self).
Proof. reflexivity. Qed.

Lemma load_api_configs_lookup env self p :
  configs (load_api_configs env self) !! p
  = if bool_decide (p ∈ configured_providers)
    then configs (init env) !! p
    else configs self !! p.
Proof.
  unfold init, load_api_configs. cbv zeta. rewrite !configs_set_config.
  cbn [configs].
  destruct (decide (p ∈ configured_providers)) as [Hin|Hout].
  - rewrite bool_decide_eq_true_2 by done.
    unfold configured_providers in Hin.
    repeat (apply elem_of_cons in Hin as [->|Hin];
            [lookup_inserts; reflexivity|]).
    by apply elem_of_nil in Hin.
  - rewrite bool_decide_eq_false_2 by done.
    unfold configured_providers in Hout.
    rewrite !lookup_insert_ne; [done|..];
      intros <-; apply Hout; set_solver.
Qed.

(** X21: [load_api_configs] assigns its sixteen keys whatever the table held
    under them, and leaves every other key and the session as they were; so
    loading twice is loading once. *)
Theorem load_api_configs_overrides_and_preserves :
  ∀ (env : Env) (self : AIModelManager),
    (∀ p, configs (load_api_configs env self) !! p
          = if bool_decide (p ∈ configured_providers)
            then configs (init env) !! p
            else configs self !! p)
    ∧ session (load_api_configs env self) = session self
    ∧ load_api_configs env (load_api_configs env self)
      = load_api_configs env self.
Proof.
  intros env self. split; [apply load_api_configs_lookup|].
  split; [reflexivity|].
  assert (Hs : ∀ s, session (load_api_configs env s) = session s) by done.
  assert (Hc : configs (load_api_configs env (load_api_configs env self))
               = configs (load_api_configs env self)).
  { apply map_eq. intros p. rewrite !load_api_configs_lookup.
    by destruct (bool_decide (p ∈ configured_providers)). }
  destruct (load_api_configs env (load_api_configs env self)) as [c1 s1] eqn:E1.
  destruct (load_api_configs env self) as [c2 s2] eqn:E2.
  simpl in Hc. subst c1. f_equal.
  change s1 with (session (mkManager c2 s1)). rewrite <- E1.
  rewrite Hs. reflexivity.
Qed.

(** X22: the recommendation for a task has no configuration in the registry
    exactly for the tags [cinematic_video] and [fast_video] (Moonvalley and
    Haiper); every other tag, known or unknown, is answered with a configured
    provider, an unknown tag with the fallback Runway Gen-3. *)
Theorem recommendation_is_configured_but_for_two :
  ∀ (env : Env) (task : string),
    (configs (init env) !! get_best_provider_for_task task = None
     ↔ task = "cinematic_video" ∨ task = "fast_video")
    ∧ (task ∉ recommended_tasks →
       get_best_provider_for_task task = RUNWAY_GEN3).
Proof.
  intros env task. split.
  - unfold get_best_provider_for_task. cbn [dict_lookup].
    repeat match goal with
    | |- context [String.eqb ?k task] =>
        let E := fresh "E" in
        destruct (String.eqb k task) eqn:E;
        [ apply String.eqb_eq in E; subst task; vm_compute;
          split;
          [ intros H; first [discriminate H | by left | by right]
          | intros [H|H]; first [reflexivity | discriminate H] ]
        | ]
    end.
    vm_compute. split; [discriminate|].
    intros [->| ->]; discriminate.
  - intros Hout. unfold get_best_provider_for_task. cbn [dict_lookup].
    repeat match goal with
    | |- context [String.eqb ?k task] =>
        let E := fresh "E" in
        destruct (String.eqb k task) eqn:E;
        [ exfalso; apply String.eqb_eq in E; subst task; apply Hout;
          unfold recommended_tasks; set_solver
        | ]
    end.
    reflexivity.
Qed.

Lemma recommendation_is_configured_but_for_two_witness :
  (configs (init no_env) !! get_best_provider_for_task "karaoke" = None
   ↔ "karaoke" = "cinematic_video" ∨ "karaoke" = "fast_video")
  ∧ get_best_provider_for_task "karaoke" = RUNWAY_GEN3.
Proof.
  destruct (recommendation_is_configured_but_for_two no_env "karaoke")
    as [Hiff Hfallback].
  split; [exact Hiff|]. apply Hfallback.
  apply (bool_decide_eq_false_1 ("karaoke" ∈ recommended_tasks)).
  vm_compute. reflexivity.
Defined.

(** ** The web routes *)

(** X23: the three generation routes answer a body without a prompt (or with
    an empty one) with status 400 and "Prompt is required", whether the
    manager was imported or not, and send nothing. *)
Theorem routes_require_a_prompt :
  ∀ (fuel : nat) (manager : option AIModelManager) (data : GenerationBody)
    (vendor : Vendor) (log : Log),
    prompt_given (body_prompt data) = None →
    generate_video_route fuel manager data vendor log
    = (Returned (JsonError Prompt_is_required, 400%Z), log)
    ∧ generate_image_route fuel manager data vendor log
      = (Returned (JsonError Prompt_is_required, 400%Z), log)
    ∧ generate_audio_route manager data vendor log
      = (Returned (JsonError Prompt_is_required, 400%Z), log).
Proof.
  intros fuel manager data vendor log Hnone.
  unfold generate_video_route, generate_image_route, generate_audio_route,
    try_except.
  rewrite Hnone. repeat split.
Qed.

Lemma routes_require_a_prompt_witness :
  let data := mkGenerationBody (Some "") (Some (VStr "runway_gen3")) None None
                None None in
  generate_video_route 1 (Some ai_manager) data busy_vendor []
  = (Returned (JsonError Prompt_is_required, 400%Z), [])
  ∧ generate_image_route 1 (Some ai_manager) data busy_vendor []
    = (Returned (JsonError Prompt_is_required, 400%Z), [])
  ∧ generate_audio_route (Some ai_manager) data busy_vendor []
    = (Returned (JsonError Prompt_is_required, 400%Z), []).
Proof.
  exact (routes_require_a_prompt 1 (Some ai_manager)
           (mkGenerationBody (Some "") (Some (VStr "runway_gen3")) None None
              None None) busy_vendor [] eq_refl).
Defined.

Lemma generate_rejects_non_member fuel self provider c vendor log :
  is_enum_member provider = false →
  generate fuel self provider c vendor log
  = (Raised (lookup_error provider), log).
Proof.
  intros Hno.
  destruct c; cbn [generate];
    unfold generate_video, generate_image, generate_music, generate_voice,
      generate_script, mbind, M_bind, lift;
    by destruct provider.
Qed.

(** X24: with the manager imported, the three generation routes answer every
    body that has a prompt with status 500 and the text of the lookup's
    exception, and send nothing: the provider of a JSON body (the route's
    default string included) is never a member of the enumeration that keys
    the registry. *)
Theorem routes_fail_on_json_providers :
  ∀ (fuel : nat) (manager : AIModelManager) (data : GenerationBody)
    (prompt : string) (vendor : Vendor) (log : Log),
    prompt_given (body_prompt data) = Some prompt →
    (∀ v, body_provider data = Some v → is_enum_member v = false) →
    generate_video_route fuel (Some manager) data vendor log
    = (Returned
         (JsonError
            (Str (lookup_error (default (VStr "runway_gen3") (body_provider data)))),
          500%Z), log)
    ∧ generate_image_route fuel (Some manager) data vendor log
      = (Returned
           (JsonError
              (Str (lookup_error (default (VStr "midjourney") (body_provider data)))),
            500%Z), log)
    ∧ generate_audio_route (Some manager) data vendor log
      = (Returned
           (JsonError
              (Str (lookup_error (default (VStr "suno") (body_provider data)))),
            500%Z), log).
Proof.
  intros fuel manager data prompt vendor log Hprompt Hjson.
  assert (Hno : ∀ dflt, is_enum_member (default (VStr dflt) (body_provider data))
                        = false).
  { intros dflt. destruct (body_provider data) as [v|]; [by apply Hjson|done]. }
  unfold generate_video_route, generate_image_route, generate_audio_route,
    try_except.
  rewrite Hprompt. unfold mbind at 1 3 5, M_bind at 1 3 5.
  pose proof (generate_rejects_non_member fuel manager _
                (CallVideo prompt None (default 5%Z (body_duration data))
                   (default "1280x720" (body_resolution data)) [])
                vendor log (Hno "runway_gen3")) as Hvideo.
  pose proof (generate_rejects_non_member fuel manager _
                (CallImage prompt None (body_style data) [])
                vendor log (Hno "midjourney")) as Himage.
  pose proof (generate_rejects_non_member fuel manager _
                (CallMusic prompt (default 60%Z (body_duration data))
                   (body_genre data) [])
                vendor log (Hno "suno")) as Haudio.
  cbn [generate] in Hvideo, Himage, Haudio.
  rewrite Hvideo, Himage, Haudio. repeat split.
Qed.

Lemma routes_fail_on_json_providers_witness :
  let data := mkGenerationBody (Some "a cat") None None None None None in
  generate_video_route 1 (Some ai_manager) data busy_vendor []
  = (Returned
       (JsonError (Str (ValueError (Provider_not_configured (VStr "runway_gen3")))),
        500%Z), [])
  ∧ generate_image_route 1 (Some ai_manager) data busy_vendor []
    = (Returned
         (JsonError (Str (ValueError (Provider_not_configured (VStr "midjourney")))),
          500%Z), [])
  ∧ generate_audio_route (Some ai_manager) data busy_vendor []
    = (Returned
         (JsonError (Str (ValueError (Provider_not_configured (VStr "suno")))),
          500%Z), []).
Proof.
  refine (routes_fail_on_json_providers 1 ai_manager
            (mkGenerationBody (Some "a cat") None None None None None) "a cat"
            busy_vendor [] eq_refl _).
  intros v Hv. discriminate Hv.
Defined.

(** ** Keywords and costs *)

Lemma existsb_dict_lookup (names : list string) (d : PyDict) key v :
  dict_lookup key d = Some v →
  mem_string key names = true →
  existsb (λ kv : string * PyVal, mem_string kv.1 names) d = true.
Proof.
  intros Hlook Hmem. induction d as [|[k x] d IH]; [discriminate|].
  simpl in *. destruct (String.eqb k key) eqn:E.
  - apply String.eqb_eq in E as ->. by rewrite Hmem.
  - rewrite IH by done. apply orb_true_r.
Qed.

(** X25: the entry points that forward their [**kwargs] (image, music,
    voice, script) pass [config] by position, so a call with a keyword
    argument named [config] raises [TypeError] at the call of the adapter,
    and nothing is sent. *)
Theorem generate_config_keyword_clashes :
  ∀ (fuel : nat) (self : AIModelManager) (p : AIProvider) (config : APIConfig)
    (c : Call) (v : PyVal) (vendor : Vendor) (log : Log),
    configs self !! p = Some config →
    (capability c, p) ∈ served →
    capability c ≠ Video →
    dict_lookup "config" (call_kwargs c) = Some v →
    generate fuel self (VProvider p) c vendor log
    = (Raised (TypeError "got multiple values for argument"), log).
Proof.
  intros fuel self p config c v vendor log Hcfg Hin Hnv Hkw.
  unfold served in Hin.
  repeat (apply elem_of_cons in Hin as [Hin|Hin];
          [injection Hin as Hc ->; destruct c; try discriminate Hc;
           try (by destruct Hnv);
           cbn [generate call_kwargs] in *;
           unfold generate_image, generate_music, generate_voice,
             generate_script, mbind, M_bind, lift;
           cbn [configs_get]; rewrite Hcfg;
           cbn [is_provider]; rewrite ?bool_decide_eq_true_2 by done;
           unfold forward_kwargs;
           rewrite (existsb_dict_lookup _ _ "config" v Hkw) by reflexivity;
           reflexivity|]).
  by apply elem_of_nil in Hin.
Qed.

Lemma generate_config_keyword_clashes_witness :
  generate 1 ai_manager (VProvider ELEVENLABS)
    (CallVoice "hello" None [("config", VNone)]) voice_vendor []
  = (Raised (TypeError "got multiple values for argument"), []).
Proof.
  eapply (generate_config_keyword_clashes 1 ai_manager ELEVENLABS _
            (CallVoice "hello" None [("config", VNone)]) VNone).
  - vm_compute. reflexivity.
  - unfold served. do 3 apply list_elem_of_further. apply list_elem_of_here.
  - discriminate.
  - reflexivity.
Defined.

(** X26: on the shipped registry the estimate and the adapters agree: when a
    call returns, the [cost] entry of the result is exactly what
    [estimate_cost] gives for one planned operation of that provider,
    whatever the environment. *)
Theorem estimate_matches_reported_cost :
  ∀ (env : Env) (fuel : nat) (p : AIProvider) (c : Call) (vendor : Vendor)
    (log log' : Log) (r : Result),
    generate fuel (initialize (init env)) (VProvider p) c vendor log
    = (Returned r, log') →
    ∃ cost,
      dict_lookup "cost" r = Some (VFloat cost)
      ∧ estimate_cost (initialize (init env)) [[("provider", VProvider p)]]
        = Returned cost.
Proof.
  intros env fuel p c vendor log log' r H.
  apply generate_result_shape in H
    as (q & config & name & [= <-] & Hin & Hcfg & _ & _ & Hcost).
  exists (cost_per_request config). split; [exact Hcost|].
  unfold served in Hin.
  repeat (apply elem_of_cons in Hin as [Hin|Hin];
          [injection Hin as _ ->; vm_compute in Hcfg; injection Hcfg as <-;
           vm_compute; reflexivity|]).
  by apply elem_of_nil in Hin.
Qed.

Lemma estimate_matches_reported_cost_witness :
  ∃ cost,
    dict_lookup "cost"
      [ ("audio", VBytes [Byte.x52; Byte.x49; Byte.x46; Byte.x46]);
        ("provider", VStr "ElevenLabs"); ("cost", VFloat 0.01) ]
    = Some (VFloat cost)
    ∧ estimate_cost (initialize (init no_env))
        [[("provider", VProvider ELEVENLABS)]]
      = Returned cost.
Proof.
  eapply (estimate_matches_reported_cost no_env 1 ELEVENLABS
            (CallVoice "hello" None []) voice_vendor []).
  vm_compute. reflexivity.
Defined.
